(** * News summarizer / news sentiment analyzer: the run orchestrator

    A shallow embedding of [main.py], [test.py] and
    [news_sentiment_analyzer.py]: the news fetch ([get_news],
    [get_news_for_sentiment]), the assistant managers ([create_thread],
    [process_message], [call_required_functions], the poll loop) and
    [parse_sentiment_data]; further on, the rest of the manager of [main.py]
    with its [main] (module [Session]) and the data of
    [create_sentiment_visualization] (module [Charts]).

    Conventions of the embedding.
    - A Python [str] is a [string] that holds its UTF-8 encoding, and
      [code_points] gives its characters.  The slice [[:200]] and [strip()]
      act on characters, not on bytes.  [lower()] is modelled on the letters
      A to Z: the words [parse_sentiment_data] looks for are made of the
      letters a to z, and no other character has a lower case that takes
      part in them.
    - A decoded JSON document is a [json] value; a Python dict coming from
      JSON is an association list with pairwise distinct keys.  JSON numbers
      are restricted to integers.
    - A Python exception is a constructor of [exn]; a computation that may
      raise returns a [result].
    - The collaborators (the HTTP client, the remote assistant service, the
      [json] module, the process environment) are the fields of a [World].
      Every call to a collaborator is recorded in the [trace] of the state,
      newest event first, and a collaborator answers from the history of
      calls made so far.  The HTTP client may raise; the calls to the remote
      assistant service are taken to return.
    - [print] is not modelled. *)

From Stdlib Require Import ZArith List String Ascii Bool Lia.
From Stdlib Require Import DecimalString.
From Stdlib Require Import Floats.PrimFloat.
Import ListNotations.

Open Scope string_scope.
Open Scope Z_scope.

#[local] Set Warnings "-register-all,-inexact-float".

(** ** Python values and exceptions *)

Inductive json : Type :=
| JNull
| JBool (b : bool)
| JInt (n : Z)
| JStr (s : string)
| JList (items : list json)
| JDict (entries : list (string * json)).

(** The exception classes the code can meet.  [JSONDecodeError] is the one of
    the [json] module (a subclass of [ValueError]); [RequestException] stands
    for [requests.exceptions.RequestException] and all its subclasses. *)
Inductive exn : Type :=
| KeyError (key : string)
| IndexError
| TypeError
| AttributeError
| ValueError (msg : string)
| JSONDecodeError
| RequestException.

Inductive result (A : Type) : Type :=
| Ok (a : A)
| Raise (e : exn).

Arguments Ok {A} a.
Arguments Raise {A} e.

Definition rbind {A B : Type} (r : result A) (k : A -> result B) : result B :=
  match r with
  | Ok a => k a
  | Raise e => Raise e
  end.

Declare Scope result_scope.
Delimit Scope result_scope with result.
Notation "'let?' x ':=' r 'in' k" := (rbind r (fun x => k))
  (at level 10, x name, r at level 100, k at level 200) : result_scope.

(** [for x in xs: ys.append(f(x))], where [f] may raise. *)
Fixpoint rmap {A B : Type} (f : A -> result B) (xs : list A) : result (list B) :=
  match xs with
  | [] => Ok []
  | x :: xs' =>
      match f x with
      | Raise e => Raise e
      | Ok y =>
          match rmap f xs' with
          | Raise e => Raise e
          | Ok ys => Ok (y :: ys)
          end
      end
  end.

(** The same loop under [enumerate]: [f] also receives the index. *)
Fixpoint rmapi {A B : Type} (f : nat -> A -> result B) (i : nat) (xs : list A)
  : result (list B) :=
  match xs with
  | [] => Ok []
  | x :: xs' =>
      match f i x with
      | Raise e => Raise e
      | Ok y =>
          match rmapi f (S i) xs' with
          | Raise e => Raise e
          | Ok ys => Ok (y :: ys)
          end
      end
  end.

Definition is_ok {A : Type} (r : result A) : bool :=
  match r with
  | Ok _ => true
  | Raise _ => false
  end.

(** ** Strings *)

Definition nl : string := String (ascii_of_nat 10) EmptyString.

Fixpoint spaces (n : nat) : string :=
  match n with
  | O => EmptyString
  | S n' => String " "%char (spaces n')
  end.

(** [sep.join(xs)] *)
Fixpoint join (sep : string) (xs : list string) : string :=
  match xs with
  | [] => EmptyString
  | [x] => x
  | x :: xs' => x ++ sep ++ join sep xs'
  end.

(** [needle in hay] for two strings. *)
Fixpoint contains (needle hay : string) : bool :=
  if prefix needle hay then true
  else
    match hay with
    | EmptyString => false
    | String _ hay' => contains needle hay'
    end.

Definition lower_ascii (c : ascii) : ascii :=
  let n := nat_of_ascii c in
  if ((65 <=? n) && (n <=? 90))%nat then ascii_of_nat (n + 32) else c.

(** [s.lower()] *)
Fixpoint lower (s : string) : string :=
  match s with
  | EmptyString => EmptyString
  | String c s' => String (lower_ascii c) (lower s')
  end.

(** [str(n)] for an integer. *)
Definition str_of_Z (n : Z) : string := NilZero.string_of_int (Z.to_int n).

(** A double quote, for the texts that hold one. *)
Definition dq : string := String (ascii_of_nat 34) EmptyString.

(** *** Characters

    A text is kept as its UTF-8 encoding: a character is a lead byte
    followed by its continuation bytes, the bytes 10xxxxxx. *)

Definition is_continuation (c : ascii) : bool :=
  let n := nat_of_ascii c in ((128 <=? n) && (n <=? 191))%nat.

(** The characters of a text, each as its lead byte with its continuation
    bytes; before them, the continuation bytes that come ahead of the first
    lead byte (a well-formed text has none). *)
Fixpoint split_chars (s : string) : list ascii * list (ascii * list ascii) :=
  match s with
  | EmptyString => ([], [])
  | String c s' =>
      let '(continuation, chars) := split_chars s' in
      if is_continuation c then (c :: continuation, chars)
      else ([], (c, continuation) :: chars)
  end.

(** The code point of a character: the payload of the lead byte (0xxxxxxx,
    110xxxxx, 1110xxxx or 11110xxx), then six bits of each continuation
    byte. *)
Definition code_point (ch : ascii * list ascii) : N :=
  let lead := N_of_ascii (fst ch) in
  let payload :=
    (if lead <? 128 then lead
     else if lead <? 224 then lead mod 32
     else if lead <? 240 then lead mod 16
     else lead mod 8)%N in
  fold_left (fun acc b => (acc * 64 + N_of_ascii b mod 64)%N) (snd ch) payload.

(** The characters of a text, as Python indexes them. *)
Definition code_points (s : string) : list N :=
  map code_point (snd (split_chars s)).

(** [s[:n]]: the first [n] characters of [s]. *)
Fixpoint slice_to (n : nat) (s : string) : string :=
  match s with
  | EmptyString => EmptyString
  | String c s' =>
      if is_continuation c then String c (slice_to n s')
      else
        match n with
        | O => EmptyString
        | S n' => String c (slice_to n' s')
        end
  end.

(** [c.isspace()] for a character: the characters of the category Zs and of
    the bidirectional classes WS, B and S. *)
Definition isspace (c : N) : bool :=
  (((9 <=? c) && (c <=? 13)) || ((28 <=? c) && (c <=? 32))
   || (c =? 133) || (c =? 160) || (c =? 5760)
   || ((8192 <=? c) && (c <=? 8202))
   || (c =? 8232) || (c =? 8233) || (c =? 8239) || (c =? 8287)
   || (c =? 12288))%N.

(** [s.lstrip()] on the characters of [s]. *)
Fixpoint lstrip (l : list N) : list N :=
  match l with
  | [] => []
  | c :: l' => if isspace c then lstrip l' else l
  end.

(** [s.strip()]: the characters that are left. *)
Definition strip (s : string) : list N :=
  rev (lstrip (rev (lstrip (code_points s)))).

(** ** Operations on JSON values, as Python performs them *)

(** [d[k]] and [d.get(k)] on the entries of a dict. *)
Fixpoint dict_lookup (k : string) (d : list (string * json)) : option json :=
  match d with
  | [] => None
  | (k', v) :: d' => if String.eqb k k' then Some v else dict_lookup k d'
  end.

(** [v[k]] with a string key: only a dict can be subscripted by a string. *)
Definition getitem (v : json) (k : string) : result json :=
  match v with
  | JDict d =>
      match dict_lookup k d with
      | Some x => Ok x
      | None => Raise (KeyError k)
      end
  | _ => Raise TypeError
  end.

(** [v.get(k, default)]: only a dict has the method. *)
Definition get (v : json) (k : string) (default : json) : result json :=
  match v with
  | JDict d =>
      match dict_lookup k d with
      | Some x => Ok x
      | None => Ok default
      end
  | _ => Raise AttributeError
  end.

(** [for x in v]: a list yields its items, a dict its keys, a string its
    characters; [None], booleans and integers are not iterable. *)
Definition iter (v : json) : result (list json) :=
  match v with
  | JList l => Ok l
  | JDict d => Ok (map (fun kv => JStr (fst kv)) d)
  | JStr s => Ok (map (fun c => JStr (String c EmptyString)) (list_ascii_of_string s))
  | _ => Raise TypeError
  end.

(** Truth value of an optional string ([None] and the empty string are false). *)
Definition truthy (o : option string) : bool :=
  match o with
  | Some (String _ _) => true
  | _ => false
  end.

(** ** The collaborators *)

(** What [requests.get] returns: the status code, the outcome of
    [response.json()] (the decoded body, or the exception decoding raises)
    and [response.text]. *)
Record Response : Type := {
  status_code : Z;
  response_json : result json;
  response_text : string
}.

(** The objects of the remote assistant service, with the attributes the code
    reads. *)
Record Assistant : Type := { assistant_obj_id : string }.
Record Thread : Type := { thread_obj_id : string }.
Record Run : Type := { run_obj_id : string }.

(** One entry of [required_action.submit_tool_outputs.tool_calls] after
    [model_dump()]: [action["id"]], [action["function"]["name"]] and
    [action["function"]["arguments"]]. *)
Record ToolCall : Type := {
  call_id : string;
  function_name : string;
  function_arguments : string
}.

(** What [runs.retrieve] returns: [run_status.status] and
    [run_status.required_action] ([None] when the run asks for nothing). *)
Record RunStatus : Type := {
  status : string;
  required_action : option (list ToolCall)
}.

(** An element of [message.content]: a text block has [.text.value], any
    other block (an image) has no [.text]. *)
Inductive ContentBlock : Type :=
| TextBlock (value : string)
| OtherBlock.

Record Message : Type := {
  role : string;
  content : list ContentBlock
}.

(** One element of the [tool_outputs] list. *)
Record ToolOutput : Type := {
  tool_call_id : string;
  output : string
}.

(** The calls made to the collaborators. *)
Inductive event : Type :=
| EvSleep (seconds : Z)
| EvHttpGet (url : string)
| EvAssistantsRetrieve (assistant_id : string)
| EvThreadsCreate
| EvThreadsRetrieve (thread_id : string)
| EvRunsRetrieve (thread_id run_id : string)
| EvMessagesList (thread_id : string)
| EvSubmitToolOutputs (thread_id run_id : string) (tool_outputs : list ToolOutput).

(** The environment of a process.  Each collaborator receives the history of
    the calls made before this one (newest first). *)
Record World : Type := {
  news_api_key : option string;
  repr : json -> string;
  json_loads : string -> result json;
  requests_get : list event -> string -> result Response;
  assistants_retrieve : list event -> string -> Assistant;
  threads_create : list event -> Thread;
  threads_retrieve : list event -> string -> Thread;
  runs_retrieve : list event -> string -> string -> RunStatus;
  messages_list : list event -> string -> list Message
}.

(** [str(v)], as an f-string field formats a value: [repr] stands for the
    interpreter's rendering of lists and dicts. *)
Definition str (w : World) (v : json) : string :=
  match v with
  | JNull => "None"
  | JBool true => "True"
  | JBool false => "False"
  | JInt n => str_of_Z n
  | JStr s => s
  | JList _ | JDict _ => repr w v
  end.

(** [str] of an optional string ([os.environ.get] returns [None] for an unset
    variable). *)
Definition str_opt (o : option string) : string :=
  match o with
  | Some s => s
  | None => "None"
  end.

(** [v[:200]]: strings and lists can be sliced; a string is cut after its
    first 200 characters, and the slice of a list is formatted by [repr].
    Slicing [None], a number or a dict raises (for a dict, [TypeError] up to
    Python 3.11). *)
Definition slice200 (w : World) (v : json) : result string :=
  match v with
  | JStr s => Ok (slice_to 200 s)
  | JList l => Ok (repr w (JList (firstn 200 l)))
  | _ => Raise TypeError
  end.

(** [except requests.exceptions.RequestException: return []] *)
Definition except_RequestException {A : Type} (r : result (list A)) : result (list A) :=
  match r with
  | Raise RequestException => Ok []
  | _ => r
  end.

(** The loop [for action in required_actions["tool_calls"]], where [resolve]
    is one turn of it: given the history, the events of the turn (newest
    first) and the entry appended to [tool_outputs], or the exception raised.
    The loop gives the events it adds (newest first) and the final
    [tool_outputs], or the exception that ends it. *)
Fixpoint for_each_action
    (resolve : list event -> ToolCall -> list event * result ToolOutput)
    (history : list event) (actions : list ToolCall)
  : list event * result (list ToolOutput) :=
  match actions with
  | [] => ([], Ok [])
  | action :: rest =>
      let '(evs, r) := resolve history action in
      match r with
      | Raise e => (evs, Raise e)
      | Ok out =>
          let '(evs', r') := for_each_action resolve (evs ++ history)%list rest in
          match r' with
          | Raise e => ((evs' ++ evs)%list, Raise e)
          | Ok outs => ((evs' ++ evs)%list, Ok (out :: outs))
          end
      end
  end.

(** ** [main.py] (and [test.py], which differs from it in the request
    headers, in the prompt texts and in two method names only) *)

Module Main.

(** The formatted block of one article, the f-string [title_description]:
    a line break, then five lines indented by 19 spaces,
<<
                   Title: {title},
                   Author: {author},
                   Source: {source_name},
                   Description: {description},
                   URL: {url}
>>
    (the first of them ends in a comma and a space), then a line of 12
    spaces and, last, 16 spaces. *)
Definition title_description (title author source_name description url : string)
  : string :=
  nl ++ spaces 19 ++ "Title: " ++ title ++ ", " ++
  nl ++ spaces 19 ++ "Author: " ++ author ++ "," ++
  nl ++ spaces 19 ++ "Source: " ++ source_name ++ "," ++
  nl ++ spaces 19 ++ "Description: " ++ description ++ "," ++
  nl ++ spaces 19 ++ "URL: " ++ url ++
  nl ++ spaces 12 ++
  nl ++ spaces 16.

(** The body of the loop [for article in articles]. *)
Definition format_article (w : World) (article : json) : result string :=
  (let? source := getitem article "source" in
   let? source_name := getitem source "name" in
   let? author := getitem article "author" in
   let? title := getitem article "title" in
   let? description := getitem article "description" in
   let? url := getitem article "url" in
   let? content := getitem article "content" in
   Ok (title_description (str w title) (str w author) (str w source_name)
         (str w description) (str w url)))%result.

(** The branch [if response.status_code == 200].  [json.loads(json.dumps(x))]
    gives back [x]. *)
Definition parse_news (w : World) (response : Response) : result (list string) :=
  (let? data := response_json response in
   let? status := getitem data "status" in
   let? total_results := getitem data "totalResults" in
   let? articles := getitem data "articles" in
   let? items := iter articles in
   rmap (format_article w) items)%result.

Definition news_url (w : World) (topic : json) : string :=
  "https://newsapi.org/v2/everything?q=" ++ str w topic ++
  "&apiKey=" ++ str_opt (news_api_key w) ++ "&pageSize=5".

(** [get_news(topic)], given the history of calls: the event it adds and what
    it returns or raises. *)
Definition get_news (w : World) (history : list event) (topic : json)
  : event * result (list string) :=
  let url := news_url w topic in
  (EvHttpGet url,
   except_RequestException
     (let? response := requests_get w history url in
      if status_code response =? 200 then parse_news w response
      else Ok [])%result).

(** The manager together with the class attributes it shares with the other
    instances, and the trace of the process. *)
Record State : Type := {
  thread_id : option string;      (* AssistantManager.thread_id *)
  assistant_id : option string;   (* AssistantManager.assistant_id *)
  assistant : option Assistant;   (* self.assistant *)
  thread : option Thread;         (* self.thread *)
  run : option Run;               (* self.run *)
  summary : option string;        (* self.summary *)
  trace : list event
}.

Definition log (e : event) (s : State) : State :=
  {| thread_id := thread_id s; assistant_id := assistant_id s;
     assistant := assistant s; thread := thread s; run := run s;
     summary := summary s; trace := e :: trace s |}.

(** A process that has not created anything yet. *)
Definition fresh : State :=
  {| thread_id := None; assistant_id := None; assistant := None;
     thread := None; run := None; summary := None; trace := [] |}.

(** [AssistantManager()]: a new instance in the process [s]. *)
Definition __init__ (w : World) (s : State) : State :=
  let s0 :=
    {| thread_id := thread_id s; assistant_id := assistant_id s;
       assistant := None; thread := None; run := None; summary := None;
       trace := trace s |} in
  let s1 :=
    if truthy (assistant_id s0) then
      let id := str_opt (assistant_id s0) in
      {| thread_id := thread_id s0; assistant_id := assistant_id s0;
         assistant := Some (assistants_retrieve w (trace s0) id);
         thread := thread s0; run := run s0; summary := summary s0;
         trace := EvAssistantsRetrieve id :: trace s0 |}
    else s0 in
  if truthy (thread_id s1) then
    let id := str_opt (thread_id s1) in
    {| thread_id := thread_id s1; assistant_id := assistant_id s1;
       assistant := assistant s1;
       thread := Some (threads_retrieve w (trace s1) id);
       run := run s1; summary := summary s1;
       trace := EvThreadsRetrieve id :: trace s1 |}
  else s1.

(** [create_thread()] *)
Definition create_thread (w : World) (s : State) : State :=
  match thread s with
  | Some _ => s
  | None =>
      let thread_obj := threads_create w (trace s) in
      {| thread_id := Some (thread_obj_id thread_obj);
         assistant_id := assistant_id s; assistant := assistant s;
         thread := Some thread_obj; run := run s; summary := summary s;
         trace := EvThreadsCreate :: trace s |}
  end.

(** [process_message()] *)
Definition process_message (w : World) (s : State) : result unit * State :=
  match thread s with
  | None => (Ok tt, s)
  | Some t =>
      let data := messages_list w (trace s) (thread_obj_id t) in
      let s1 := log (EvMessagesList (thread_obj_id t)) s in
      match data with
      | [] => (Raise IndexError, s1)
      | last_message :: _ =>
          match content last_message with
          | [] => (Raise IndexError, s1)
          | OtherBlock :: _ => (Raise AttributeError, s1)
          | TextBlock response :: _ =>
              (Ok tt,
               {| thread_id := thread_id s1; assistant_id := assistant_id s1;
                  assistant := assistant s1; thread := thread s1; run := run s1;
                  summary := Some (join nl [response]); trace := trace s1 |})
          end
      end
  end.

(** One turn of the loop [for action in required_actions["tool_calls"]]:
    the events of the turn (newest first) and the entry appended to
    [tool_outputs], or the exception raised. *)
Definition resolve_action (w : World) (history : list event) (action : ToolCall)
  : list event * result ToolOutput :=
  match json_loads w (function_arguments action) with
  | Raise e => ([], Raise e)
  | Ok arguments =>
      if String.eqb (function_name action) "get_news" then
        match getitem arguments "topic" with
        | Raise e => ([], Raise e)
        | Ok topic =>
            let '(ev, r) := get_news w history topic in
            match r with
            | Raise e => ([ev], Raise e)
            | Ok out =>
                ([ev], Ok {| tool_call_id := call_id action;
                             output := String.concat "" out |})
            end
        end
      else ([], Raise (ValueError ("Unknown function: " ++ function_name action)))
  end.

(** The whole [for] loop. *)
Definition resolve_actions (w : World) (history : list event) (actions : list ToolCall)
  : list event * result (list ToolOutput) :=
  for_each_action (resolve_action w) history actions.

Definition add_events (evs : list event) (s : State) : State :=
  {| thread_id := thread_id s; assistant_id := assistant_id s;
     assistant := assistant s; thread := thread s; run := run s;
     summary := summary s; trace := (evs ++ trace s)%list |}.

(** [call_required_functions(required_actions)] *)
Definition call_required_functions (w : World) (tool_calls : list ToolCall) (s : State)
  : result unit * State :=
  match run s with
  | None => (Ok tt, s)
  | Some r =>
      let '(evs, res) := resolve_actions w (trace s) tool_calls in
      let s1 := add_events evs s in
      match res with
      | Raise e => (Raise e, s1)
      | Ok tool_outputs =>
          match thread s1 with
          | None => (Raise AttributeError, s1)
          | Some t =>
              (Ok tt,
               log (EvSubmitToolOutputs (thread_obj_id t) (run_obj_id r) tool_outputs) s1)
          end
      end
  end.

(** The loop of [wait_for_run_completion], cut after [fuel] polls.  [None]
    says that the loop is still running after that many polls; [Some r] that
    it has ended, by [break] ([Ok]) or by an exception. *)
Fixpoint poll (w : World) (fuel : nat) (s : State) : option (result unit) * State :=
  match fuel with
  | O => (None, s)
  | S fuel' =>
      let s1 := log (EvSleep 5) s in
      match thread s1, run s1 with
      | Some t, Some r =>
          let run_status := runs_retrieve w (trace s1) (thread_obj_id t) (run_obj_id r) in
          let s2 := log (EvRunsRetrieve (thread_obj_id t) (run_obj_id r)) s1 in
          if String.eqb (status run_status) "completed" then
            let '(res, s3) := process_message w s2 in (Some res, s3)
          else if String.eqb (status run_status) "requires_action" then
            match required_action run_status with
            | None => (Some (Raise AttributeError), s2)
            | Some tool_calls =>
                match call_required_functions w tool_calls s2 with
                | (Ok _, s3) => poll w fuel' s3
                | (Raise e, s3) => (Some (Raise e), s3)
                end
            end
          else poll w fuel' s2
      | _, _ => (Some (Raise AttributeError), s1)
      end
  end.

(** [wait_for_run_completion()] ([wait_for_completion()] in [test.py]). *)
Definition wait_for_run_completion (w : World) (fuel : nat) (s : State)
  : option (result unit) * State :=
  match thread s, run s with
  | Some _, Some _ => poll w fuel s
  | _, _ => (Some (Ok tt), s)
  end.

(** [get_summary()] *)
Definition get_summary (s : State) : option string := summary s.

End Main.

(** ** [test.py]

    Its [get_news] and its [AssistantManager] are those of [main.py] without
    the [extra_headers] arguments, which the events do not record; two
    methods have other names. *)

Module Test.

Definition get_news := Main.get_news.
Definition create_thread := Main.create_thread.
Definition process_message := Main.process_message.
Definition call_required_functions := Main.call_required_functions.
Definition wait_for_completion := Main.wait_for_run_completion.

End Test.

(** ** [news_sentiment_analyzer.py] *)

Module Sentiment.

(** The formatted block of one article, the f-string [article_text]: a
    line break, then seven lines indented by 16 spaces,
<<
                Article {i+1}:
                Title: {title}
                Source: {source_name}
                Published: {published_at}
                Description: {description}
                Content: {content[:200]}...
                ---
>>
    and, last, 16 spaces. *)
Definition article_text (number title source_name published_at description content200 : string)
  : string :=
  nl ++ spaces 16 ++ "Article " ++ number ++ ":" ++
  nl ++ spaces 16 ++ "Title: " ++ title ++
  nl ++ spaces 16 ++ "Source: " ++ source_name ++
  nl ++ spaces 16 ++ "Published: " ++ published_at ++
  nl ++ spaces 16 ++ "Description: " ++ description ++
  nl ++ spaces 16 ++ "Content: " ++ content200 ++ "..." ++
  nl ++ spaces 16 ++ "---" ++
  nl ++ spaces 16.

(** The body of the loop [for i, article in enumerate(articles)]. *)
Definition format_article (w : World) (i : nat) (article : json) : result string :=
  (let? title := get article "title" (JStr "No title") in
   let? description := get article "description" (JStr "No description") in
   let? source := get article "source" (JDict []) in
   let? source_name := get source "name" (JStr "Unknown source") in
   let? published_at := get article "publishedAt" (JStr "Unknown date") in
   let? content := get article "content" (JStr "No content") in
   let? content200 := slice200 w content in
   Ok (article_text (str_of_Z (Z.of_nat i + 1)) (str w title) (str w source_name)
         (str w published_at) (str w description) content200))%result.

(** The branch [if response.status_code == 200]. *)
Definition parse_news (w : World) (response : Response) : result (list string) :=
  (let? data := response_json response in
   let? articles := get data "articles" (JList []) in
   let? items := iter articles in
   rmapi (format_article w) 0 items)%result.

Definition news_url (w : World) (topic page_size : json) : string :=
  "https://newsapi.org/v2/everything?" ++
  "q=" ++ str w topic ++ "&" ++
  "apiKey=" ++ str_opt (news_api_key w) ++ "&" ++
  "pageSize=" ++ str w page_size ++ "&" ++
  "sortBy=publishedAt&" ++
  "language=en".

(** [get_news_for_sentiment(topic, page_size)], given the history of calls:
    the event it adds and what it returns or raises. *)
Definition get_news_for_sentiment (w : World) (history : list event) (topic page_size : json)
  : event * result (list string) :=
  let url := news_url w topic page_size in
  (EvHttpGet url,
   except_RequestException
     (let? response := requests_get w history url in
      if status_code response =? 200 then parse_news w response
      else Ok [])%result).

Record State : Type := {
  thread_id : option string;            (* SentimentAssistantManager.thread_id *)
  assistant_id : option string;         (* SentimentAssistantManager.assistant_id *)
  assistant : option Assistant;         (* self.assistant *)
  thread : option Thread;               (* self.thread *)
  run : option Run;                     (* self.run *)
  sentiment_analysis : option string;   (* self.sentiment_analysis *)
  trace : list event
}.

Definition log (e : event) (s : State) : State :=
  {| thread_id := thread_id s; assistant_id := assistant_id s;
     assistant := assistant s; thread := thread s; run := run s;
     sentiment_analysis := sentiment_analysis s; trace := e :: trace s |}.

Definition add_events (evs : list event) (s : State) : State :=
  {| thread_id := thread_id s; assistant_id := assistant_id s;
     assistant := assistant s; thread := thread s; run := run s;
     sentiment_analysis := sentiment_analysis s; trace := (evs ++ trace s)%list |}.

Definition fresh : State :=
  {| thread_id := None; assistant_id := None; assistant := None;
     thread := None; run := None; sentiment_analysis := None; trace := [] |}.

(** [create_thread()] *)
Definition create_thread (w : World) (s : State) : State :=
  match thread s with
  | Some _ => s
  | None =>
      let thread_obj := threads_create w (trace s) in
      {| thread_id := Some (thread_obj_id thread_obj);
         assistant_id := assistant_id s; assistant := assistant s;
         thread := Some thread_obj; run := run s;
         sentiment_analysis := sentiment_analysis s;
         trace := EvThreadsCreate :: trace s |}
  end.

(** [process_sentiment_results()] *)
Definition process_sentiment_results (w : World) (s : State) : result unit * State :=
  match thread s with
  | None => (Ok tt, s)
  | Some t =>
      let data := messages_list w (trace s) (thread_obj_id t) in
      let s1 := log (EvMessagesList (thread_obj_id t)) s in
      match data with
      | [] => (Raise IndexError, s1)
      | last_message :: _ =>
          match content last_message with
          | [] => (Raise IndexError, s1)
          | OtherBlock :: _ => (Raise AttributeError, s1)
          | TextBlock sentiment_response :: _ =>
              (Ok tt,
               {| thread_id := thread_id s1; assistant_id := assistant_id s1;
                  assistant := assistant s1; thread := thread s1; run := run s1;
                  sentiment_analysis := Some sentiment_response;
                  trace := trace s1 |})
          end
      end
  end.

(** One turn of the loop [for action in required_actions["tool_calls"]]. *)
Definition resolve_action (w : World) (history : list event) (action : ToolCall)
  : list event * result ToolOutput :=
  match json_loads w (function_arguments action) with
  | Raise e => ([], Raise e)
  | Ok arguments =>
      if String.eqb (function_name action) "get_news_for_sentiment" then
        match getitem arguments "topic" with
        | Raise e => ([], Raise e)
        | Ok topic =>
            match get arguments "page_size" (JInt 10) with
            | Raise e => ([], Raise e)
            | Ok page_size =>
                let '(ev, r) := get_news_for_sentiment w history topic page_size in
                match r with
                | Raise e => ([ev], Raise e)
                | Ok articles =>
                    ([ev], Ok {| tool_call_id := call_id action;
                                 output := join nl articles |})
                end
            end
        end
      else ([], Raise (ValueError ("Unknown function: " ++ function_name action)))
  end.

Definition resolve_actions (w : World) (history : list event) (actions : list ToolCall)
  : list event * result (list ToolOutput) :=
  for_each_action (resolve_action w) history actions.

(** [call_sentiment_functions(required_actions)] *)
Definition call_sentiment_functions (w : World) (tool_calls : list ToolCall) (s : State)
  : result unit * State :=
  match run s with
  | None => (Ok tt, s)
  | Some r =>
      let '(evs, res) := resolve_actions w (trace s) tool_calls in
      let s1 := add_events evs s in
      match res with
      | Raise e => (Raise e, s1)
      | Ok tool_outputs =>
          match thread s1 with
          | None => (Raise AttributeError, s1)
          | Some t =>
              (Ok tt,
               log (EvSubmitToolOutputs (thread_obj_id t) (run_obj_id r) tool_outputs) s1)
          end
      end
  end.

(** The loop of [wait_for_sentiment_completion], cut after [fuel] polls. *)
Fixpoint poll (w : World) (fuel : nat) (s : State) : option (result unit) * State :=
  match fuel with
  | O => (None, s)
  | S fuel' =>
      let s1 := log (EvSleep 5) s in
      match thread s1, run s1 with
      | Some t, Some r =>
          let run_status := runs_retrieve w (trace s1) (thread_obj_id t) (run_obj_id r) in
          let s2 := log (EvRunsRetrieve (thread_obj_id t) (run_obj_id r)) s1 in
          if String.eqb (status run_status) "completed" then
            let '(res, s3) := process_sentiment_results w s2 in (Some res, s3)
          else if String.eqb (status run_status) "requires_action" then
            match required_action run_status with
            | None => (Some (Raise AttributeError), s2)
            | Some tool_calls =>
                match call_sentiment_functions w tool_calls s2 with
                | (Ok _, s3) => poll w fuel' s3
                | (Raise e, s3) => (Some (Raise e), s3)
                end
            end
          else poll w fuel' s2
      | _, _ => (Some (Raise AttributeError), s1)
      end
  end.

(** [wait_for_sentiment_completion()] *)
Definition wait_for_sentiment_completion (w : World) (fuel : nat) (s : State)
  : option (result unit) * State :=
  match thread s, run s with
  | Some _, Some _ => poll w fuel s
  | _, _ => (Some (Ok tt), s)
  end.

(** The dict [parse_sentiment_data] returns. *)
Record SentimentData : Type := {
  score : float;
  category : string;
  confidence : Z;
  analysis : string
}.

(** [parse_sentiment_data()] *)
Definition parse_sentiment_data (s : State) : option SentimentData :=
  if truthy (sentiment_analysis s) then
    let text := str_opt (sentiment_analysis s) in
    let analysis_text := lower text in
    let '(score, category) :=
      if contains "positive" analysis_text then
        ((if contains "very positive" analysis_text
             || contains "highly positive" analysis_text then 0.8
          else if contains "moderately positive" analysis_text then 0.5
          else 0.3)%float,
         "Positive")
      else if contains "negative" analysis_text then
        ((if contains "very negative" analysis_text
             || contains "highly negative" analysis_text then -0.8
          else if contains "moderately negative" analysis_text then -0.5
          else -0.3)%float,
         "Negative")
      else (0.0%float, "Neutral") in
    Some {| score := score; category := category; confidence := 85;
            analysis := text |}
  else None.

End Sentiment.

(** ** Observations on traces and worlds *)

(** The batches handed to [submit_tool_outputs], newest first. *)
Fixpoint submitted (tr : list event) : list (list ToolOutput) :=
  match tr with
  | [] => []
  | EvSubmitToolOutputs _ _ outs :: tr' => outs :: submitted tr'
  | _ :: tr' => submitted tr'
  end.

(** The number of status checks ([runs.retrieve]) in a trace. *)
Fixpoint polls (tr : list event) : nat :=
  match tr with
  | [] => O
  | EvRunsRetrieve _ _ :: tr' => S (polls tr')
  | _ :: tr' => polls tr'
  end.

(** The number of threads created in a trace. *)
Fixpoint threads_created (tr : list event) : nat :=
  match tr with
  | [] => O
  | EvThreadsCreate :: tr' => S (threads_created tr')
  | _ :: tr' => threads_created tr'
  end.

(** A trace (newest first) is paced when every status check comes right after
    a sleep of 5 seconds, and there is no other sleep. *)
Fixpoint paced (tr : list event) : bool :=
  match tr with
  | [] => true
  | EvRunsRetrieve _ _ :: tr' =>
      match tr' with
      | EvSleep d :: tr'' => (d =? 5) && paced tr''
      | _ => false
      end
  | EvSleep _ :: _ => false
  | _ :: tr' => paced tr'
  end.

(** The calls to the search service. *)
Definition is_search (e : event) : bool :=
  match e with
  | EvHttpGet _ => true
  | _ => false
  end.

(** The search collaborator fails: it answers with a status other than 200,
    or the request raises a transport error. *)
Definition search_fails (w : World) (history : list event) (url : string) : Prop :=
  match requests_get w history url with
  | Ok response => status_code response <> 200
  | Raise e => e = RequestException
  end.

(** [get_news_for_sentiment]: an article is tolerated when it is a dict whose
    [source], if present, is a dict and whose [content], if present, is a
    string. *)
Definition tolerated (article : json) : Prop :=
  exists d,
    article = JDict d
    /\ (dict_lookup "source" d = None \/ exists sd, dict_lookup "source" d = Some (JDict sd))
    /\ (dict_lookup "content" d = None \/ exists c, dict_lookup "content" d = Some (JStr c)).

(** The fetch a callback request asks for returns, whatever the history: its
    arguments decode, name a topic, and [get_news] does not raise. *)
Definition main_fetch_succeeds (w : World) (a : ToolCall) : Prop :=
  forall h, exists arguments topic,
    json_loads w (function_arguments a) = Ok arguments
    /\ getitem arguments "topic" = Ok topic
    /\ is_ok (snd (Main.get_news w h topic)) = true.


(** The trace of [n] polls that lead to no action, newest first. *)
Definition ticks (n : nat) (thread_id run_id : string) : list event :=
  List.concat (repeat [EvRunsRetrieve thread_id run_id; EvSleep 5] n).

(** The remote run reports the status [st] at every poll. *)
Definition always_reports (w : World) (st : string) : Prop :=
  forall h thread_id run_id, status (runs_retrieve w h thread_id run_id) = st.



(** The world [w] with another remote run: [runs.retrieve] answers by [f]. *)
Definition with_runs (w : World) (f : list event -> string -> string -> RunStatus) : World :=
  {| news_api_key := news_api_key w; repr := repr w; json_loads := json_loads w;
     requests_get := requests_get w; assistants_retrieve := assistants_retrieve w;
     threads_create := threads_create w; threads_retrieve := threads_retrieve w;
     runs_retrieve := f; messages_list := messages_list w |}.

(** ** Scenarios *)

Module Scenario.

(** An article as the search service sends it, and one without [author]. *)
Definition full_article : json :=
  JDict [("source", JDict [("id", JNull); ("name", JStr "Wire")]);
         ("author", JStr "A. Writer"); ("title", JStr "Bitcoin rallies");
         ("description", JStr "Prices rose."); ("url", JStr "https://example.org/1");
         ("publishedAt", JStr "2025-01-01T00:00:00Z"); ("content", JStr "Prices rose today.")].

Definition article_without_author : json :=
  JDict [("source", JDict [("id", JNull); ("name", JStr "Wire")]);
         ("title", JStr "Bitcoin dips");
         ("url", JStr "https://example.org/2");
         ("publishedAt", JStr "2025-01-02T00:00:00Z"); ("content", JStr "Prices fell today.")].

Definition search_body (articles : list json) : json :=
  JDict [("status", JStr "ok"); ("totalResults", JInt (Z.of_nat (List.length articles)));
         ("articles", JList articles)].

(** The arguments of a request for the topic bitcoin: the JSON text of an
    object with the one key topic, both the key and the value between double
    quotes. *)
Definition topic_arguments : string :=
  "{" ++ dq ++ "topic" ++ dq ++ ": " ++ dq ++ "bitcoin" ++ dq ++ "}".

(** [json.loads] on the argument strings the scenarios use: the two JSON
    texts are decoded; the one other text they use, the same object written
    without its quotes, is no JSON and makes [json.loads] raise. *)
Definition loads (text : string) : result json :=
  if String.eqb text topic_arguments then Ok (JDict [("topic", JStr "bitcoin")])
  else if String.eqb text "{}" then Ok (JDict [])
  else Raise JSONDecodeError.

(** A world whose search answers [search], whose run always reports
    [run_status] and whose thread lists [messages]. *)
Definition world (search : result Response) (run_status : RunStatus)
    (messages : list Message) : World :=
  {| news_api_key := Some "key";
     repr := fun _ => "[...]";
     json_loads := loads;
     requests_get := fun _ _ => search;
     assistants_retrieve := fun _ id => {| assistant_obj_id := id |};
     threads_create := fun _ => {| thread_obj_id := "thread_1" |};
     threads_retrieve := fun _ id => {| thread_obj_id := id |};
     runs_retrieve := fun _ _ _ => run_status;
     messages_list := fun _ _ => messages |}.

Definition answers (code : Z) (articles : list json) : result Response :=
  Ok {| status_code := code; response_json := Ok (search_body articles);
        response_text := "" |}.

Definition reports (st : string) : RunStatus :=
  {| status := st; required_action := None |}.

Definition asks (calls : list ToolCall) : RunStatus :=
  {| status := "requires_action"; required_action := Some calls |}.

Definition user_message : Message :=
  {| role := "user";
     content := [TextBlock "summarize the news on this topic bitcoin?"] |}.

Definition assistant_message : Message :=
  {| role := "assistant"; content := [TextBlock "Bitcoin news is mixed."] |}.

(** A manager of [main.py] with a thread and a run. *)
Definition running : Main.State :=
  {| Main.thread_id := Some "thread_1"; Main.assistant_id := Some "asst_1";
     Main.assistant := Some {| assistant_obj_id := "asst_1" |};
     Main.thread := Some {| thread_obj_id := "thread_1" |};
     Main.run := Some {| run_obj_id := "run_1" |};
     Main.summary := None; Main.trace := [] |}.

(** A manager of [news_sentiment_analyzer.py] with a thread and a run. *)
Definition analysing : Sentiment.State :=
  {| Sentiment.thread_id := Some "thread_1"; Sentiment.assistant_id := Some "asst_1";
     Sentiment.assistant := Some {| assistant_obj_id := "asst_1" |};
     Sentiment.thread := Some {| thread_obj_id := "thread_1" |};
     Sentiment.run := Some {| run_obj_id := "run_1" |};
     Sentiment.sentiment_analysis := None; Sentiment.trace := [] |}.

Definition news_call (id : string) : ToolCall :=
  {| call_id := id; function_name := "get_news";
     function_arguments := topic_arguments |}.

Definition sentiment_call (id : string) : ToolCall :=
  {| call_id := id; function_name := "get_news_for_sentiment";
     function_arguments := topic_arguments |}.

Definition unknown_call (id : string) : ToolCall :=
  {| call_id := id; function_name := "get_weather";
     function_arguments := "{}" |}.

(** A request for an unknown function whose arguments are no JSON. *)
Definition malformed_call (id : string) : ToolCall :=
  {| call_id := id; function_name := "get_weather";
     function_arguments := "{topic: bitcoin}" |}.

(** The end-to-end scenario: the search answers two articles; the run asks
    for one callback until an output has been submitted and reports
    "completed" afterwards; the thread then lists the assistant's answer
    first. *)
Definition round_trip : World :=
  {| news_api_key := Some "key";
     repr := fun _ => "[...]";
     json_loads := loads;
     requests_get := fun _ _ => answers 200 [full_article; full_article];
     assistants_retrieve := fun _ id => {| assistant_obj_id := id |};
     threads_create := fun _ => {| thread_obj_id := "thread_1" |};
     threads_retrieve := fun _ id => {| thread_obj_id := id |};
     runs_retrieve := fun h _ _ =>
       match submitted h with
       | [] => asks [news_call "call_1"]
       | _ :: _ => reports "completed"
       end;
     messages_list := fun _ _ => [assistant_message; user_message] |}.

End Scenario.

(** ** Further observations *)

(** [get_news]: the block [b] is the template filled with the fields of the
    article [a], a dict that holds the keys the loop reads. *)
Definition main_block_of (w : World) (a : json) (b : string) : Prop :=
  exists d sd name author title description url content,
    a = JDict d
    /\ dict_lookup "source" d = Some (JDict sd)
    /\ dict_lookup "name" sd = Some name
    /\ dict_lookup "author" d = Some author
    /\ dict_lookup "title" d = Some title
    /\ dict_lookup "description" d = Some description
    /\ dict_lookup "url" d = Some url
    /\ dict_lookup "content" d = Some content
    /\ b = Main.title_description (str w title) (str w author) (str w name)
             (str w description) (str w url).

(** [get_news]: an article is complete when it has such a block. *)
Definition complete (w : World) (a : json) : Prop := exists b, main_block_of w a b.

(** The value [d.get(k, default)] gives for the entries [d]. *)
Definition lookup_or (k : string) (d : list (string * json)) (default : json) : json :=
  match dict_lookup k d with
  | Some v => v
  | None => default
  end.

(** The seconds slept in a trace. *)
Fixpoint slept (tr : list event) : Z :=
  match tr with
  | [] => 0
  | EvSleep d :: tr' => d + slept tr'
  | _ :: tr' => slept tr'
  end.

(** A status on which the poll loops take no action. *)
Definition idle (st : string) : Prop := st <> "completed" /\ st <> "requires_action".

(** The search fails at every request. *)
Definition search_always_fails (w : World) : Prop :=
  forall h url, search_fails w h url.

(** The arguments of a callback request decode and name a topic. *)
Definition decodes_topic (w : World) (a : ToolCall) : Prop :=
  exists arguments topic,
    json_loads w (function_arguments a) = Ok arguments
    /\ getitem arguments "topic" = Ok topic.

(** One output per request, each with the empty string. *)
Definition empty_outputs (calls : list ToolCall) : list ToolOutput :=
  map (fun a => {| tool_call_id := call_id a; output := "" |}) calls.

(** The number of listings of messages ([messages.list]) in a trace. *)
Fixpoint listings (tr : list event) : nat :=
  match tr with
  | [] => O
  | EvMessagesList _ :: tr' => S (listings tr')
  | _ :: tr' => listings tr'
  end.

(** The manager [m] at a later moment of its process: its own attributes,
    with the class attributes and the trace of [p], the state the process
    has reached through its other managers meanwhile. *)
Definition resume (m p : Main.State) : Main.State :=
  {| Main.thread_id := Main.thread_id p; Main.assistant_id := Main.assistant_id p;
     Main.assistant := Main.assistant m; Main.thread := Main.thread m;
     Main.run := Main.run m; Main.summary := Main.summary m;
     Main.trace := Main.trace p |}.

(** Further scenarios. *)
Module Cases.

(** Two characters of white space beyond ASCII, as their UTF-8 bytes: the
    no-break space U+00A0 and the ideographic space U+3000. *)
Definition no_break_space : string :=
  String (ascii_of_nat 194) (String (ascii_of_nat 160) EmptyString).

Definition ideographic_space : string :=
  String (ascii_of_nat 227)
    (String (ascii_of_nat 128) (String (ascii_of_nat 128) EmptyString)).

(** A world whose remote service numbers the threads it creates: thread_1,
    thread_2 and so on. *)
Definition numbering : World :=
  {| news_api_key := Some "key";
     repr := fun _ => "[...]";
     json_loads := Scenario.loads;
     requests_get := fun _ _ => Scenario.answers 200 [];
     assistants_retrieve := fun _ id => {| assistant_obj_id := id |};
     threads_create := fun h =>
       {| thread_obj_id := "thread_" ++ str_of_Z (Z.of_nat (S (threads_created h))) |};
     threads_retrieve := fun _ id => {| thread_obj_id := id |};
     runs_retrieve := fun _ _ _ => Scenario.reports "in_progress";
     messages_list := fun _ _ => [] |}.

(** An article whose [content] is null, as the search service sends it for
    an article without body. *)
Definition article_without_content : json :=
  JDict [("source", JDict [("id", JNull); ("name", JStr "Wire")]);
         ("author", JNull); ("title", JStr "Bitcoin flat");
         ("description", JStr "Nothing moved."); ("url", JStr "https://example.org/3");
         ("publishedAt", JStr "2025-01-03T00:00:00Z"); ("content", JNull)].

(** A 200 answer with the body [body]. *)
Definition answers_body (body : json) : result Response :=
  Ok {| status_code := 200; response_json := Ok body; response_text := "" |}.

(** A world whose run reports "in_progress" at the first [n] polls and
    "completed" afterwards, and whose thread lists the assistant's answer
    first. *)
Definition completes_after (n : nat) : World :=
  {| news_api_key := Some "key";
     repr := fun _ => "[...]";
     json_loads := Scenario.loads;
     requests_get := fun _ _ => Scenario.answers 200 [];
     assistants_retrieve := fun _ id => {| assistant_obj_id := id |};
     threads_create := fun _ => {| thread_obj_id := "thread_1" |};
     threads_retrieve := fun _ id => {| thread_obj_id := id |};
     runs_retrieve := fun h _ _ =>
       if (polls h <? n)%nat then Scenario.reports "in_progress"
       else Scenario.reports "completed";
     messages_list := fun _ _ => [Scenario.assistant_message; Scenario.user_message] |}.

End Cases.

(** The calls the poll loops make: sleeps, status checks, searches,
    submissions of tool outputs and listings of messages. *)
Definition is_loop_event (e : event) : bool :=
  match e with
  | EvSleep _ | EvRunsRetrieve _ _ | EvHttpGet _
  | EvSubmitToolOutputs _ _ _ | EvMessagesList _ => true
  | _ => false
  end.

(** Two states of a manager that differ in the summary and in the trace at
    most. *)
Definition same_objects (s s' : Main.State) : Prop :=
  Main.thread_id s' = Main.thread_id s
  /\ Main.assistant_id s' = Main.assistant_id s
  /\ Main.assistant s' = Main.assistant s
  /\ Main.thread s' = Main.thread s
  /\ Main.run s' = Main.run s.

(** ** [news_sentiment_analyzer.py]: the charts *)

Module Charts.

(** What [go.Figure(go.Indicator(...))] and [update_layout] are given. *)
Record Gauge : Type := {
  mode : string;
  value : float;
  title_text : string;
  delta_reference : float;
  axis_range : option float * float;
  bar_color : string;
  steps : list (float * float * string);
  threshold_color : string;
  threshold_width : Z;
  threshold_thickness : float;
  threshold_value : float;
  height : Z;
  layout_title : string
}.

(** What [px.pie] is given. *)
Record Pie : Type := {
  values : list Z;
  names : list string;
  title : string;
  color_discrete_sequence : list string
}.

(** [create_sentiment_visualization(sentiment_data)], for the result of
    [parse_sentiment_data] ([None], or a dict that is not empty). *)
Definition create_sentiment_visualization (sentiment_data : option Sentiment.SentimentData)
  : option Gauge * option Pie :=
  match sentiment_data with
  | None => (None, None)
  | Some d =>
      let gauge_fig :=
        {| mode := "gauge+number+delta";
           value := Sentiment.score d;
           title_text := "Sentiment Score";
           delta_reference := 0%float;
           axis_range := (None, 1%float);
           bar_color := "darkblue";
           steps := [((-1)%float, (-0.3)%float, "lightgray");
                     ((-0.3)%float, 0.3%float, "gray");
                     (0.3%float, 1%float, "lightgreen")];
           threshold_color := "red";
           threshold_width := 4;
           threshold_thickness := 0.75%float;
           threshold_value := 0.9%float;
           height := 400;
           layout_title := "News Sentiment Analysis" |} in
      let categories := ["Positive"; "Neutral"; "Negative"] in
      let values :=
        if String.eqb (Sentiment.category d) "Positive" then
          [Sentiment.confidence d; 100 - Sentiment.confidence d; 0]
        else if String.eqb (Sentiment.category d) "Negative" then
          [0; 100 - Sentiment.confidence d; Sentiment.confidence d]
        else
          [0; Sentiment.confidence d; 100 - Sentiment.confidence d] in
      let colors := ["#00CC96"; "#FFA15A"; "#EF553B"] in
      let pie_fig :=
        {| values := values; names := categories; title := "Sentiment Distribution";
           color_discrete_sequence := colors |} in
      (Some gauge_fig, Some pie_fig)
  end.

(** The share the pie gives to the category [name]. *)
Definition share (name : string) (p : Pie) : option Z :=
  option_map snd
    (find (fun nv => String.eqb (fst nv) name) (combine (names p) (values p))).

End Charts.

(** ** [main.py]: setting a run up, and [main]

    The calls that set a run up are the requests below.  The journal of a
    process holds them together with the events of the functions above, in
    the order of the calls, newest first; the collaborators of this part
    answer from the journal. *)

Module Session.

Inductive request : Type :=
| AssistantsCreate (name instructions : string) (tools : json) (model : string)
| MessagesCreate (thread_id role content : string)
| RunsCreate (thread_id assistant_id instructions : string)
| StepsList (thread_id run_id : string).

Inductive entry : Type :=
| Core (e : event)
| Request (q : request).

(** The assistant service as a whole: [steps_list] gives [run_steps.data]. *)
Record Service : Type := {
  world : World;
  assistants_create : list entry -> string -> string -> json -> string -> Assistant;
  runs_create : list entry -> string -> string -> string -> Run;
  steps_list : list entry -> string -> string -> list json
}.

(** A process: the manager with the class attributes, [self.model], and the
    journal. *)
Record Process : Type := {
  manager : Main.State;
  model : string;
  journal : list entry
}.

(** The module-level [model]. *)
Definition default_model : string := "gpt-3.5-turbo".

(** The journal after a function of the first part has taken the manager
    from [before] to [after]: the events it has added are entered. *)
Definition sync (before after : Main.State) (j : list entry) : list entry :=
  (map Core
     (firstn (List.length (Main.trace after) - List.length (Main.trace before))
        (Main.trace after))
   ++ j)%list.

Definition lift {A : Type} (f : Main.State -> A * Main.State) (p : Process)
  : A * Process :=
  let '(a, m) := f (manager p) in
  (a, {| manager := m; model := model p; journal := sync (manager p) m (journal p) |}).

(** [AssistantManager(model)] *)
Definition new_manager (sv : Service) (model : string) (p : Process) : Process :=
  let m := Main.__init__ (world sv) (manager p) in
  {| manager := m; model := model; journal := sync (manager p) m (journal p) |}.

(** [create_assistant(name, instructions, tools)] *)
Definition create_assistant (sv : Service) (name instructions : string) (tools : json)
    (p : Process) : Process :=
  match Main.assistant (manager p) with
  | Some _ => p
  | None =>
      let assistant_obj :=
        assistants_create sv (journal p) name instructions tools (model p) in
      let m := manager p in
      {| manager :=
           {| Main.thread_id := Main.thread_id m;
              Main.assistant_id := Some (assistant_obj_id assistant_obj);
              Main.assistant := Some assistant_obj;
              Main.thread := Main.thread m; Main.run := Main.run m;
              Main.summary := Main.summary m; Main.trace := Main.trace m |};
         model := model p;
         journal := Request (AssistantsCreate name instructions tools (model p))
                      :: journal p |}
  end.

(** [create_thread()] *)
Definition create_thread (sv : Service) (p : Process) : Process :=
  snd (lift (fun m => (tt, Main.create_thread (world sv) m)) p).

(** [add_message_to_thread(role, content)] *)
Definition add_message_to_thread (role content : string) (p : Process) : Process :=
  match Main.thread (manager p) with
  | None => p
  | Some t =>
      {| manager := manager p; model := model p;
         journal := Request (MessagesCreate (thread_obj_id t) role content)
                      :: journal p |}
  end.

(** [run_assitant(instructions)] *)
Definition run_assitant (sv : Service) (instructions : string) (p : Process) : Process :=
  match Main.thread (manager p), Main.assistant (manager p) with
  | Some t, Some a =>
      let run_obj :=
        runs_create sv (journal p) (thread_obj_id t) (assistant_obj_id a) instructions in
      let m := manager p in
      {| manager :=
           {| Main.thread_id := Main.thread_id m; Main.assistant_id := Main.assistant_id m;
              Main.assistant := Main.assistant m; Main.thread := Main.thread m;
              Main.run := Some run_obj;
              Main.summary := Main.summary m; Main.trace := Main.trace m |};
         model := model p;
         journal := Request (RunsCreate (thread_obj_id t) (assistant_obj_id a) instructions)
                      :: journal p |}
  | _, _ => p
  end.

(** [wait_for_run_completion()], cut after [fuel] polls. *)
Definition wait_for_run_completion (sv : Service) (fuel : nat) (p : Process)
  : option (result unit) * Process :=
  lift (Main.wait_for_run_completion (world sv) fuel) p.

(** [get_summary()] *)
Definition get_summary (p : Process) : option string := Main.get_summary (manager p).

(** [run_steps()] *)
Definition run_steps (sv : Service) (p : Process) : result (list json) * Process :=
  match Main.thread (manager p), Main.run (manager p) with
  | Some t, Some r =>
      (Ok (steps_list sv (journal p) (thread_obj_id t) (run_obj_id r)),
       {| manager := manager p; model := model p;
          journal := Request (StepsList (thread_obj_id t) (run_obj_id r)) :: journal p |})
  | _, _ => (Raise AttributeError, p)
  end.

(** The [tools] argument of [main]. *)
Definition tools : json :=
  JList
    [JDict
       [("type", JStr "function");
        ("function",
         JDict
           [("name", JStr "get_news");
            ("description", JStr "Get the list of articles/news for the given topic");
            ("parameters",
             JDict
               [("type", JStr "object");
                ("properties",
                 JDict
                   [("topic",
                     JDict
                       [("type", JStr "string");
                        ("description", JStr "The topic for the news, e.g. bitcoin")])]);
                ("required", JList [JStr "topic"])])])]].

(** What [main] puts on the page, in the order of the calls. *)
Inductive widget : Type :=
| StTitle (body : string)
| StMarkdown (body : string)
| StForm (key : string)
| StTextInput (label placeholder : string)
| StFormSubmitButton (label : string)
| StError (body : string)
| StSpinner (text : string)
| StSubheader (body : string)
| StWrite (body : string)
| StExpander (label : string)
| StText (body : string)
| StCode (body : list json).

(** How a call of [main] ends: it returns, it raises, or it is still in the
    poll loop after [fuel] polls. *)
Inductive outcome : Type :=
| Returned
| Raised (e : exn)
| Running.

(** The widgets [main] always puts first. *)
Definition form : list widget :=
  [StTitle "News Summarizer";
   StMarkdown "Enter a topic to get AI-powered news summaries";
   StForm "user_input_form";
   StTextInput "Enter topic:" "e.g., artificial intelligence, bitcoin, climate change";
   StFormSubmitButton "Run Assistant"].

(** The widgets that present a summary. *)
Definition report (summary : string) : list widget :=
  [StSubheader "📰 News Summary"; StWrite summary;
   StExpander "🔍 View Run Steps (Debug Info)"; StText "Run Steps:"].

(** [main()], where [instructions] is what [st.text_input] returns and
    [submit_button] what [st.form_submit_button] returns. *)
Definition main (sv : Service) (fuel : nat) (instructions : string)
    (submit_button : bool) (p : Process) : outcome * list widget * Process :=
  let p0 := new_manager sv default_model p in
  if submit_button then
    match strip instructions with
    | [] =>
        (Returned, (form ++ [StError "Please enter a topic to search for news."])%list, p0)
    | _ :: _ =>
        let page := (form ++ [StSpinner "Creating assistant and fetching news..."])%list in
        let p1 :=
          create_assistant sv "News Summarizer"
            "Get the list of articles/news for the given topic" tools p0 in
        let p2 := create_thread sv p1 in
        let p3 :=
          add_message_to_thread "user"
            ("summarize the news on this topic " ++ instructions ++ "?") p2 in
        let p4 := run_assitant sv "Summarize the news" p3 in
        match wait_for_run_completion sv fuel p4 with
        | (None, p5) => (Running, page, p5)
        | (Some (Raise e), p5) => (Raised e, page, p5)
        | (Some (Ok _), p5) =>
            match get_summary p5 with
            | Some (String _ _ as summary) =>
                match run_steps sv p5 with
                | (Raise e, p6) => (Raised e, (page ++ report summary)%list, p6)
                | (Ok data, p6) =>
                    (Returned, (page ++ report summary ++ [StCode data])%list, p6)
                end
            | _ =>
                (Returned,
                 (page ++ [StError "Could not generate summary. Please try again."])%list,
                 p5)
            end
        end
    end
  else (Returned, form, p0).

(** The requests of a journal, and its events. *)
Fixpoint requests_of (j : list entry) : list request :=
  match j with
  | [] => []
  | Request q :: j' => q :: requests_of j'
  | Core _ :: j' => requests_of j'
  end.

Fixpoint events_of (j : list entry) : list event :=
  match j with
  | [] => []
  | Core e :: j' => e :: events_of j'
  | Request _ :: j' => events_of j'
  end.

(** A process that has not run anything yet. *)
Definition fresh : Process :=
  {| manager := Main.fresh; model := default_model; journal := [] |}.

End Session.

(** ** The news fetch *)

Lemma rmap_length {A B : Type} (f : A -> result B) (xs : list A) (ys : list B) :
  rmap f xs = Ok ys -> List.length ys = List.length xs.
Proof.
  revert ys.
  induction xs as [| x xs IH]; intros ys H; simpl in H.
  - injection H as <-. reflexivity.
  - destruct (f x) as [y | e]; [| discriminate].
    destruct (rmap f xs) as [ys' | e]; [| discriminate].
    injection H as <-. simpl. f_equal. now apply IH.
Qed.

Lemma rmapi_length {A B : Type} (f : nat -> A -> result B) (xs : list A) :
  forall (i : nat) (ys : list B),
    rmapi f i xs = Ok ys -> List.length ys = List.length xs.
Proof.
  induction xs as [| x xs IH]; intros i ys H; simpl in H.
  - injection H as <-. reflexivity.
  - destruct (f i x) as [y | e]; [| discriminate].
    destruct (rmapi f (S i) xs) as [ys' | e] eqn:E; [| discriminate].
    injection H as <-. simpl. f_equal. now apply (IH (S i)).
Qed.

(** A loop whose every turn succeeds returns a list. *)
Lemma rmapi_total {A B : Type} (f : nat -> A -> result B) (xs : list A) :
  forall i : nat,
    (forall (j : nat) (x : A), In x xs -> exists y, f j x = Ok y) ->
    exists ys, rmapi f i xs = Ok ys.
Proof.
  induction xs as [| x xs IH]; intros i H; simpl.
  - now exists [].
  - destruct (H i x (or_introl eq_refl)) as [y ->].
    destruct (IH (S i)) as [ys ->].
    + intros j x' Hin. apply H. now right.
    + now exists (y :: ys).
Qed.

(** A loop with a turn that raises does not return a list. *)
Lemma rmap_raises {A B : Type} (f : A -> result B) (xs : list A) (x : A) :
  In x xs -> is_ok (f x) = false -> is_ok (rmap f xs) = false.
Proof.
  induction xs as [| x' xs IH]; intros Hin Hx; simpl in *.
  - contradiction.
  - destruct (f x') as [y | e] eqn:E; [| reflexivity].
    destruct Hin as [-> | Hin].
    + rewrite E in Hx. discriminate.
    + specialize (IH Hin Hx). destruct (rmap f xs); [discriminate | reflexivity].
Qed.

(** What a loop raises is raised by one of its turns. *)
Lemma rmap_exn {A B : Type} (f : A -> result B) (P : exn -> Prop) :
  (forall (x : A) (e : exn), f x = Raise e -> P e) ->
  forall (xs : list A) (e : exn), rmap f xs = Raise e -> P e.
Proof.
  intros Hf xs. induction xs as [| x xs IH]; intros e H; simpl in H.
  - discriminate.
  - destruct (f x) as [y | e'] eqn:Ex.
    + destruct (rmap f xs) as [ys | e'']; [discriminate |].
      injection H as <-. now apply IH.
    + injection H as <-. now apply (Hf x).
Qed.

(** [get_news]: an article that is a dict without the key [author] or
    without the key [description] makes the loop body raise. *)
Lemma main_format_article_absent_field (w : World) (d : list (string * json)) :
  dict_lookup "author" d = None \/ dict_lookup "description" d = None ->
  is_ok (Main.format_article w (JDict d)) = false.
Proof.
  intros H. unfold Main.format_article, rbind, getitem.
  destruct (dict_lookup "source" d) as [source |]; [| reflexivity].
  destruct source as [| | | | | sd]; try reflexivity.
  destruct (dict_lookup "name" sd); [| reflexivity].
  destruct (dict_lookup "author" d) eqn:Ea; [| reflexivity].
  destruct (dict_lookup "title" d); [| reflexivity].
  destruct (dict_lookup "description" d) eqn:Ed; [| reflexivity].
  destruct H; discriminate.
Qed.

(** [get_news]: what is raised inside the loop is not a
    [RequestException], so the [except] clause lets it through. *)
Lemma getitem_exn (v : json) (k : string) (e : exn) :
  getitem v k = Raise e -> e <> RequestException.
Proof.
  unfold getitem.
  destruct v; try (intros [= <-]; discriminate).
  destruct (dict_lookup k entries); intros [= <-]; discriminate.
Qed.

Lemma main_format_article_exn (w : World) (a : json) (e : exn) :
  Main.format_article w a = Raise e -> e <> RequestException.
Proof.
  unfold Main.format_article, rbind. intros H.
  repeat match type of H with
         | match getitem ?v ?k with _ => _ end = _ =>
             let E := fresh "E" in
             destruct (getitem v k) eqn:E;
             [| injection H as <-; eapply getitem_exn; eassumption]
         end.
  discriminate.
Qed.

Lemma get_JDict (d : list (string * json)) (k : string) (default : json) :
  get (JDict d) k default
  = Ok (match dict_lookup k d with Some x => x | None => default end).
Proof. unfold get. now destruct (dict_lookup k d). Qed.

Ltac tolerate Hs Hc :=
  unfold Sentiment.format_article;
  rewrite !get_JDict; cbn [rbind];
  destruct Hs as [Hs | [? Hs]]; rewrite Hs; rewrite get_JDict; cbn [rbind];
  destruct Hc as [Hc | [? Hc]]; rewrite Hc; cbn [rbind slice200].

(** [get_news_for_sentiment]: a tolerated article without [description] gets
    a block that carries the placeholder. *)
Lemma sentiment_format_article_placeholder (w : World) (i : nat) (article : json)
    (d : list (string * json)) :
  tolerated article -> article = JDict d -> dict_lookup "description" d = None ->
  exists number title source_name published_at content200,
    Sentiment.format_article w i article
    = Ok (Sentiment.article_text number title source_name published_at
            "No description" content200).
Proof.
  intros (d' & -> & Hs & Hc) [= <-] Hd.
  tolerate Hs Hc; rewrite Hd; repeat eexists.
Qed.

Lemma sentiment_format_article_total (w : World) (i : nat) (article : json) :
  tolerated article -> exists block, Sentiment.format_article w i article = Ok block.
Proof.
  intros (d & -> & Hs & Hc).
  tolerate Hs Hc; eexists; reflexivity.
Qed.

(** [get_news_for_sentiment]: on a successful response whose articles are
    tolerated, one block per article is returned. *)
Lemma sentiment_one_block_per_article (w : World) (history : list event)
    (topic page_size : json) (response : Response) (fields : list (string * json))
    (articles : list json) :
  requests_get w history (Sentiment.news_url w topic page_size) = Ok response ->
  status_code response = 200 ->
  response_json response = Ok (JDict fields) ->
  dict_lookup "articles" fields = Some (JList articles) ->
  Forall tolerated articles ->
  exists blocks,
    snd (Sentiment.get_news_for_sentiment w history topic page_size) = Ok blocks
    /\ List.length blocks = List.length articles.
Proof.
  intros Hget Hcode Hjson Harts Htol.
  unfold Sentiment.get_news_for_sentiment. simpl.
  rewrite Hget. simpl. rewrite Hcode. simpl.
  unfold Sentiment.parse_news. rewrite Hjson. simpl. rewrite Harts. simpl.
  destruct (rmapi_total (Sentiment.format_article w) articles 0) as [blocks E].
  - intros j x Hin. apply sentiment_format_article_total.
    rewrite Forall_forall in Htol. now apply Htol.
  - rewrite E. exists blocks. split; [reflexivity |].
    now apply rmapi_length in E.
Qed.

(** [get_news]: on a successful response that lists an article without
    [author] or without [description], no list is returned: the exception of
    the loop body leaves [get_news]. *)
Lemma main_absent_field_raises (w : World) (history : list event) (topic : json)
    (response : Response) (fields : list (string * json)) (articles : list json)
    (d : list (string * json)) :
  requests_get w history (Main.news_url w topic) = Ok response ->
  status_code response = 200 ->
  response_json response = Ok (JDict fields) ->
  dict_lookup "articles" fields = Some (JList articles) ->
  In (JDict d) articles ->
  dict_lookup "author" d = None \/ dict_lookup "description" d = None ->
  is_ok (snd (Main.get_news w history topic)) = false.
Proof.
  intros Hget Hcode Hjson Harts Hin Habsent.
  unfold Main.get_news. simpl. rewrite Hget. simpl. rewrite Hcode. simpl.
  unfold Main.parse_news. rewrite Hjson. simpl.
  destruct (dict_lookup "status" fields); [| reflexivity].
  destruct (dict_lookup "totalResults" fields); [| reflexivity].
  rewrite Harts. simpl.
  pose proof (rmap_raises (Main.format_article w) articles (JDict d) Hin
                (main_format_article_absent_field w d Habsent)) as Hr.
  destruct (rmap (Main.format_article w) articles) as [ys | e] eqn:E;
    [discriminate |].
  assert (He : e <> RequestException).
  { apply (rmap_exn (Main.format_article w) (fun e => e <> RequestException)
                    (main_format_article_exn w) articles e E). }
  destruct e; try reflexivity. now contradiction He.
Qed.

(** C1 (code evaluated at the failing input).  A successful response lists an
    article and a second one that has no [author] (and no [description]).
    [get_news] of [main.py] raises [KeyError] for the missing key and
    returns no block at all, whereas [get_news_for_sentiment] returns one
    block per article, the second with the placeholder for the description. *)
Theorem get_news_absent_author_raises :
  let w := Scenario.world
             (Scenario.answers 200 [Scenario.full_article; Scenario.article_without_author])
             (Scenario.reports "in_progress") [] in
  snd (Main.get_news w [] (JStr "bitcoin")) = Raise (KeyError "author")
  /\ exists first_block,
      snd (Sentiment.get_news_for_sentiment w [] (JStr "bitcoin") (JInt 10))
      = Ok [first_block;
            Sentiment.article_text "2" "Bitcoin dips" "Wire" "2025-01-02T00:00:00Z"
              "No description" "Prices fell today."].
Proof.
  intros w. split.
  - vm_compute. reflexivity.
  - eexists. vm_compute. reflexivity.
Qed.

(** C2.  When the search collaborator answers with a status other than 200,
    or the request raises a transport error, [get_news] and
    [get_news_for_sentiment] return the empty list: nothing is raised. *)
Theorem search_failure_yields_empty_list (w : World) (history : list event)
    (topic page_size : json) :
  (search_fails w history (Main.news_url w topic) ->
   snd (Main.get_news w history topic) = Ok [])
  /\ (search_fails w history (Sentiment.news_url w topic page_size) ->
      snd (Sentiment.get_news_for_sentiment w history topic page_size) = Ok []).
Proof.
  unfold search_fails. split; intros H.
  - unfold Main.get_news. simpl.
    destruct (requests_get w history (Main.news_url w topic)) as [response | e].
    + simpl. apply Z.eqb_neq in H. rewrite H. reflexivity.
    + subst e. reflexivity.
  - unfold Sentiment.get_news_for_sentiment. simpl.
    destruct (requests_get w history (Sentiment.news_url w topic page_size))
      as [response | e].
    + simpl. apply Z.eqb_neq in H. rewrite H. reflexivity.
    + subst e. reflexivity.
Qed.

Lemma search_failure_yields_empty_list_witness :
  snd (Main.get_news
         (Scenario.world (Scenario.answers 500 []) (Scenario.reports "in_progress") [])
         [] (JStr "bitcoin")) = Ok []
  /\ snd (Sentiment.get_news_for_sentiment
            (Scenario.world (Raise RequestException) (Scenario.reports "in_progress") [])
            [] (JStr "bitcoin") (JInt 10)) = Ok [].
Proof.
  split.
  - apply (proj1 (search_failure_yields_empty_list
                    (Scenario.world (Scenario.answers 500 [])
                       (Scenario.reports "in_progress") [])
                    [] (JStr "bitcoin") (JInt 10))).
    unfold search_fails. simpl. discriminate.
  - apply (proj2 (search_failure_yields_empty_list
                    (Scenario.world (Raise RequestException)
                       (Scenario.reports "in_progress") [])
                    [] (JStr "bitcoin") (JInt 10))).
    unfold search_fails. simpl. reflexivity.
Defined.

(** ** Sessions *)


(** C6 (the claim fails as stated).  Two managers of one process, both
    built before the first call: the second call of [create_thread], made on
    the second manager, finds no thread on that manager, creates a second
    thread and replaces the cached identifier. *)
Lemma create_thread_on_two_managers :
  let w := Cases.numbering in
  let m1 := Main.__init__ w Main.fresh in
  let m2 := Main.__init__ w m1 in
  let s1 := Main.create_thread w (resume m1 m2) in
  let s2 := Main.create_thread w (resume m2 s1) in
  Main.thread_id s1 = Some "thread_1"
  /\ Main.thread_id s2 = Some "thread_2"
  /\ threads_created (Main.trace s1) = 1%nat
  /\ threads_created (Main.trace s2) = 2%nat.
Proof. intros w m1 m2 s1 s2. repeat split. Qed.



(** ** Extraction of the result *)

Lemma main_process_message_cases (w : World) (s : Main.State) (t : Thread) :
  Main.thread s = Some t ->
  match messages_list w (Main.trace s) (thread_obj_id t) with
  | [] =>
      fst (Main.process_message w s) = Raise IndexError
      /\ Main.summary (snd (Main.process_message w s)) = Main.summary s
  | m :: _ =>
      match content m with
      | [] =>
          fst (Main.process_message w s) = Raise IndexError
          /\ Main.summary (snd (Main.process_message w s)) = Main.summary s
      | OtherBlock :: _ =>
          fst (Main.process_message w s) = Raise AttributeError
          /\ Main.summary (snd (Main.process_message w s)) = Main.summary s
      | TextBlock v :: _ =>
          fst (Main.process_message w s) = Ok tt
          /\ Main.summary (snd (Main.process_message w s)) = Some v
      end
  end.
Proof.
  intros Ht. unfold Main.process_message. rewrite Ht.
  destruct (messages_list w (Main.trace s) (thread_obj_id t)) as [| m rest].
  - now split.
  - destruct (content m) as [| [v |] blocks]; now split.
Qed.

Lemma sentiment_process_results_cases (w : World) (s : Sentiment.State) (t : Thread) :
  Sentiment.thread s = Some t ->
  match messages_list w (Sentiment.trace s) (thread_obj_id t) with
  | [] =>
      fst (Sentiment.process_sentiment_results w s) = Raise IndexError
      /\ Sentiment.sentiment_analysis (snd (Sentiment.process_sentiment_results w s))
         = Sentiment.sentiment_analysis s
  | m :: _ =>
      match content m with
      | [] =>
          fst (Sentiment.process_sentiment_results w s) = Raise IndexError
          /\ Sentiment.sentiment_analysis (snd (Sentiment.process_sentiment_results w s))
             = Sentiment.sentiment_analysis s
      | OtherBlock :: _ =>
          fst (Sentiment.process_sentiment_results w s) = Raise AttributeError
          /\ Sentiment.sentiment_analysis (snd (Sentiment.process_sentiment_results w s))
             = Sentiment.sentiment_analysis s
      | TextBlock v :: _ =>
          fst (Sentiment.process_sentiment_results w s) = Ok tt
          /\ Sentiment.sentiment_analysis (snd (Sentiment.process_sentiment_results w s))
             = Some v
      end
  end.
Proof.
  intros Ht. unfold Sentiment.process_sentiment_results. rewrite Ht.
  destruct (messages_list w (Sentiment.trace s) (thread_obj_id t)) as [| m rest].
  - now split.
  - destruct (content m) as [| [v |] blocks]; now split.
Qed.

(** C9.  With a thread, [process_message] and [process_sentiment_results]
    index [messages.data[0]] and [content[0]] without a check: on an empty
    listing, and on a first message without content, they raise [IndexError]
    and store nothing; they return normally only when the listing has a first
    message and that message has a first content block. *)
Theorem extraction_requires_first_message (w : World) :
  (forall (s : Main.State) (t : Thread),
      Main.thread s = Some t ->
      let data := messages_list w (Main.trace s) (thread_obj_id t) in
      let out := Main.process_message w s in
      (data = [] ->
       fst out = Raise IndexError /\ Main.summary (snd out) = Main.summary s)
      /\ (forall m rest, data = m :: rest -> content m = [] ->
          fst out = Raise IndexError /\ Main.summary (snd out) = Main.summary s)
      /\ (fst out = Ok tt ->
          exists m rest v blocks,
            data = m :: rest /\ content m = TextBlock v :: blocks
            /\ Main.summary (snd out) = Some v))
  /\ (forall (s : Sentiment.State) (t : Thread),
      Sentiment.thread s = Some t ->
      let data := messages_list w (Sentiment.trace s) (thread_obj_id t) in
      let out := Sentiment.process_sentiment_results w s in
      (data = [] ->
       fst out = Raise IndexError
       /\ Sentiment.sentiment_analysis (snd out) = Sentiment.sentiment_analysis s)
      /\ (forall m rest, data = m :: rest -> content m = [] ->
          fst out = Raise IndexError
          /\ Sentiment.sentiment_analysis (snd out) = Sentiment.sentiment_analysis s)
      /\ (fst out = Ok tt ->
          exists m rest v blocks,
            data = m :: rest /\ content m = TextBlock v :: blocks
            /\ Sentiment.sentiment_analysis (snd out) = Some v)).
Proof.
  split.
  - intros s t Ht data out.
    pose proof (main_process_message_cases w s t Ht) as H.
    fold data in H. fold out in H.
    split; [| split].
    + intros Hd. now rewrite Hd in H.
    + intros m rest Hd Hc. now rewrite Hd, Hc in H.
    + intros Hok. destruct data as [| m rest]; [destruct H; congruence |].
      destruct (content m) as [| [v |] blocks] eqn:Ec;
        try (destruct H; congruence).
      exists m, rest, v, blocks. now repeat split.
  - intros s t Ht data out.
    pose proof (sentiment_process_results_cases w s t Ht) as H.
    fold data in H. fold out in H.
    split; [| split].
    + intros Hd. now rewrite Hd in H.
    + intros m rest Hd Hc. now rewrite Hd, Hc in H.
    + intros Hok. destruct data as [| m rest]; [destruct H; congruence |].
      destruct (content m) as [| [v |] blocks] eqn:Ec;
        try (destruct H; congruence).
      exists m, rest, v, blocks. now repeat split.
Qed.

Lemma extraction_requires_first_message_witness :
  fst (Main.process_message
         (Scenario.world (Scenario.answers 200 []) (Scenario.reports "completed") [])
         Scenario.running) = Raise IndexError
  /\ fst (Sentiment.process_sentiment_results
            (Scenario.world (Scenario.answers 200 []) (Scenario.reports "completed") [])
            Scenario.analysing) = Raise IndexError.
Proof.
  pose (w := Scenario.world (Scenario.answers 200 []) (Scenario.reports "completed") []).
  destruct (extraction_requires_first_message w) as [Hmain Hsent].
  split.
  - destruct (Hmain Scenario.running {| thread_obj_id := "thread_1" |} eq_refl)
      as [Hempty _].
    exact (proj1 (Hempty eq_refl)).
  - destruct (Hsent Scenario.analysing {| thread_obj_id := "thread_1" |} eq_refl)
      as [Hempty _].
    exact (proj1 (Hempty eq_refl)).
Defined.

(** [process_message] never reads the run: replacing the remote run by any
    other leaves its outcome unchanged. *)
Lemma main_process_message_with_runs (w : World)
    (f : list event -> string -> string -> RunStatus) (s : Main.State) :
  Main.process_message (with_runs w f) s = Main.process_message w s.
Proof. unfold Main.process_message. destruct (Main.thread s); reflexivity. Qed.

Lemma sentiment_process_results_with_runs (w : World)
    (f : list event -> string -> string -> RunStatus) (s : Sentiment.State) :
  Sentiment.process_sentiment_results (with_runs w f) s
  = Sentiment.process_sentiment_results w s.
Proof. unfold Sentiment.process_sentiment_results. destruct (Sentiment.thread s); reflexivity. Qed.

(** ** Sentiment data *)


(** A text with both words is classified as positive. *)
Example both_words_are_positive :
  option_map Sentiment.category
    (Sentiment.parse_sentiment_data
       {| Sentiment.thread_id := None; Sentiment.assistant_id := None;
          Sentiment.assistant := None; Sentiment.thread := None;
          Sentiment.run := None;
          Sentiment.sentiment_analysis := Some "Mostly NEGATIVE, with a few positive notes";
          Sentiment.trace := [] |})
  = Some "Positive".
Proof. vm_compute. reflexivity. Qed.

(** ** Resolution of the callbacks *)

Lemma submitted_searches (evs tr : list event) :
  forallb is_search evs = true -> submitted (evs ++ tr) = submitted tr.
Proof.
  induction evs as [| e evs IH]; simpl; intros H; [reflexivity |].
  apply andb_prop in H as [He Hevs]. destruct e; try discriminate. now apply IH.
Qed.

Lemma polls_searches (evs tr : list event) :
  forallb is_search evs = true -> polls (evs ++ tr) = polls tr.
Proof.
  induction evs as [| e evs IH]; simpl; intros H; [reflexivity |].
  apply andb_prop in H as [He Hevs]. destruct e; try discriminate. now apply IH.
Qed.

Lemma paced_searches (evs tr : list event) :
  forallb is_search evs = true -> paced (evs ++ tr) = paced tr.
Proof.
  induction evs as [| e evs IH]; simpl; intros H; [reflexivity |].
  apply andb_prop in H as [He Hevs]. destruct e; try discriminate. now apply IH.
Qed.

Section ForEachAction.

Variable resolve : list event -> ToolCall -> list event * result ToolOutput.

(** A turn only calls the search service, and it files its output under
    the identifier of the call it resolves. *)
Hypothesis resolve_searches :
  forall h a, forallb is_search (fst (resolve h a)) = true.
Hypothesis resolve_id :
  forall h a out, snd (resolve h a) = Ok out -> tool_call_id out = call_id a.

Lemma for_each_action_searches (actions : list ToolCall) :
  forall h, forallb is_search (fst (for_each_action resolve h actions)) = true.
Proof.
  induction actions as [| a rest IH]; intros h; simpl; [reflexivity |].
  pose proof (resolve_searches h a) as Ha.
  destruct (resolve h a) as [evs [out | e]]; simpl in Ha; [| exact Ha].
  pose proof (IH (evs ++ h)%list) as Hrest.
  destruct (for_each_action resolve (evs ++ h) rest) as [evs' [outs | e]];
    simpl in *; rewrite forallb_app, Hrest, Ha; reflexivity.
Qed.

(** One output per action, in the order of the actions, each under the
    identifier of its action. *)
Lemma for_each_action_ids (actions : list ToolCall) :
  forall h outs,
    snd (for_each_action resolve h actions) = Ok outs ->
    map tool_call_id outs = map call_id actions.
Proof.
  induction actions as [| a rest IH]; intros h outs H; simpl in H.
  - injection H as <-. reflexivity.
  - pose proof (resolve_id h a) as Ha.
    destruct (resolve h a) as [evs [out | e]]; simpl in *; [| discriminate].
    pose proof (IH (evs ++ h)%list) as Hrest.
    destruct (for_each_action resolve (evs ++ h) rest) as [evs' [outs' | e]];
      simpl in *; [| discriminate].
    injection H as <-. simpl. f_equal; auto.
Qed.

(** When every turn succeeds the loop runs to its end. *)
Lemma for_each_action_total (actions : list ToolCall) :
  (forall h a, In a actions -> is_ok (snd (resolve h a)) = true) ->
  forall h, is_ok (snd (for_each_action resolve h actions)) = true.
Proof.
  induction actions as [| a rest IH]; intros Hall h; simpl; [reflexivity |].
  pose proof (Hall h a (or_introl eq_refl)) as Ha.
  destruct (resolve h a) as [evs [out | e]]; simpl in Ha; [| discriminate].
  assert (Hrest : forall h' a', In a' rest -> is_ok (snd (resolve h' a')) = true)
    by (intros h' a' Hin; apply Hall; now right).
  specialize (IH Hrest (evs ++ h)%list).
  destruct (for_each_action resolve (evs ++ h) rest) as [evs' [outs | e]];
    simpl in *; [reflexivity | discriminate].
Qed.

(** An action whose turn raises ends the loop with an exception, and with
    its own when the turns before it succeed. *)
Lemma for_each_action_raises (pre post : list ToolCall) (a : ToolCall) (e : exn) :
  (forall h, snd (resolve h a) = Raise e) ->
  forall h,
    is_ok (snd (for_each_action resolve h (pre ++ a :: post))) = false
    /\ (is_ok (snd (for_each_action resolve h pre)) = true ->
        snd (for_each_action resolve h (pre ++ a :: post)) = Raise e).
Proof.
  intros Ha. induction pre as [| b pre IH]; intros h; simpl.
  - specialize (Ha h).
    destruct (resolve h a) as [evs r]; simpl in Ha; subst r. now split.
  - destruct (resolve h b) as [evs [out | e']]; simpl; [| split; [reflexivity | discriminate]].
    destruct (IH (evs ++ h)%list) as [Hfail Hfirst].
    destruct (for_each_action resolve (evs ++ h) (pre ++ a :: post))
      as [evs' [outs | e']]; simpl in *; [discriminate |].
    split; [reflexivity |].
    destruct (for_each_action resolve (evs ++ h) pre) as [evs'' [outs | e'']];
      simpl in *; [| discriminate].
    intros _. now rewrite (Hfirst eq_refl).
Qed.


End ForEachAction.

Lemma main_resolve_action_searches (w : World) (h : list event) (a : ToolCall) :
  forallb is_search (fst (Main.resolve_action w h a)) = true.
Proof.
  unfold Main.resolve_action.
  destruct (json_loads w (function_arguments a)); [| reflexivity].
  destruct (function_name a =? "get_news")%string; [| reflexivity].
  destruct (getitem a0 "topic"); [| reflexivity].
  destruct (Main.get_news w h a1) as [ev [out | e]] eqn:E;
    unfold Main.get_news in E; injection E as <- _; reflexivity.
Qed.

Lemma main_resolve_action_id (w : World) (h : list event) (a : ToolCall)
    (out : ToolOutput) :
  snd (Main.resolve_action w h a) = Ok out -> tool_call_id out = call_id a.
Proof.
  unfold Main.resolve_action.
  destruct (json_loads w (function_arguments a)); [| discriminate].
  destruct (function_name a =? "get_news")%string; [| discriminate].
  destruct (getitem a0 "topic"); [| discriminate].
  destruct (Main.get_news w h a1) as [ev [o | e]]; simpl; [| discriminate].
  now intros [= <-].
Qed.

Lemma main_resolve_action_unknown (w : World) (h : list event) (a : ToolCall) :
  function_name a <> "get_news" ->
  snd (Main.resolve_action w h a)
  = match json_loads w (function_arguments a) with
    | Ok _ => Raise (ValueError ("Unknown function: " ++ function_name a))
    | Raise e => Raise e
    end.
Proof.
  intros Hname. unfold Main.resolve_action.
  destruct (json_loads w (function_arguments a)); [| reflexivity].
  apply String.eqb_neq in Hname. now rewrite Hname.
Qed.

Lemma sentiment_resolve_action_searches (w : World) (h : list event) (a : ToolCall) :
  forallb is_search (fst (Sentiment.resolve_action w h a)) = true.
Proof.
  unfold Sentiment.resolve_action.
  destruct (json_loads w (function_arguments a)); [| reflexivity].
  destruct (function_name a =? "get_news_for_sentiment")%string; [| reflexivity].
  destruct (getitem a0 "topic"); [| reflexivity].
  destruct (get a0 "page_size" (JInt 10)); [| reflexivity].
  destruct (Sentiment.get_news_for_sentiment w h a1 a2) as [ev [out | e]] eqn:E;
    unfold Sentiment.get_news_for_sentiment in E; injection E as <- _; reflexivity.
Qed.



(** [call_required_functions] with a run: the outcome follows the loop, the
    batch is submitted once all turns have succeeded, and nothing but
    searches and that submission is added to the trace. *)
Lemma main_call_cases (w : World) (s : Main.State) (r : Run) (calls : list ToolCall) :
  Main.run s = Some r ->
  let out := Main.call_required_functions w calls s in
  let evs := fst (Main.resolve_actions w (Main.trace s) calls) in
  match snd (Main.resolve_actions w (Main.trace s) calls), Main.thread s with
  | Raise e, _ =>
      fst out = Raise e /\ Main.trace (snd out) = (evs ++ Main.trace s)%list
  | Ok _, None =>
      fst out = Raise AttributeError /\ Main.trace (snd out) = (evs ++ Main.trace s)%list
  | Ok outs, Some t =>
      fst out = Ok tt
      /\ Main.trace (snd out)
         = EvSubmitToolOutputs (thread_obj_id t) (run_obj_id r) outs
             :: (evs ++ Main.trace s)%list
  end.
Proof.
  intros Hr out evs. subst out evs. unfold Main.call_required_functions. rewrite Hr.
  destruct (Main.resolve_actions w (Main.trace s) calls) as [evs [outs | e]];
    cbn [fst snd Main.add_events Main.thread]; [| now split].
  destruct (Main.thread s); now split.
Qed.

Lemma main_call_frame (w : World) (s : Main.State) (calls : list ToolCall) :
  let s' := snd (Main.call_required_functions w calls s) in
  Main.thread s' = Main.thread s /\ Main.run s' = Main.run s
  /\ Main.summary s' = Main.summary s
  /\ polls (Main.trace s') = polls (Main.trace s)
  /\ paced (Main.trace s') = paced (Main.trace s).
Proof.
  unfold Main.call_required_functions.
  destruct (Main.run s) as [r |] eqn:Hr; [| now repeat split].
  pose proof (for_each_action_searches (Main.resolve_action w)
                (main_resolve_action_searches w) calls (Main.trace s)) as Hev.
  fold (Main.resolve_actions w (Main.trace s) calls) in Hev.
  destruct (Main.resolve_actions w (Main.trace s) calls) as [evs [outs | e]];
    cbn [fst snd Main.add_events Main.thread] in *.
  - destruct (Main.thread s) eqn:Ht;
      cbn [snd Main.log Main.add_events Main.thread Main.run Main.summary Main.trace
             polls paced];
      rewrite ?Ht, ?Hr, (polls_searches _ _ Hev), (paced_searches _ _ Hev);
      now repeat split.
  - cbn [snd Main.log Main.add_events Main.thread Main.run Main.summary Main.trace].
    rewrite (polls_searches _ _ Hev), (paced_searches _ _ Hev). now repeat split.
Qed.

Lemma sentiment_call_cases (w : World) (s : Sentiment.State) (r : Run)
    (calls : list ToolCall) :
  Sentiment.run s = Some r ->
  let out := Sentiment.call_sentiment_functions w calls s in
  let evs := fst (Sentiment.resolve_actions w (Sentiment.trace s) calls) in
  match snd (Sentiment.resolve_actions w (Sentiment.trace s) calls), Sentiment.thread s with
  | Raise e, _ =>
      fst out = Raise e /\ Sentiment.trace (snd out) = (evs ++ Sentiment.trace s)%list
  | Ok _, None =>
      fst out = Raise AttributeError
      /\ Sentiment.trace (snd out) = (evs ++ Sentiment.trace s)%list
  | Ok outs, Some t =>
      fst out = Ok tt
      /\ Sentiment.trace (snd out)
         = EvSubmitToolOutputs (thread_obj_id t) (run_obj_id r) outs
             :: (evs ++ Sentiment.trace s)%list
  end.
Proof.
  intros Hr out evs. subst out evs. unfold Sentiment.call_sentiment_functions.
  rewrite Hr.
  destruct (Sentiment.resolve_actions w (Sentiment.trace s) calls) as [evs [outs | e]];
    cbn [fst snd Sentiment.add_events Sentiment.thread]; [| now split].
  destruct (Sentiment.thread s); now split.
Qed.

Lemma main_unknown_function (w : World) (pre post : list ToolCall) (a : ToolCall)
    (s : Main.State) (r : Run) :
  Main.run s = Some r -> function_name a <> "get_news" ->
  let out := Main.call_required_functions w (pre ++ a :: post) s in
  is_ok (fst out) = false
  /\ submitted (Main.trace (snd out)) = submitted (Main.trace s)
  /\ (is_ok (snd (Main.resolve_actions w (Main.trace s) pre)) = true ->
      is_ok (json_loads w (function_arguments a)) = true ->
      fst out = Raise (ValueError ("Unknown function: " ++ function_name a))).
Proof.
  intros Hr Hname out.
  pose proof (main_call_cases w s r (pre ++ a :: post) Hr) as Hcases.
  pose proof (for_each_action_searches (Main.resolve_action w)
                (main_resolve_action_searches w) (pre ++ a :: post) (Main.trace s))
    as Hev.
  fold (Main.resolve_actions w (Main.trace s) (pre ++ a :: post)) in Hev.
  fold out in Hcases. cbv zeta in Hcases.
  assert (Hraise : exists e,
             (forall h, snd (Main.resolve_action w h a) = Raise e)
             /\ (is_ok (json_loads w (function_arguments a)) = true ->
                 e = ValueError ("Unknown function: " ++ function_name a))).
  { destruct (json_loads w (function_arguments a)) as [args | e] eqn:El.
    - eexists. split; [| reflexivity].
      intros h. rewrite (main_resolve_action_unknown w h a Hname), El. reflexivity.
    - exists e. split; [| discriminate].
      intros h. rewrite (main_resolve_action_unknown w h a Hname), El. reflexivity. }
  destruct Hraise as (e & He & Hvalue).
  destruct (for_each_action_raises (Main.resolve_action w) pre post a e He (Main.trace s))
    as [Hfail Hfirst].
  fold (Main.resolve_actions w (Main.trace s) (pre ++ a :: post)) in Hfail, Hfirst.
  fold (Main.resolve_actions w (Main.trace s) pre) in Hfirst.
  destruct (snd (Main.resolve_actions w (Main.trace s) (pre ++ a :: post)))
    as [outs | e'] eqn:Eres; [discriminate |].
  destruct Hcases as [Hout Htrace].
  split; [now rewrite Hout |].
  split; [rewrite Htrace; now apply submitted_searches |].
  intros Hpre Hargs. rewrite Hout. f_equal.
  specialize (Hfirst Hpre). injection Hfirst as ->. now apply Hvalue.
Qed.




(** C4 (the claim fails as stated).  Three cycles that hold a request for
    the unknown function get_weather.  In the first, the request comes after
    one for [get_news], whose fetch meets an article without author: the
    cycle ends with [KeyError], not with [ValueError].  In the second, the
    arguments of the request are no JSON: the cycle ends with the exception of
    [json.loads], raised before the name is looked at.  In the third, the
    manager has no run: [call_required_functions] returns without an
    exception, the unknown request is passed over in silence. *)
Lemma unknown_function_other_outcomes :
  let w := Scenario.world (Scenario.answers 200 [Scenario.article_without_author])
             (Scenario.reports "requires_action") [] in
  function_name (Scenario.unknown_call "call_2") <> "get_news"
  /\ fst (Main.call_required_functions w
            [Scenario.news_call "call_1"; Scenario.unknown_call "call_2"]
            Scenario.running)
     = Raise (KeyError "author")
  /\ fst (Main.call_required_functions w [Scenario.malformed_call "call_1"]
            Scenario.running)
     = Raise JSONDecodeError
  /\ Main.call_required_functions w [Scenario.unknown_call "call_1"] Main.fresh
     = (Ok tt, Main.fresh).
Proof. intros w. split; [discriminate |]. repeat split. Qed.



(** Every cycle submits either nothing or one batch that holds one output
    per request, in the order of the requests. *)
Lemma main_batch (w : World) (s : Main.State) (calls : list ToolCall) :
  let out := Main.call_required_functions w calls s in
  submitted (Main.trace (snd out)) = submitted (Main.trace s)
  \/ (exists outs,
        fst out = Ok tt
        /\ submitted (Main.trace (snd out)) = outs :: submitted (Main.trace s)
        /\ map tool_call_id outs = map call_id calls).
Proof.
  intros out.
  destruct (Main.run s) as [r |] eqn:Hr.
  - pose proof (main_call_cases w s r calls Hr) as Hcases.
    fold out in Hcases. cbv zeta in Hcases.
    pose proof (for_each_action_searches (Main.resolve_action w)
                  (main_resolve_action_searches w) calls (Main.trace s)) as Hev.
    pose proof (for_each_action_ids (Main.resolve_action w)
                  (main_resolve_action_id w) calls (Main.trace s)) as Hids.
    fold (Main.resolve_actions w (Main.trace s) calls) in Hev, Hids.
    destruct (snd (Main.resolve_actions w (Main.trace s) calls)) as [outs | e].
    + destruct (Main.thread s) as [t |]; destruct Hcases as [Hout Htrace];
        rewrite Htrace.
      * right. exists outs. cbn [submitted].
        rewrite (submitted_searches _ _ Hev). repeat split; auto.
      * left. now apply submitted_searches.
    + left. destruct Hcases as [Hout Htrace]. rewrite Htrace.
      now apply submitted_searches.
  - left. subst out. unfold Main.call_required_functions. now rewrite Hr.
Qed.


Lemma main_resolve_action_ok (w : World) (h : list event) (a : ToolCall) :
  function_name a = "get_news" -> main_fetch_succeeds w a ->
  is_ok (snd (Main.resolve_action w h a)) = true.
Proof.
  intros Hname Hfetch. destruct (Hfetch h) as (args & topic & Hl & Ht & Hok).
  unfold Main.resolve_action. rewrite Hl, Hname, Ht.
  rewrite String.eqb_refl.
  destruct (Main.get_news w h topic) as [ev [out | e]]; simpl in *;
    [reflexivity | discriminate].
Qed.


(** C7 (the claim fails as stated).  Two cycles in which every requested
    function is the known one.  The search answers an article without author
    ([get_news]), or one whose content is null ([get_news_for_sentiment]):
    the fetch raises, the exception leaves callback resolution, and no output
    is submitted for any of the requests. *)
Lemma known_functions_without_outputs :
  let w := Scenario.world (Scenario.answers 200 [Scenario.article_without_author])
             (Scenario.reports "requires_action") [] in
  let w' := Scenario.world (Scenario.answers 200 [Cases.article_without_content])
              (Scenario.reports "requires_action") [] in
  let calls := [Scenario.news_call "call_1"; Scenario.news_call "call_2"] in
  let calls' := [Scenario.sentiment_call "call_1"; Scenario.sentiment_call "call_2"] in
  (forall a, In a calls -> function_name a = "get_news")
  /\ fst (Main.call_required_functions w calls Scenario.running)
     = Raise (KeyError "author")
  /\ submitted (Main.trace (snd (Main.call_required_functions w calls Scenario.running)))
     = []
  /\ (forall a, In a calls' -> function_name a = "get_news_for_sentiment")
  /\ fst (Sentiment.call_sentiment_functions w' calls' Scenario.analysing)
     = Raise TypeError
  /\ submitted (Sentiment.trace
                  (snd (Sentiment.call_sentiment_functions w' calls' Scenario.analysing)))
     = [].
Proof.
  intros w w' calls calls'.
  split; [intros a [<- | [<- | []]]; reflexivity |].
  split; [reflexivity |]. split; [reflexivity |].
  split; [intros a [<- | [<- | []]]; reflexivity |].
  split; reflexivity.
Qed.



(** ** The poll loop *)



Lemma ticks_S (n : nat) (tid rid : string) :
  ticks (S n) tid rid = (ticks n tid rid ++ [EvRunsRetrieve tid rid; EvSleep 5])%list.
Proof.
  unfold ticks. induction n as [| n IH]; [reflexivity |].
  change (List.concat (repeat [EvRunsRetrieve tid rid; EvSleep 5] (S (S n))))
    with ([EvRunsRetrieve tid rid; EvSleep 5]
            ++ List.concat (repeat [EvRunsRetrieve tid rid; EvSleep 5] (S n)))%list.
  rewrite IH at 1. reflexivity.
Qed.




(** A poll that reports neither "completed" nor "requires_action" leads to no
    action: the loop sleeps and polls again. *)
Lemma main_poll_skips (w : World) (fuel : nat) (s : Main.State) (t : Thread) (r : Run) :
  Main.thread s = Some t -> Main.run s = Some r ->
  status (runs_retrieve w (EvSleep 5 :: Main.trace s) (thread_obj_id t) (run_obj_id r))
    <> "completed" ->
  status (runs_retrieve w (EvSleep 5 :: Main.trace s) (thread_obj_id t) (run_obj_id r))
    <> "requires_action" ->
  Main.poll w (S fuel) s
  = Main.poll w fuel
      (Main.log (EvRunsRetrieve (thread_obj_id t) (run_obj_id r))
         (Main.log (EvSleep 5) s)).
Proof.
  intros Ht Hr Hc Ha.
  cbn [Main.poll Main.log Main.thread Main.run Main.trace]. rewrite Ht, Hr.
  apply String.eqb_neq in Hc, Ha. now rewrite Hc, Ha.
Qed.

Lemma sentiment_poll_skips (w : World) (fuel : nat) (s : Sentiment.State)
    (t : Thread) (r : Run) :
  Sentiment.thread s = Some t -> Sentiment.run s = Some r ->
  status (runs_retrieve w (EvSleep 5 :: Sentiment.trace s) (thread_obj_id t) (run_obj_id r))
    <> "completed" ->
  status (runs_retrieve w (EvSleep 5 :: Sentiment.trace s) (thread_obj_id t) (run_obj_id r))
    <> "requires_action" ->
  Sentiment.poll w (S fuel) s
  = Sentiment.poll w fuel
      (Sentiment.log (EvRunsRetrieve (thread_obj_id t) (run_obj_id r))
         (Sentiment.log (EvSleep 5) s)).
Proof.
  intros Ht Hr Hc Ha.
  cbn [Sentiment.poll Sentiment.log Sentiment.thread Sentiment.run Sentiment.trace].
  rewrite Ht, Hr.
  apply String.eqb_neq in Hc, Ha. now rewrite Hc, Ha.
Qed.

(** With a thread, with known functions and with fetches that return, a
    cycle returns normally. *)
Lemma main_call_total (w : World) (s : Main.State) (r : Run) (t : Thread)
    (calls : list ToolCall) :
  Main.run s = Some r -> Main.thread s = Some t ->
  (forall a, In a calls -> function_name a = "get_news" /\ main_fetch_succeeds w a) ->
  fst (Main.call_required_functions w calls s) = Ok tt.
Proof.
  intros Hr Ht Hcalls.
  pose proof (main_call_cases w s r calls Hr) as Hcases.
  cbv zeta in Hcases. rewrite Ht in Hcases.
  pose proof (for_each_action_total (Main.resolve_action w) calls
                (fun h a Hin =>
                   main_resolve_action_ok w h a (proj1 (Hcalls a Hin)) (proj2 (Hcalls a Hin)))
                (Main.trace s)) as Htotal.
  fold (Main.resolve_actions w (Main.trace s) calls) in Htotal.
  destruct (snd (Main.resolve_actions w (Main.trace s) calls)) as [outs | e];
    [apply Hcases | discriminate].
Qed.

(** As long as the remote run reports a status that is neither "completed"
    nor "requires_action", the loop goes on: after any number of polls it is
    still running, it has stored nothing, and its trace is that many sleeps
    and status checks. *)
Lemma main_idle_forever (w : World) (st : string) :
  always_reports w st -> st <> "completed" -> st <> "requires_action" ->
  forall (fuel : nat) (s : Main.State) (t : Thread) (r : Run),
    Main.thread s = Some t -> Main.run s = Some r ->
    fst (Main.poll w fuel s) = None
    /\ Main.summary (snd (Main.poll w fuel s)) = Main.summary s
    /\ Main.trace (snd (Main.poll w fuel s))
       = (ticks fuel (thread_obj_id t) (run_obj_id r) ++ Main.trace s)%list.
Proof.
  intros Hst Hc Ha. induction fuel as [| fuel IH]; intros s t r Ht Hr.
  - now repeat split.
  - rewrite (main_poll_skips w fuel s t r Ht Hr);
      try (rewrite (Hst _ _ _); assumption).
    destruct (IH (Main.log (EvRunsRetrieve (thread_obj_id t) (run_obj_id r))
                    (Main.log (EvSleep 5) s)) t r Ht Hr) as (Hnone & Hsum & Htr).
    rewrite Hnone, Hsum, Htr, ticks_S, <- app_assoc. now repeat split.
Qed.

Lemma sentiment_idle_forever (w : World) (st : string) :
  always_reports w st -> st <> "completed" -> st <> "requires_action" ->
  forall (fuel : nat) (s : Sentiment.State) (t : Thread) (r : Run),
    Sentiment.thread s = Some t -> Sentiment.run s = Some r ->
    fst (Sentiment.poll w fuel s) = None
    /\ Sentiment.sentiment_analysis (snd (Sentiment.poll w fuel s))
       = Sentiment.sentiment_analysis s
    /\ Sentiment.trace (snd (Sentiment.poll w fuel s))
       = (ticks fuel (thread_obj_id t) (run_obj_id r) ++ Sentiment.trace s)%list.
Proof.
  intros Hst Hc Ha. induction fuel as [| fuel IH]; intros s t r Ht Hr.
  - now repeat split.
  - rewrite (sentiment_poll_skips w fuel s t r Ht Hr);
      try (rewrite (Hst _ _ _); assumption).
    destruct (IH (Sentiment.log (EvRunsRetrieve (thread_obj_id t) (run_obj_id r))
                    (Sentiment.log (EvSleep 5) s)) t r Ht Hr) as (Hnone & Hsum & Htr).
    rewrite Hnone, Hsum, Htr, ticks_S, <- app_assoc. now repeat split.
Qed.

(** C3 (the claim fails as stated).  The remote run reports "failed" at every
    poll: after any number of polls [wait_for_run_completion] is still in its
    loop, and no summary is stored; the failure is never surfaced. *)
Lemma failed_run_never_ends :
  let w := Scenario.world (Scenario.answers 200 []) (Scenario.reports "failed")
             [Scenario.assistant_message] in
  status (runs_retrieve w [] "thread_1" "run_1") = "failed"
  /\ forall fuel : nat,
      fst (Main.wait_for_run_completion w fuel Scenario.running) = None
      /\ Main.get_summary (snd (Main.wait_for_run_completion w fuel Scenario.running))
         = None.
Proof.
  intros w. split; [reflexivity |]. intros fuel.
  destruct (main_idle_forever w "failed" (fun _ _ _ => eq_refl)
              ltac:(discriminate) ltac:(discriminate) fuel Scenario.running
              {| thread_obj_id := "thread_1" |} {| run_obj_id := "run_1" |}
              eq_refl eq_refl) as (Hnone & Hsum & _).
  split; [exact Hnone | exact Hsum].
Qed.

(** C3 (amended).  The poll loops have no case for "failed": a poll that
    reports it leads to no action, and the loop sleeps and polls again.  When
    the run reports "failed" at every poll, the loop is still running after
    any number of polls, nothing is stored, no exception is raised, and the
    trace holds only the sleeps and the status checks. *)
Theorem failed_run_is_polled_again (w : World) :
  (forall (fuel : nat) (s : Main.State) (t : Thread) (r : Run),
      Main.thread s = Some t -> Main.run s = Some r ->
      status (runs_retrieve w (EvSleep 5 :: Main.trace s)
                (thread_obj_id t) (run_obj_id r)) = "failed" ->
      Main.wait_for_run_completion w (S fuel) s
      = Main.poll w fuel
          (Main.log (EvRunsRetrieve (thread_obj_id t) (run_obj_id r))
             (Main.log (EvSleep 5) s)))
  /\ (forall (fuel : nat) (s : Sentiment.State) (t : Thread) (r : Run),
      Sentiment.thread s = Some t -> Sentiment.run s = Some r ->
      status (runs_retrieve w (EvSleep 5 :: Sentiment.trace s)
                (thread_obj_id t) (run_obj_id r)) = "failed" ->
      Sentiment.wait_for_sentiment_completion w (S fuel) s
      = Sentiment.poll w fuel
          (Sentiment.log (EvRunsRetrieve (thread_obj_id t) (run_obj_id r))
             (Sentiment.log (EvSleep 5) s)))
  /\ (always_reports w "failed" ->
      (forall (fuel : nat) (s : Main.State) (t : Thread) (r : Run),
          Main.thread s = Some t -> Main.run s = Some r ->
          let out := Main.wait_for_run_completion w fuel s in
          fst out = None
          /\ Main.get_summary (snd out) = Main.get_summary s
          /\ Main.trace (snd out)
             = (ticks fuel (thread_obj_id t) (run_obj_id r) ++ Main.trace s)%list)
      /\ (forall (fuel : nat) (s : Sentiment.State) (t : Thread) (r : Run),
          Sentiment.thread s = Some t -> Sentiment.run s = Some r ->
          let out := Sentiment.wait_for_sentiment_completion w fuel s in
          fst out = None
          /\ Sentiment.sentiment_analysis (snd out) = Sentiment.sentiment_analysis s
          /\ Sentiment.trace (snd out)
             = (ticks fuel (thread_obj_id t) (run_obj_id r) ++ Sentiment.trace s)%list)).
Proof.
  split; [| split].
  - intros fuel s t r Ht Hr Hst.
    unfold Main.wait_for_run_completion. rewrite Ht, Hr.
    apply main_poll_skips; try assumption; rewrite Hst; discriminate.
  - intros fuel s t r Ht Hr Hst.
    unfold Sentiment.wait_for_sentiment_completion. rewrite Ht, Hr.
    apply sentiment_poll_skips; try assumption; rewrite Hst; discriminate.
  - intros Hfailed. split; intros fuel s t r Ht Hr.
    + unfold Main.wait_for_run_completion, Main.get_summary. rewrite Ht, Hr.
      apply (main_idle_forever w "failed"); try assumption; discriminate.
    + unfold Sentiment.wait_for_sentiment_completion. rewrite Ht, Hr.
      apply (sentiment_idle_forever w "failed"); try assumption; discriminate.
Qed.

Lemma failed_run_is_polled_again_witness :
  let w := Scenario.world (Scenario.answers 200 []) (Scenario.reports "failed")
             [Scenario.assistant_message] in
  fst (Main.wait_for_run_completion w 3 Scenario.running) = None
  /\ Main.get_summary (snd (Main.wait_for_run_completion w 3 Scenario.running)) = None
  /\ Main.trace (snd (Main.wait_for_run_completion w 3 Scenario.running))
     = ticks 3 "thread_1" "run_1".
Proof.
  intros w.
  destruct (failed_run_is_polled_again w) as (_ & _ & Hforever).
  destruct (Hforever (fun _ _ _ => eq_refl)) as [Hmain _].
  destruct (Hmain 3%nat Scenario.running {| thread_obj_id := "thread_1" |}
              {| run_obj_id := "run_1" |} eq_refl eq_refl) as (Hnone & Hsum & Htr).
  split; [exact Hnone |]. split; [exact Hsum |].
  rewrite Htr. apply app_nil_r.
Defined.



(** C8 (the claim fails as stated).  The remote run never reports
    "completed": at every poll it requires the function get_weather, which
    the program does not know.  The loop ends at the first poll, by
    [ValueError]. *)
Lemma unknown_function_stops_the_polling :
  let w := Scenario.world (Scenario.answers 200 [])
             (Scenario.asks [Scenario.unknown_call "call_1"]) [] in
  (forall h tid rid, status (runs_retrieve w h tid rid) <> "completed")
  /\ forall fuel : nat,
      fst (Main.wait_for_run_completion w (S fuel) Scenario.running)
      = Some (Raise (ValueError "Unknown function: get_weather"))
      /\ polls (Main.trace (snd (Main.wait_for_run_completion w (S fuel) Scenario.running)))
         = 1%nat.
Proof.
  intros w. split; [intros h tid rid; discriminate |].
  intros fuel. split; reflexivity.
Qed.



(** ** Extraction happens after a completed poll only *)

Lemma listings_searches (evs tr : list event) :
  forallb is_search evs = true -> listings (evs ++ tr) = listings tr.
Proof.
  induction evs as [| e evs IH]; simpl; intros H; [reflexivity |].
  apply andb_prop in H as [He Hevs]. destruct e; try discriminate. now apply IH.
Qed.

Lemma main_call_listings (w : World) (s : Main.State) (calls : list ToolCall) :
  listings (Main.trace (snd (Main.call_required_functions w calls s)))
  = listings (Main.trace s).
Proof.
  unfold Main.call_required_functions.
  destruct (Main.run s) as [r |] eqn:Hr; [| reflexivity].
  pose proof (for_each_action_searches (Main.resolve_action w)
                (main_resolve_action_searches w) calls (Main.trace s)) as Hev.
  fold (Main.resolve_actions w (Main.trace s) calls) in Hev.
  destruct (Main.resolve_actions w (Main.trace s) calls) as [evs [outs | e]];
    cbn [fst snd Main.add_events Main.thread] in *.
  - destruct (Main.thread s);
      cbn [snd Main.log Main.add_events Main.trace listings];
      now apply listings_searches.
  - cbn [snd Main.add_events Main.trace]. now apply listings_searches.
Qed.

Lemma sentiment_call_frame (w : World) (s : Sentiment.State) (calls : list ToolCall) :
  let s' := snd (Sentiment.call_sentiment_functions w calls s) in
  Sentiment.thread s' = Sentiment.thread s /\ Sentiment.run s' = Sentiment.run s
  /\ Sentiment.sentiment_analysis s' = Sentiment.sentiment_analysis s
  /\ listings (Sentiment.trace s') = listings (Sentiment.trace s).
Proof.
  unfold Sentiment.call_sentiment_functions.
  destruct (Sentiment.run s) as [r |] eqn:Hr; [| now repeat split].
  pose proof (for_each_action_searches (Sentiment.resolve_action w)
                (sentiment_resolve_action_searches w) calls (Sentiment.trace s)) as Hev.
  fold (Sentiment.resolve_actions w (Sentiment.trace s) calls) in Hev.
  destruct (Sentiment.resolve_actions w (Sentiment.trace s) calls) as [evs [outs | e]];
    cbn [fst snd Sentiment.add_events Sentiment.thread] in *.
  - destruct (Sentiment.thread s) eqn:Ht;
      cbn [snd Sentiment.log Sentiment.add_events Sentiment.thread Sentiment.run
             Sentiment.sentiment_analysis Sentiment.trace listings];
      rewrite ?Ht, ?Hr, (listings_searches _ _ Hev); now repeat split.
  - cbn [snd Sentiment.add_events Sentiment.thread Sentiment.run
           Sentiment.sentiment_analysis Sentiment.trace].
    rewrite (listings_searches _ _ Hev). now repeat split.
Qed.

(** After any number of polls, either the loop has listed no message and
    stored nothing, or its last two calls are a status check that reported
    "completed" and the one listing of the messages, and it has ended. *)
Lemma main_poll_extraction (w : World) (fuel : nat) :
  forall (s : Main.State) (t : Thread) (r : Run),
    Main.thread s = Some t -> Main.run s = Some r ->
    (listings (Main.trace (snd (Main.poll w fuel s))) = listings (Main.trace s)
     /\ Main.summary (snd (Main.poll w fuel s)) = Main.summary s)
    \/ (exists h,
          Main.trace (snd (Main.poll w fuel s))
          = EvMessagesList (thread_obj_id t)
              :: EvRunsRetrieve (thread_obj_id t) (run_obj_id r) :: h
          /\ status (runs_retrieve w h (thread_obj_id t) (run_obj_id r)) = "completed"
          /\ listings h = listings (Main.trace s)
          /\ fst (Main.poll w fuel s) <> None).
Proof.
  induction fuel as [| fuel IH]; intros s t r Ht Hr.
  - left. now split.
  - cbn [Main.poll Main.log Main.thread Main.run Main.trace]. rewrite Ht, Hr.
    set (s2 := Main.log _ (Main.log _ s)).
    assert (Ht2 : Main.thread s2 = Some t) by exact Ht.
    assert (Hr2 : Main.run s2 = Some r) by exact Hr.
    assert (Hl2 : listings (Main.trace s2) = listings (Main.trace s)) by reflexivity.
    assert (Hs2 : Main.summary s2 = Main.summary s) by reflexivity.
    destruct (status _ =? "completed")%string eqn:Ec.
    + right. apply String.eqb_eq in Ec. exists (EvSleep 5 :: Main.trace s).
      unfold Main.process_message. rewrite Ht2.
      destruct (messages_list w (Main.trace s2) (thread_obj_id t)) as [| m rest];
        [repeat split; try assumption; discriminate |].
      destruct (content m) as [| [v |] blocks];
        repeat split; try assumption; discriminate.
    + destruct (status _ =? "requires_action")%string.
      * destruct (required_action _) as [calls |]; [| left; now split].
        destruct (main_call_frame w s2 calls) as (Ht3 & Hr3 & Hs3 & _).
        pose proof (main_call_listings w s2 calls) as Hl3.
        destruct (Main.call_required_functions w calls s2) as [[u | e] s3];
          cbn [fst snd] in *.
        -- destruct (IH s3 t r) as [[Hl Hs] | (h & Htr & Hst & Hl & Hend)];
             try congruence.
           ++ left. split; congruence.
           ++ right. exists h. repeat split; try assumption; try congruence.
        -- left. split; congruence.
      * destruct (IH s2 t r Ht2 Hr2) as [[Hl Hs] | (h & Htr & Hst & Hl & Hend)].
        -- left. split; congruence.
        -- right. exists h. repeat split; try assumption; try congruence.
Qed.

Lemma sentiment_poll_extraction (w : World) (fuel : nat) :
  forall (s : Sentiment.State) (t : Thread) (r : Run),
    Sentiment.thread s = Some t -> Sentiment.run s = Some r ->
    (listings (Sentiment.trace (snd (Sentiment.poll w fuel s)))
     = listings (Sentiment.trace s)
     /\ Sentiment.sentiment_analysis (snd (Sentiment.poll w fuel s))
        = Sentiment.sentiment_analysis s)
    \/ (exists h,
          Sentiment.trace (snd (Sentiment.poll w fuel s))
          = EvMessagesList (thread_obj_id t)
              :: EvRunsRetrieve (thread_obj_id t) (run_obj_id r) :: h
          /\ status (runs_retrieve w h (thread_obj_id t) (run_obj_id r)) = "completed"
          /\ listings h = listings (Sentiment.trace s)
          /\ fst (Sentiment.poll w fuel s) <> None).
Proof.
  induction fuel as [| fuel IH]; intros s t r Ht Hr.
  - left. now split.
  - cbn [Sentiment.poll Sentiment.log Sentiment.thread Sentiment.run Sentiment.trace].
    rewrite Ht, Hr.
    set (s2 := Sentiment.log _ (Sentiment.log _ s)).
    assert (Ht2 : Sentiment.thread s2 = Some t) by exact Ht.
    assert (Hr2 : Sentiment.run s2 = Some r) by exact Hr.
    assert (Hl2 : listings (Sentiment.trace s2) = listings (Sentiment.trace s))
      by reflexivity.
    assert (Hs2 : Sentiment.sentiment_analysis s2 = Sentiment.sentiment_analysis s)
      by reflexivity.
    destruct (status _ =? "completed")%string eqn:Ec.
    + right. apply String.eqb_eq in Ec. exists (EvSleep 5 :: Sentiment.trace s).
      unfold Sentiment.process_sentiment_results. rewrite Ht2.
      destruct (messages_list w (Sentiment.trace s2) (thread_obj_id t)) as [| m rest];
        [repeat split; try assumption; discriminate |].
      destruct (content m) as [| [v |] blocks];
        repeat split; try assumption; discriminate.
    + destruct (status _ =? "requires_action")%string.
      * destruct (required_action _) as [calls |]; [| left; now split].
        destruct (sentiment_call_frame w s2 calls) as (Ht3 & Hr3 & Hs3 & Hl3).
        destruct (Sentiment.call_sentiment_functions w calls s2) as [[u | e] s3];
          cbn [fst snd] in *.
        -- destruct (IH s3 t r) as [[Hl Hs] | (h & Htr & Hst & Hl & Hend)];
             try congruence.
           ++ left. split; congruence.
           ++ right. exists h. repeat split; try assumption; try congruence.
        -- left. split; congruence.
      * destruct (IH s2 t r Ht2 Hr2) as [[Hl Hs] | (h & Htr & Hst & Hl & Hend)].
        -- left. split; congruence.
        -- right. exists h. repeat split; try assumption; try congruence.
Qed.

(** C5 (the claim fails as stated).  The run is in progress and the thread
    holds only the user's message: [process_message] returns normally and
    stores that message as the summary. *)
Lemma extraction_before_completion_returns :
  let w := Scenario.world (Scenario.answers 200 []) (Scenario.reports "in_progress")
             [Scenario.user_message] in
  status (runs_retrieve w [] "thread_1" "run_1") = "in_progress"
  /\ fst (Main.process_message w Scenario.running) = Ok tt
  /\ Main.get_summary (snd (Main.process_message w Scenario.running))
     = Some "summarize the news on this topic bitcoin?".
Proof. intros w. repeat split. Qed.

(** C5 (amended).  [process_message] and [process_sentiment_results] do not
    consult the status of the run: their outcome is the same whatever the
    remote run reports.  With a thread whose listing starts with a message
    whose first content block is text, they return normally and store that
    text.  The poll loop calls them once a poll has reported "completed", and
    the loop then ends with that text stored.  It calls them at no other
    moment: after any number of polls, either no message has been listed and
    the stored text is unchanged, or the last two calls of the loop are a
    status check that reported "completed" and the one listing, and the loop
    has ended. *)
Theorem extraction_ignores_status (w : World)
    (f : list event -> string -> string -> RunStatus) :
  (forall s : Main.State,
      Main.process_message (with_runs w f) s = Main.process_message w s)
  /\ (forall s : Sentiment.State,
      Sentiment.process_sentiment_results (with_runs w f) s
      = Sentiment.process_sentiment_results w s)
  /\ (forall (s : Main.State) t m rest v blocks,
      Main.thread s = Some t ->
      messages_list w (Main.trace s) (thread_obj_id t) = m :: rest ->
      content m = TextBlock v :: blocks ->
      fst (Main.process_message w s) = Ok tt
      /\ Main.get_summary (snd (Main.process_message w s)) = Some v)
  /\ (forall (s : Sentiment.State) t m rest v blocks,
      Sentiment.thread s = Some t ->
      messages_list w (Sentiment.trace s) (thread_obj_id t) = m :: rest ->
      content m = TextBlock v :: blocks ->
      fst (Sentiment.process_sentiment_results w s) = Ok tt
      /\ Sentiment.sentiment_analysis (snd (Sentiment.process_sentiment_results w s))
         = Some v)
  /\ (forall (fuel : nat) (s : Main.State) t r m rest v blocks,
      Main.thread s = Some t -> Main.run s = Some r ->
      status (runs_retrieve w (EvSleep 5 :: Main.trace s)
                (thread_obj_id t) (run_obj_id r)) = "completed" ->
      messages_list w
        (EvRunsRetrieve (thread_obj_id t) (run_obj_id r) :: EvSleep 5 :: Main.trace s)
        (thread_obj_id t) = m :: rest ->
      content m = TextBlock v :: blocks ->
      fst (Main.wait_for_run_completion w (S fuel) s) = Some (Ok tt)
      /\ Main.get_summary (snd (Main.wait_for_run_completion w (S fuel) s)) = Some v)
  /\ (forall (fuel : nat) (s : Sentiment.State) t r m rest v blocks,
      Sentiment.thread s = Some t -> Sentiment.run s = Some r ->
      status (runs_retrieve w (EvSleep 5 :: Sentiment.trace s)
                (thread_obj_id t) (run_obj_id r)) = "completed" ->
      messages_list w
        (EvRunsRetrieve (thread_obj_id t) (run_obj_id r) :: EvSleep 5 :: Sentiment.trace s)
        (thread_obj_id t) = m :: rest ->
      content m = TextBlock v :: blocks ->
      fst (Sentiment.wait_for_sentiment_completion w (S fuel) s) = Some (Ok tt)
      /\ Sentiment.sentiment_analysis
           (snd (Sentiment.wait_for_sentiment_completion w (S fuel) s)) = Some v)
  /\ (forall (fuel : nat) (s : Main.State) t r,
      Main.thread s = Some t -> Main.run s = Some r ->
      let out := Main.wait_for_run_completion w fuel s in
      (listings (Main.trace (snd out)) = listings (Main.trace s)
       /\ Main.get_summary (snd out) = Main.get_summary s)
      \/ (exists h,
            Main.trace (snd out)
            = EvMessagesList (thread_obj_id t)
                :: EvRunsRetrieve (thread_obj_id t) (run_obj_id r) :: h
            /\ status (runs_retrieve w h (thread_obj_id t) (run_obj_id r)) = "completed"
            /\ listings h = listings (Main.trace s)
            /\ fst out <> None))
  /\ (forall (fuel : nat) (s : Sentiment.State) t r,
      Sentiment.thread s = Some t -> Sentiment.run s = Some r ->
      let out := Sentiment.wait_for_sentiment_completion w fuel s in
      (listings (Sentiment.trace (snd out)) = listings (Sentiment.trace s)
       /\ Sentiment.sentiment_analysis (snd out) = Sentiment.sentiment_analysis s)
      \/ (exists h,
            Sentiment.trace (snd out)
            = EvMessagesList (thread_obj_id t)
                :: EvRunsRetrieve (thread_obj_id t) (run_obj_id r) :: h
            /\ status (runs_retrieve w h (thread_obj_id t) (run_obj_id r)) = "completed"
            /\ listings h = listings (Sentiment.trace s)
            /\ fst out <> None)).
Proof.
  split; [exact (main_process_message_with_runs w f) |].
  split; [exact (sentiment_process_results_with_runs w f) |].
  split; [| split; [| split; [| split; [| split]]]].
  5: { intros fuel s t r Ht Hr. unfold Main.wait_for_run_completion, Main.get_summary.
       rewrite Ht, Hr. exact (main_poll_extraction w fuel s t r Ht Hr). }
  5: { intros fuel s t r Ht Hr. unfold Sentiment.wait_for_sentiment_completion.
       rewrite Ht, Hr. exact (sentiment_poll_extraction w fuel s t r Ht Hr). }
  - intros s t m rest v blocks Ht Hd Hc.
    pose proof (main_process_message_cases w s t Ht) as H.
    now rewrite Hd, Hc in H.
  - intros s t m rest v blocks Ht Hd Hc.
    pose proof (sentiment_process_results_cases w s t Ht) as H.
    now rewrite Hd, Hc in H.
  - intros fuel s t r m rest v blocks Ht Hr Hst Hd Hc.
    unfold Main.wait_for_run_completion. rewrite Ht, Hr.
    cbn [Main.poll Main.log Main.thread Main.run Main.trace]. rewrite Ht, Hr, Hst.
    cbn [String.eqb Ascii.eqb Bool.eqb].
    unfold Main.process_message.
    cbn [Main.log Main.thread Main.run Main.trace]. rewrite Ht, Hd, Hc.
    split; reflexivity.
  - intros fuel s t r m rest v blocks Ht Hr Hst Hd Hc.
    unfold Sentiment.wait_for_sentiment_completion. rewrite Ht, Hr.
    cbn [Sentiment.poll Sentiment.log Sentiment.thread Sentiment.run Sentiment.trace].
    rewrite Ht, Hr, Hst.
    cbn [String.eqb Ascii.eqb Bool.eqb].
    unfold Sentiment.process_sentiment_results.
    cbn [Sentiment.log Sentiment.thread Sentiment.run Sentiment.trace].
    rewrite Ht, Hd, Hc.
    split; reflexivity.
Qed.

Lemma extraction_ignores_status_witness :
  let w := Scenario.world (Scenario.answers 200 []) (Scenario.reports "completed")
             [Scenario.assistant_message; Scenario.user_message] in
  fst (Main.wait_for_run_completion w 1 Scenario.running) = Some (Ok tt)
  /\ Main.get_summary (snd (Main.wait_for_run_completion w 1 Scenario.running))
     = Some "Bitcoin news is mixed.".
Proof.
  intros w.
  destruct (extraction_ignores_status w (fun _ _ _ => Scenario.reports "failed"))
    as (_ & _ & _ & _ & Hloop & _).
  apply (Hloop 0%nat Scenario.running {| thread_obj_id := "thread_1" |}
           {| run_obj_id := "run_1" |} Scenario.assistant_message
           [Scenario.user_message] "Bitcoin news is mixed." []);
    reflexivity.
Defined.

(** ** The end-to-end scenario *)

(** The topic is "bitcoin", the search answers two articles, the run asks for
    one callback and then completes with "Bitcoin news is mixed.": two polls
    end the loop, the summary is that text, the fetch is made once, for the
    topic, and one output is submitted, under the identifier of the call. *)
Example end_to_end :
  let out := Main.wait_for_run_completion Scenario.round_trip 2 Scenario.running in
  fst out = Some (Ok tt)
  /\ Main.get_summary (snd out) = Some "Bitcoin news is mixed."
  /\ filter is_search (Main.trace (snd out))
     = [EvHttpGet "https://newsapi.org/v2/everything?q=bitcoin&apiKey=key&pageSize=5"]
  /\ map (map tool_call_id) (submitted (Main.trace (snd out))) = [["call_1"]]
  /\ polls (Main.trace (snd out)) = 2%nat
  /\ paced (Main.trace (snd out)) = true.
Proof. vm_compute. repeat split. Qed.

(** [test.py] runs the loop of [main.py]. *)
Remark test_wait_for_completion :
  Test.wait_for_completion = Main.wait_for_run_completion
  /\ Test.call_required_functions = Main.call_required_functions
  /\ Test.process_message = Main.process_message.
Proof. repeat split. Qed.

(** ** More on the news fetch *)

(** A loop that returns has run every turn, in order. *)
Lemma rmap_Forall2 {A B : Type} (f : A -> result B) (xs : list A) :
  forall ys, rmap f xs = Ok ys -> Forall2 (fun x y => f x = Ok y) xs ys.
Proof.
  induction xs as [| x xs IH]; intros ys H; simpl in H.
  - injection H as <-. constructor.
  - destruct (f x) as [y | e] eqn:Ex; [| discriminate].
    destruct (rmap f xs) as [ys' | e]; [| discriminate].
    injection H as <-. constructor; [exact Ex | now apply IH].
Qed.

Lemma rmap_total {A B : Type} (f : A -> result B) (xs : list A) :
  (forall x, In x xs -> exists y, f x = Ok y) -> exists ys, rmap f xs = Ok ys.
Proof.
  induction xs as [| x xs IH]; intros H; simpl.
  - now exists [].
  - destruct (H x (or_introl eq_refl)) as [y ->].
    destruct IH as [ys ->]; [intros x' Hin; apply H; now right |].
    now exists (y :: ys).
Qed.

(** The enumerated loop: a turn that raises after turns that succeed gives
    its exception to the loop. *)
Lemma rmapi_first_failure {A B : Type} (f : nat -> A -> result B)
    (pre post : list A) (x : A) (e : exn) :
  forall i,
    (forall j a, In a pre -> exists b, f j a = Ok b) ->
    f (i + List.length pre)%nat x = Raise e ->
    rmapi f i (pre ++ x :: post) = Raise e.
Proof.
  induction pre as [| a pre IH]; intros i Hpre Hx; simpl.
  - simpl in Hx. rewrite Nat.add_0_r in Hx. now rewrite Hx.
  - destruct (Hpre i a (or_introl eq_refl)) as [b ->].
    rewrite (IH (S i)).
    + reflexivity.
    + intros j a' Hin. apply Hpre. now right.
    + simpl in Hx. now rewrite Nat.add_succ_r in Hx.
Qed.

Lemma rmapi_nth {A B : Type} (f : nat -> A -> result B) (xs : list A) :
  forall i ys,
    rmapi f i xs = Ok ys ->
    forall k x, nth_error xs k = Some x ->
      exists y, nth_error ys k = Some y /\ f (i + k)%nat x = Ok y.
Proof.
  induction xs as [| a xs IH]; intros i ys H k x Hk.
  - destruct k; discriminate.
  - simpl in H.
    destruct (f i a) as [b | e] eqn:Ea; [| discriminate].
    destruct (rmapi f (S i) xs) as [ys' | e] eqn:Er; [| discriminate].
    injection H as <-.
    destruct k as [| k]; simpl in Hk.
    + injection Hk as <-. exists b. rewrite Nat.add_0_r. now split.
    + destruct (IH (S i) ys' Er k x Hk) as (y & Hy & Hf).
      exists y. split; [exact Hy |]. now rewrite Nat.add_succ_r.
Qed.

Lemma main_format_article_complete (w : World) (a : json) (b : string) :
  main_block_of w a b -> Main.format_article w a = Ok b.
Proof.
  intros (d & sd & name & author & title & description & url & content
          & -> & Hs & Hn & Ha & Ht & Hd & Hu & Hc & ->).
  unfold Main.format_article, getitem. rewrite Hs. cbn [rbind].
  rewrite Hn, Ha, Ht, Hd, Hu, Hc. reflexivity.
Qed.

(** X1.  On a 200 answer whose body holds [status], [totalResults] and a
    list of complete articles, [get_news] returns one block per article, in
    the order of the articles, each the template filled with the fields of
    its article. *)
Theorem get_news_formats_complete_articles (w : World) (history : list event)
    (topic : json) (response : Response) (fields : list (string * json))
    (articles : list json) :
  requests_get w history (Main.news_url w topic) = Ok response ->
  status_code response = 200 ->
  response_json response = Ok (JDict fields) ->
  dict_lookup "status" fields <> None ->
  dict_lookup "totalResults" fields <> None ->
  dict_lookup "articles" fields = Some (JList articles) ->
  Forall (complete w) articles ->
  exists blocks,
    snd (Main.get_news w history topic) = Ok blocks
    /\ List.length blocks = List.length articles
    /\ Forall2 (main_block_of w) articles blocks.
Proof.
  intros Hget Hcode Hjson Hst Htot Harts Hall.
  unfold Main.get_news. cbn [snd]. rewrite Hget. cbn [rbind]. rewrite Hcode.
  cbn [Z.eqb Pos.eqb]. unfold Main.parse_news. rewrite Hjson. cbn [rbind].
  unfold getitem at 1 2 3.
  destruct (dict_lookup "status" fields); [| now contradiction Hst].
  destruct (dict_lookup "totalResults" fields); [| now contradiction Htot].
  rewrite Harts. cbn [rbind iter].
  destruct (rmap_total (Main.format_article w) articles) as [blocks E].
  - intros x Hin. rewrite Forall_forall in Hall.
    destruct (Hall x Hin) as [b Hb]. exists b. now apply main_format_article_complete.
  - rewrite E. exists blocks. split; [reflexivity |].
    split; [now apply rmap_length in E |].
    apply rmap_Forall2 in E. clear - E Hall.
    induction E as [| a b articles blocks Hab _ IH]; constructor.
    + inversion Hall as [| ? ? [b' Hb'] _]; subst.
      rewrite (main_format_article_complete w a b' Hb') in Hab.
      now injection Hab as <-.
    + apply IH. now inversion Hall.
Qed.

Lemma get_news_formats_complete_articles_witness :
  let w := Scenario.world
             (Scenario.answers 200 [Scenario.full_article; Cases.article_without_content])
             (Scenario.reports "in_progress") [] in
  exists blocks,
    snd (Main.get_news w [] (JStr "bitcoin")) = Ok blocks
    /\ List.length blocks = 2%nat
    /\ Forall2 (main_block_of w)
         [Scenario.full_article; Cases.article_without_content] blocks.
Proof.
  intros w.
  apply (get_news_formats_complete_articles w [] (JStr "bitcoin")
           {| status_code := 200;
              response_json :=
                Ok (Scenario.search_body
                      [Scenario.full_article; Cases.article_without_content]);
              response_text := "" |}
           [("status", JStr "ok"); ("totalResults", JInt 2);
            ("articles", JList [Scenario.full_article; Cases.article_without_content])]
           [Scenario.full_article; Cases.article_without_content]);
    try reflexivity; try discriminate.
  repeat constructor; eexists; unfold main_block_of; repeat eexists.
Defined.

(** X2.  On a 200 answer whose body is a dict, [get_news] reads [status],
    [totalResults] and [articles] by subscript, in this order, and raises
    [KeyError] for the first key the body lacks, although it uses the first
    two for nothing; [get_news_for_sentiment] reads [articles] alone, and
    returns the empty list when the body lacks it. *)
Theorem body_keys_read_by_the_fetch (w : World) (history : list event)
    (topic page_size : json) (response : Response) (fields : list (string * json)) :
  status_code response = 200 ->
  response_json response = Ok (JDict fields) ->
  (requests_get w history (Main.news_url w topic) = Ok response ->
   (dict_lookup "status" fields = None ->
    snd (Main.get_news w history topic) = Raise (KeyError "status"))
   /\ (dict_lookup "status" fields <> None ->
       dict_lookup "totalResults" fields = None ->
       snd (Main.get_news w history topic) = Raise (KeyError "totalResults"))
   /\ (dict_lookup "status" fields <> None ->
       dict_lookup "totalResults" fields <> None ->
       dict_lookup "articles" fields = None ->
       snd (Main.get_news w history topic) = Raise (KeyError "articles")))
  /\ (requests_get w history (Sentiment.news_url w topic page_size) = Ok response ->
      dict_lookup "articles" fields = None ->
      snd (Sentiment.get_news_for_sentiment w history topic page_size) = Ok []).
Proof.
  intros Hcode Hjson. split.
  - intros Hget.
    assert (E : snd (Main.get_news w history topic)
                = except_RequestException (Main.parse_news w response)).
    { unfold Main.get_news. cbn [snd]. rewrite Hget. cbn [rbind]. now rewrite Hcode. }
    rewrite E. unfold Main.parse_news. rewrite Hjson. unfold rbind, getitem.
    split; [| split].
    + intros H1. rewrite H1. reflexivity.
    + intros Hs H2.
      destruct (dict_lookup "status" fields); [| now contradiction Hs].
      rewrite H2. reflexivity.
    + intros Hs Ht H3.
      destruct (dict_lookup "status" fields); [| now contradiction Hs].
      destruct (dict_lookup "totalResults" fields); [| now contradiction Ht].
      rewrite H3. reflexivity.
  - intros Hget Harts.
    unfold Sentiment.get_news_for_sentiment. cbn [snd]. rewrite Hget. cbn [rbind].
    rewrite Hcode. cbn [Z.eqb Pos.eqb]. unfold Sentiment.parse_news.
    rewrite Hjson. cbn [rbind]. rewrite get_JDict, Harts. reflexivity.
Qed.

Lemma body_keys_read_by_the_fetch_witness :
  let w := Scenario.world (Cases.answers_body (JDict [("status", JStr "ok")]))
             (Scenario.reports "in_progress") [] in
  snd (Main.get_news w [] (JStr "bitcoin")) = Raise (KeyError "totalResults")
  /\ snd (Sentiment.get_news_for_sentiment w [] (JStr "bitcoin") (JInt 10)) = Ok [].
Proof.
  intros w.
  destruct (body_keys_read_by_the_fetch w [] (JStr "bitcoin") (JInt 10)
              {| status_code := 200;
                 response_json := Ok (JDict [("status", JStr "ok")]);
                 response_text := "" |}
              [("status", JStr "ok")] eq_refl eq_refl) as [Hmain Hsent].
  split.
  - apply (proj1 (proj2 (Hmain eq_refl))); [discriminate | reflexivity].
  - apply Hsent; reflexivity.
Defined.

Lemma get_lookup_or (d : list (string * json)) (k : string) (default : json) :
  get (JDict d) k default = Ok (lookup_or k d default).
Proof. apply get_JDict. Qed.

(** Cutting a text after [n] characters keeps its first [n] characters,
    whole, and nothing else. *)
Lemma split_chars_slice_to (s : string) :
  forall n,
    split_chars (slice_to n s)
    = (fst (split_chars s), firstn n (snd (split_chars s))).
Proof.
  induction s as [| c s IH]; intros n.
  - now destruct n.
  - cbn [slice_to split_chars].
    destruct (is_continuation c) eqn:Ec.
    + cbn [split_chars]. rewrite IH, Ec.
      destruct (split_chars s) as [continuation chars]. reflexivity.
    + destruct n as [| n].
      * destruct (split_chars s) as [continuation chars]. reflexivity.
      * cbn [split_chars]. rewrite IH, Ec.
        destruct (split_chars s) as [continuation chars]. reflexivity.
Qed.

Lemma code_points_slice_to (n : nat) (s : string) :
  code_points (slice_to n s) = firstn n (code_points s).
Proof.
  unfold code_points. rewrite split_chars_slice_to. cbn [snd].
  symmetry. apply firstn_map.
Qed.

Lemma slice_to_prefix (s : string) : forall n, prefix (slice_to n s) s = true.
Proof.
  induction s as [| c s IH]; intros n; [reflexivity |].
  cbn [slice_to]. destruct (is_continuation c).
  - cbn [prefix]. destruct (ascii_dec c c); [apply IH | congruence].
  - destruct n as [| n]; [reflexivity |].
    cbn [prefix]. destruct (ascii_dec c c); [apply IH | congruence].
Qed.

(** [get_news_for_sentiment]: the block of a dict whose [source] is absent
    or a dict and whose [content] is absent or a string. *)
Lemma sentiment_format_article_explicit (w : World) (i : nat)
    (d sd : list (string * json)) (c : string) :
  lookup_or "source" d (JDict []) = JDict sd ->
  lookup_or "content" d (JStr "No content") = JStr c ->
  Sentiment.format_article w i (JDict d)
  = Ok (Sentiment.article_text (str_of_Z (Z.of_nat i + 1))
          (str w (lookup_or "title" d (JStr "No title")))
          (str w (lookup_or "name" sd (JStr "Unknown source")))
          (str w (lookup_or "publishedAt" d (JStr "Unknown date")))
          (str w (lookup_or "description" d (JStr "No description")))
          (slice_to 200 c)).
Proof.
  intros Hs Hc. unfold Sentiment.format_article.
  rewrite !get_lookup_or. cbn [rbind]. rewrite Hs, get_lookup_or. cbn [rbind].
  rewrite Hc. reflexivity.
Qed.

(** X3.  On a 200 answer that lists tolerated articles,
    [get_news_for_sentiment] returns one block per article.  The block of
    the article at position [k] is numbered [k + 1]; a key that the article
    lacks is replaced by its placeholder ("No title", "Unknown source",
    "Unknown date", "No description", "No content"); the content is cut
    after its first 200 characters: what the block holds is the beginning of
    the content, and its characters are the first 200 of the content (all of
    them when the content has fewer). *)
Theorem sentiment_blocks_numbered_and_cut (w : World) (history : list event)
    (topic page_size : json) (response : Response) (fields : list (string * json))
    (articles : list json) :
  requests_get w history (Sentiment.news_url w topic page_size) = Ok response ->
  status_code response = 200 ->
  response_json response = Ok (JDict fields) ->
  dict_lookup "articles" fields = Some (JList articles) ->
  Forall tolerated articles ->
  exists blocks,
    snd (Sentiment.get_news_for_sentiment w history topic page_size) = Ok blocks
    /\ List.length blocks = List.length articles
    /\ forall k d sd c,
        nth_error articles k = Some (JDict d) ->
        lookup_or "source" d (JDict []) = JDict sd ->
        lookup_or "content" d (JStr "No content") = JStr c ->
        nth_error blocks k
        = Some (Sentiment.article_text (str_of_Z (Z.of_nat k + 1))
                  (str w (lookup_or "title" d (JStr "No title")))
                  (str w (lookup_or "name" sd (JStr "Unknown source")))
                  (str w (lookup_or "publishedAt" d (JStr "Unknown date")))
                  (str w (lookup_or "description" d (JStr "No description")))
                  (slice_to 200 c))
        /\ code_points (slice_to 200 c) = firstn 200 (code_points c)
        /\ prefix (slice_to 200 c) c = true.
Proof.
  intros Hget Hcode Hjson Harts Htol.
  unfold Sentiment.get_news_for_sentiment. cbn [snd]. rewrite Hget. cbn [rbind].
  rewrite Hcode. cbn [Z.eqb Pos.eqb]. unfold Sentiment.parse_news.
  rewrite Hjson. cbn [rbind]. rewrite get_JDict, Harts. cbn [rbind iter].
  destruct (rmapi_total (Sentiment.format_article w) articles 0) as [blocks E].
  - intros j x Hin. apply sentiment_format_article_total.
    rewrite Forall_forall in Htol. now apply Htol.
  - rewrite E. exists blocks. split; [reflexivity |].
    split; [now apply rmapi_length in E |].
    intros k d sd c Hk Hs Hc.
    destruct (rmapi_nth _ _ _ _ E k (JDict d) Hk) as (b & Hb & Hf).
    cbn [Nat.add] in Hf. rewrite (sentiment_format_article_explicit w k d sd c Hs Hc) in Hf.
    injection Hf as <-. split; [exact Hb |].
    split; [apply code_points_slice_to | apply slice_to_prefix].
Qed.

(** A content of 253 characters in 256 bytes, the first three of two bytes
    each: the cut keeps 200 characters, which take 203 bytes. *)
Example slice_counts_characters :
  let e_acute := String (ascii_of_nat 195) (String (ascii_of_nat 169) EmptyString) in
  let text :=
    e_acute ++ e_acute ++ e_acute ++ string_of_list_ascii (repeat "x"%char 250) in
  String.length text = 256%nat
  /\ List.length (code_points text) = 253%nat
  /\ String.length (slice_to 200 text) = 203%nat
  /\ List.length (code_points (slice_to 200 text)) = 200%nat.
Proof. vm_compute. repeat split. Qed.

Lemma sentiment_blocks_numbered_and_cut_witness :
  let w := Scenario.world
             (Scenario.answers 200 [Scenario.full_article; Scenario.article_without_author])
             (Scenario.reports "in_progress") [] in
  exists blocks,
    snd (Sentiment.get_news_for_sentiment w [] (JStr "bitcoin") (JInt 10)) = Ok blocks
    /\ List.length blocks = 2%nat
    /\ nth_error blocks 1
       = Some (Sentiment.article_text "2" "Bitcoin dips" "Wire" "2025-01-02T00:00:00Z"
                 "No description" "Prices fell today.").
Proof.
  intros w.
  destruct (sentiment_blocks_numbered_and_cut w [] (JStr "bitcoin") (JInt 10)
              {| status_code := 200;
                 response_json :=
                   Ok (Scenario.search_body
                         [Scenario.full_article; Scenario.article_without_author]);
                 response_text := "" |}
              [("status", JStr "ok"); ("totalResults", JInt 2);
               ("articles",
                JList [Scenario.full_article; Scenario.article_without_author])]
              [Scenario.full_article; Scenario.article_without_author]
              eq_refl eq_refl eq_refl eq_refl)
    as (blocks & Hok & Hlen & Hnth).
  - repeat constructor; eexists; (split; [reflexivity |]); split;
      right; eexists; reflexivity.
  - exists blocks. split; [exact Hok |]. split; [exact Hlen |].
    exact (proj1 (Hnth 1%nat _ _ _ eq_refl eq_refl eq_refl)).
Defined.

Lemma sentiment_format_article_null (w : World) (i : nat) (d : list (string * json)) :
  (dict_lookup "source" d = Some JNull ->
   Sentiment.format_article w i (JDict d) = Raise AttributeError)
  /\ (dict_lookup "source" d = None \/ (exists sd, dict_lookup "source" d = Some (JDict sd)) ->
      dict_lookup "content" d = Some JNull ->
      Sentiment.format_article w i (JDict d) = Raise TypeError).
Proof.
  unfold Sentiment.format_article. rewrite !get_lookup_or. cbn [rbind].
  unfold lookup_or. split.
  - intros ->. reflexivity.
  - intros [-> | [sd ->]] ->; rewrite ?get_lookup_or; reflexivity.
Qed.

(** X4.  [get_news_for_sentiment] replaces a key that is absent, not a value
    that is null: on a 200 answer, the first article whose [source] is null
    makes it raise [AttributeError], and the first one whose [content] is
    null makes it raise [TypeError]; the [except] clause does not catch them
    and no block is returned, whatever the other articles are. *)
Theorem sentiment_null_field_raises (w : World) (history : list event)
    (topic page_size : json) (response : Response) (fields : list (string * json))
    (pre post : list json) (d : list (string * json)) :
  requests_get w history (Sentiment.news_url w topic page_size) = Ok response ->
  status_code response = 200 ->
  response_json response = Ok (JDict fields) ->
  dict_lookup "articles" fields = Some (JList (pre ++ JDict d :: post)) ->
  Forall tolerated pre ->
  (dict_lookup "source" d = Some JNull ->
   snd (Sentiment.get_news_for_sentiment w history topic page_size)
   = Raise AttributeError)
  /\ (dict_lookup "source" d = None \/ (exists sd, dict_lookup "source" d = Some (JDict sd)) ->
      dict_lookup "content" d = Some JNull ->
      snd (Sentiment.get_news_for_sentiment w history topic page_size)
      = Raise TypeError).
Proof.
  intros Hget Hcode Hjson Harts Htol.
  assert (E : forall e,
             Sentiment.format_article w (List.length pre) (JDict d) = Raise e ->
             e <> RequestException ->
             snd (Sentiment.get_news_for_sentiment w history topic page_size) = Raise e).
  { intros e He Hne.
    unfold Sentiment.get_news_for_sentiment. cbn [snd]. rewrite Hget. cbn [rbind].
    rewrite Hcode. cbn [Z.eqb Pos.eqb]. unfold Sentiment.parse_news.
    rewrite Hjson. cbn [rbind]. rewrite get_JDict, Harts. cbn [rbind iter].
    rewrite (rmapi_first_failure (Sentiment.format_article w) pre post (JDict d) e 0).
    - destruct e; try reflexivity. now contradiction Hne.
    - intros j a Hin. apply sentiment_format_article_total.
      rewrite Forall_forall in Htol. now apply Htol.
    - exact He. }
  destruct (sentiment_format_article_null w (List.length pre) d) as [Hsrc Hcont].
  split.
  - intros Hs. apply E; [now apply Hsrc | discriminate].
  - intros Hs Hc. apply E; [now apply Hcont | discriminate].
Qed.

Lemma sentiment_null_field_raises_witness :
  snd (Sentiment.get_news_for_sentiment
         (Scenario.world
            (Scenario.answers 200 [Scenario.full_article; Cases.article_without_content])
            (Scenario.reports "in_progress") [])
         [] (JStr "bitcoin") (JInt 10))
  = Raise TypeError.
Proof.
  apply (proj2 (sentiment_null_field_raises
                  (Scenario.world
                     (Scenario.answers 200
                        [Scenario.full_article; Cases.article_without_content])
                     (Scenario.reports "in_progress") [])
                  [] (JStr "bitcoin") (JInt 10)
                  {| status_code := 200;
                     response_json :=
                       Ok (Scenario.search_body
                             [Scenario.full_article; Cases.article_without_content]);
                     response_text := "" |}
                  [("status", JStr "ok"); ("totalResults", JInt 2);
                   ("articles",
                    JList [Scenario.full_article; Cases.article_without_content])]
                  [Scenario.full_article] []
                  [("source", JDict [("id", JNull); ("name", JStr "Wire")]);
                   ("author", JNull); ("title", JStr "Bitcoin flat");
                   ("description", JStr "Nothing moved.");
                   ("url", JStr "https://example.org/3");
                   ("publishedAt", JStr "2025-01-03T00:00:00Z"); ("content", JNull)]
                  eq_refl eq_refl eq_refl eq_refl
                  ltac:(repeat constructor; eexists; (split; [reflexivity |]); split;
                        right; eexists; reflexivity))).
  - right. eexists. reflexivity.
  - reflexivity.
Defined.

(** ** More on the callbacks and on the poll loop *)

Lemma for_each_action_map
    (resolve : list event -> ToolCall -> list event * result ToolOutput)
    (g : ToolCall -> ToolOutput) (actions : list ToolCall) :
  (forall h a, In a actions -> snd (resolve h a) = Ok (g a)) ->
  forall h, snd (for_each_action resolve h actions) = Ok (map g actions).
Proof.
  induction actions as [| a rest IH]; intros Hall h; simpl; [reflexivity |].
  pose proof (Hall h a (or_introl eq_refl)) as Ha.
  destruct (resolve h a) as [evs r]. cbn [snd] in Ha. subst r.
  assert (Hrest : forall h' a', In a' rest -> snd (resolve h' a') = Ok (g a'))
    by (intros h' a' Hin; apply Hall; now right).
  specialize (IH Hrest (evs ++ h)%list).
  destruct (for_each_action resolve (evs ++ h) rest) as [evs' r'].
  cbn [snd] in IH. subst r'. reflexivity.
Qed.

Lemma main_get_news_soft (w : World) (h : list event) (topic : json) :
  search_fails w h (Main.news_url w topic) -> snd (Main.get_news w h topic) = Ok [].
Proof.
  unfold search_fails, Main.get_news. cbn [snd]. intros H.
  destruct (requests_get w h (Main.news_url w topic)) as [response | e].
  - cbn [rbind]. apply Z.eqb_neq in H. now rewrite H.
  - now subst e.
Qed.

Lemma sentiment_get_news_soft (w : World) (h : list event) (topic page_size : json) :
  search_fails w h (Sentiment.news_url w topic page_size) ->
  snd (Sentiment.get_news_for_sentiment w h topic page_size) = Ok [].
Proof.
  unfold search_fails, Sentiment.get_news_for_sentiment. cbn [snd]. intros H.
  destruct (requests_get w h (Sentiment.news_url w topic page_size)) as [response | e].
  - cbn [rbind]. apply Z.eqb_neq in H. now rewrite H.
  - now subst e.
Qed.

Lemma main_resolve_action_soft (w : World) (h : list event) (a : ToolCall) :
  search_always_fails w -> function_name a = "get_news" -> decodes_topic w a ->
  snd (Main.resolve_action w h a) = Ok {| tool_call_id := call_id a; output := "" |}.
Proof.
  intros Hfail Hname (args & topic & Hl & Ht).
  unfold Main.resolve_action. rewrite Hl, Hname, String.eqb_refl, Ht.
  pose proof (main_get_news_soft w h topic (Hfail _ _)) as Hsoft.
  destruct (Main.get_news w h topic) as [ev r]. cbn [snd] in Hsoft. now subst r.
Qed.

Lemma sentiment_resolve_action_soft (w : World) (h : list event) (a : ToolCall) :
  search_always_fails w -> function_name a = "get_news_for_sentiment" ->
  decodes_topic w a ->
  snd (Sentiment.resolve_action w h a)
  = Ok {| tool_call_id := call_id a; output := "" |}.
Proof.
  intros Hfail Hname (args & topic & Hl & Ht).
  unfold Sentiment.resolve_action. rewrite Hl, Hname, String.eqb_refl, Ht.
  destruct args as [| | | | | d]; try discriminate.
  rewrite get_JDict.
  match goal with
  | |- context [Sentiment.get_news_for_sentiment w h topic ?ps] =>
      pose proof (sentiment_get_news_soft w h topic ps (Hfail _ _)) as Hsoft;
      destruct (Sentiment.get_news_for_sentiment w h topic ps) as [ev r]
  end.
  cbn [snd] in Hsoft. now subst r.
Qed.

(** X5.  The soft failure of the search reaches the assistant as an empty
    output: in a cycle of a run with a thread whose requests name the known
    function and a topic, when every search fails (a status other than 200,
    or a transport error) the cycle still returns normally and submits one
    batch, in which every request gets the empty string. *)
Theorem failed_search_submits_empty_outputs (w : World) (calls : list ToolCall) :
  search_always_fails w ->
  (forall (s : Main.State) (r : Run) (t : Thread),
      Main.run s = Some r -> Main.thread s = Some t ->
      (forall a, In a calls -> function_name a = "get_news" /\ decodes_topic w a) ->
      let out := Main.call_required_functions w calls s in
      fst out = Ok tt
      /\ submitted (Main.trace (snd out)) = empty_outputs calls :: submitted (Main.trace s))
  /\ (forall (s : Sentiment.State) (r : Run) (t : Thread),
      Sentiment.run s = Some r -> Sentiment.thread s = Some t ->
      (forall a, In a calls ->
         function_name a = "get_news_for_sentiment" /\ decodes_topic w a) ->
      let out := Sentiment.call_sentiment_functions w calls s in
      fst out = Ok tt
      /\ submitted (Sentiment.trace (snd out))
         = empty_outputs calls :: submitted (Sentiment.trace s)).
Proof.
  intros Hfail. split.
  - intros s r t Hr Ht Hcalls out.
    pose proof (main_call_cases w s r calls Hr) as Hcases.
    fold out in Hcases. cbv zeta in Hcases. rewrite Ht in Hcases.
    pose proof (for_each_action_searches (Main.resolve_action w)
                  (main_resolve_action_searches w) calls (Main.trace s)) as Hev.
    pose proof (for_each_action_map (Main.resolve_action w)
                  (fun a => {| tool_call_id := call_id a; output := "" |}) calls
                  (fun h a Hin =>
                     main_resolve_action_soft w h a Hfail
                       (proj1 (Hcalls a Hin)) (proj2 (Hcalls a Hin)))
                  (Main.trace s)) as Hmap.
    fold (Main.resolve_actions w (Main.trace s) calls) in Hev, Hmap.
    rewrite Hmap in Hcases. destruct Hcases as [Hout Htrace].
    split; [exact Hout |]. rewrite Htrace. cbn [submitted].
    now rewrite (submitted_searches _ _ Hev).
  - intros s r t Hr Ht Hcalls out.
    pose proof (sentiment_call_cases w s r calls Hr) as Hcases.
    fold out in Hcases. cbv zeta in Hcases. rewrite Ht in Hcases.
    pose proof (for_each_action_searches (Sentiment.resolve_action w)
                  (sentiment_resolve_action_searches w) calls (Sentiment.trace s)) as Hev.
    pose proof (for_each_action_map (Sentiment.resolve_action w)
                  (fun a => {| tool_call_id := call_id a; output := "" |}) calls
                  (fun h a Hin =>
                     sentiment_resolve_action_soft w h a Hfail
                       (proj1 (Hcalls a Hin)) (proj2 (Hcalls a Hin)))
                  (Sentiment.trace s)) as Hmap.
    fold (Sentiment.resolve_actions w (Sentiment.trace s) calls) in Hev, Hmap.
    rewrite Hmap in Hcases. destruct Hcases as [Hout Htrace].
    split; [exact Hout |]. rewrite Htrace. cbn [submitted].
    now rewrite (submitted_searches _ _ Hev).
Qed.

Lemma failed_search_submits_empty_outputs_witness :
  let w := Scenario.world (Scenario.answers 500 []) (Scenario.reports "requires_action") [] in
  let calls := [Scenario.news_call "call_1"; Scenario.news_call "call_2"] in
  fst (Main.call_required_functions w calls Scenario.running) = Ok tt
  /\ submitted (Main.trace (snd (Main.call_required_functions w calls Scenario.running)))
     = [[ {| tool_call_id := "call_1"; output := "" |};
          {| tool_call_id := "call_2"; output := "" |} ]].
Proof.
  intros w calls.
  apply (proj1 (failed_search_submits_empty_outputs w calls
                  ltac:(intros h url; unfold search_fails; simpl; discriminate))
           Scenario.running {| run_obj_id := "run_1" |} {| thread_obj_id := "thread_1" |}
           eq_refl eq_refl).
  intros a [<- | [<- | []]]; (split; [reflexivity |]);
    exists (JDict [("topic", JStr "bitcoin")]), (JStr "bitcoin"); now split.
Defined.

(** One turn of the loop on "requires_action": the cycle is run on the state
    after the sleep and the status check; its exception ends the loop. *)
Lemma main_poll_requires_action (w : World) (fuel : nat) (s : Main.State)
    (t : Thread) (r : Run) (calls : list ToolCall) :
  Main.thread s = Some t -> Main.run s = Some r ->
  status (runs_retrieve w (EvSleep 5 :: Main.trace s) (thread_obj_id t) (run_obj_id r))
  = "requires_action" ->
  required_action
    (runs_retrieve w (EvSleep 5 :: Main.trace s) (thread_obj_id t) (run_obj_id r))
  = Some calls ->
  let s2 := Main.log (EvRunsRetrieve (thread_obj_id t) (run_obj_id r))
              (Main.log (EvSleep 5) s) in
  Main.poll w (S fuel) s
  = match Main.call_required_functions w calls s2 with
    | (Ok _, s3) => Main.poll w fuel s3
    | (Raise e, s3) => (Some (Raise e), s3)
    end.
Proof.
  intros Ht Hr Hst Hreq s2.
  cbn [Main.poll Main.log Main.thread Main.run Main.trace]. rewrite Ht, Hr, Hst, Hreq.
  reflexivity.
Qed.

(** X6.  An unknown function ends the poll loop: when a poll reports
    "requires_action" with a request for a function other than [get_news],
    [wait_for_run_completion] leaves its loop at that poll by an exception,
    without a submission and without a summary; the exception is the
    [ValueError] of the unknown name when the requests before it resolve and
    its arguments decode. *)
Theorem unknown_function_ends_the_loop (w : World) (fuel : nat) (s : Main.State)
    (t : Thread) (r : Run) (pre post : list ToolCall) (a : ToolCall) :
  Main.thread s = Some t -> Main.run s = Some r ->
  status (runs_retrieve w (EvSleep 5 :: Main.trace s) (thread_obj_id t) (run_obj_id r))
  = "requires_action" ->
  required_action
    (runs_retrieve w (EvSleep 5 :: Main.trace s) (thread_obj_id t) (run_obj_id r))
  = Some (pre ++ a :: post)%list ->
  function_name a <> "get_news" ->
  let out := Main.wait_for_run_completion w (S fuel) s in
  (exists e, fst out = Some (Raise e))
  /\ Main.get_summary (snd out) = Main.get_summary s
  /\ submitted (Main.trace (snd out)) = submitted (Main.trace s)
  /\ polls (Main.trace (snd out)) = S (polls (Main.trace s))
  /\ (is_ok (snd (Main.resolve_actions w
                    (EvRunsRetrieve (thread_obj_id t) (run_obj_id r)
                       :: EvSleep 5 :: Main.trace s) pre)) = true ->
      is_ok (json_loads w (function_arguments a)) = true ->
      fst out = Some (Raise (ValueError ("Unknown function: " ++ function_name a)))).
Proof.
  intros Ht Hr Hst Hreq Hname out. subst out.
  unfold Main.wait_for_run_completion. rewrite Ht, Hr.
  rewrite (main_poll_requires_action w fuel s t r (pre ++ a :: post) Ht Hr Hst Hreq).
  set (s2 := Main.log _ (Main.log _ s)).
  destruct (main_unknown_function w pre post a s2 r Hr Hname) as (Hfail & Hsub & Hvalue).
  destruct (main_call_frame w s2 (pre ++ a :: post)) as (_ & _ & Hsum & Hpolls & _).
  destruct (Main.call_required_functions w (pre ++ a :: post) s2) as [[u | e] s3];
    cbn [fst snd] in *; [discriminate |].
  split; [now exists e |].
  split; [exact Hsum |]. split; [exact Hsub |]. split; [exact Hpolls |].
  intros Hpre Hargs. now rewrite (Hvalue Hpre Hargs).
Qed.

Lemma unknown_function_ends_the_loop_witness :
  let w := Scenario.world (Scenario.answers 200 [Scenario.full_article])
             (Scenario.asks [Scenario.unknown_call "call_1"]) [] in
  fst (Main.wait_for_run_completion w 7 Scenario.running)
  = Some (Raise (ValueError "Unknown function: get_weather"))
  /\ Main.get_summary (snd (Main.wait_for_run_completion w 7 Scenario.running)) = None
  /\ polls (Main.trace (snd (Main.wait_for_run_completion w 7 Scenario.running))) = 1%nat.
Proof.
  intros w.
  destruct (unknown_function_ends_the_loop w 6 Scenario.running
              {| thread_obj_id := "thread_1" |} {| run_obj_id := "run_1" |}
              [] [] (Scenario.unknown_call "call_1") eq_refl eq_refl eq_refl eq_refl
              ltac:(discriminate))
    as (_ & Hsum & _ & Hpolls & Hvalue).
  split; [apply Hvalue; reflexivity |]. split; [exact Hsum | exact Hpolls].
Defined.

Lemma slept_ticks (n : nat) (tid rid : string) (tr : list event) :
  slept (ticks n tid rid ++ tr) = 5 * Z.of_nat n + slept tr.
Proof.
  unfold ticks. induction n as [| n IH]; [reflexivity |].
  cbn [repeat List.concat app slept]. rewrite IH. lia.
Qed.

Lemma main_poll_completed (w : World) (fuel : nat) (s : Main.State)
    (t : Thread) (r : Run) (m : Message) (rest : list Message) (v : string)
    (blocks : list ContentBlock) :
  Main.thread s = Some t -> Main.run s = Some r ->
  status (runs_retrieve w (EvSleep 5 :: Main.trace s) (thread_obj_id t) (run_obj_id r))
  = "completed" ->
  messages_list w
    (EvRunsRetrieve (thread_obj_id t) (run_obj_id r) :: EvSleep 5 :: Main.trace s)
    (thread_obj_id t) = m :: rest ->
  content m = TextBlock v :: blocks ->
  fst (Main.poll w (S fuel) s) = Some (Ok tt)
  /\ Main.summary (snd (Main.poll w (S fuel) s)) = Some v
  /\ Main.trace (snd (Main.poll w (S fuel) s))
     = EvMessagesList (thread_obj_id t)
         :: EvRunsRetrieve (thread_obj_id t) (run_obj_id r) :: EvSleep 5 :: Main.trace s.
Proof.
  intros Ht Hr Hst Hd Hc.
  cbn [Main.poll Main.log Main.thread Main.run Main.trace]. rewrite Ht, Hr, Hst.
  cbn [String.eqb Ascii.eqb Bool.eqb].
  unfold Main.process_message.
  cbn [Main.log Main.thread Main.run Main.trace]. rewrite Ht, Hd, Hc.
  repeat split.
Qed.

(** X7.  The loop returns at the first poll that reports "completed": when
    the first [n] polls report idle statuses and the next one "completed",
    with a thread whose listing then starts with a text message,
    [wait_for_run_completion] returns normally after [n + 1] status checks,
    that is after [5 * (n + 1)] seconds of sleep, and the summary is the text
    of that message. *)
Theorem loop_returns_at_first_completed_poll (w : World) (n : nat) :
  forall (s : Main.State) (t : Thread) (r : Run) (m : Message) (rest : list Message)
         (v : string) (blocks : list ContentBlock) (fuel : nat),
    Main.thread s = Some t -> Main.run s = Some r ->
    (forall k, (k < n)%nat ->
       idle (status (runs_retrieve w
                       (EvSleep 5 :: ticks k (thread_obj_id t) (run_obj_id r) ++ Main.trace s)
                       (thread_obj_id t) (run_obj_id r)))) ->
    status (runs_retrieve w
              (EvSleep 5 :: ticks n (thread_obj_id t) (run_obj_id r) ++ Main.trace s)
              (thread_obj_id t) (run_obj_id r)) = "completed" ->
    messages_list w (ticks (S n) (thread_obj_id t) (run_obj_id r) ++ Main.trace s)
      (thread_obj_id t) = m :: rest ->
    content m = TextBlock v :: blocks ->
    (n < fuel)%nat ->
    let out := Main.wait_for_run_completion w fuel s in
    fst out = Some (Ok tt)
    /\ Main.get_summary (snd out) = Some v
    /\ Main.trace (snd out)
       = EvMessagesList (thread_obj_id t)
           :: (ticks (S n) (thread_obj_id t) (run_obj_id r) ++ Main.trace s)%list
    /\ polls (Main.trace (snd out)) = (S n + polls (Main.trace s))%nat
    /\ slept (Main.trace (snd out)) = 5 * (Z.of_nat n + 1) + slept (Main.trace s).
Proof.
  assert (Hpoll : forall (s : Main.State) (t : Thread) (r : Run) (m : Message)
                         (rest : list Message) (v : string) (blocks : list ContentBlock)
                         (fuel : nat),
             Main.thread s = Some t -> Main.run s = Some r ->
             (forall k, (k < n)%nat ->
                idle (status (runs_retrieve w
                                (EvSleep 5 :: ticks k (thread_obj_id t) (run_obj_id r)
                                   ++ Main.trace s)
                                (thread_obj_id t) (run_obj_id r)))) ->
             status (runs_retrieve w
                       (EvSleep 5 :: ticks n (thread_obj_id t) (run_obj_id r) ++ Main.trace s)
                       (thread_obj_id t) (run_obj_id r)) = "completed" ->
             messages_list w (ticks (S n) (thread_obj_id t) (run_obj_id r) ++ Main.trace s)
               (thread_obj_id t) = m :: rest ->
             content m = TextBlock v :: blocks ->
             (n < fuel)%nat ->
             fst (Main.poll w fuel s) = Some (Ok tt)
             /\ Main.summary (snd (Main.poll w fuel s)) = Some v
             /\ Main.trace (snd (Main.poll w fuel s))
                = EvMessagesList (thread_obj_id t)
                    :: (ticks (S n) (thread_obj_id t) (run_obj_id r) ++ Main.trace s)%list).
  { induction n as [| n IH]; intros s t r m rest v blocks fuel Ht Hr Hidle Hdone Hd Hc Hfuel;
      (destruct fuel as [| fuel]; [lia |]).
    - apply (main_poll_completed w fuel s t r m rest v blocks Ht Hr Hdone Hd Hc).
    - destruct (Hidle 0%nat ltac:(lia)) as [Hc0 Ha0].
      rewrite (main_poll_skips w fuel s t r Ht Hr Hc0 Ha0).
      set (s2 := Main.log _ (Main.log _ s)).
      assert (Htr : forall k,
                 (ticks k (thread_obj_id t) (run_obj_id r) ++ Main.trace s2
                  = ticks (S k) (thread_obj_id t) (run_obj_id r) ++ Main.trace s)%list).
      { intros k. rewrite ticks_S, <- app_assoc. reflexivity. }
      destruct (IH s2 t r m rest v blocks fuel Ht Hr) as (H1 & H2 & H3).
      + intros k Hk. rewrite Htr. apply Hidle. lia.
      + rewrite Htr. exact Hdone.
      + rewrite Htr. exact Hd.
      + exact Hc.
      + lia.
      + rewrite H1, H2, H3, Htr. now repeat split. }
  intros s t r m rest v blocks fuel Ht Hr Hidle Hdone Hd Hc Hfuel out. subst out.
  unfold Main.wait_for_run_completion, Main.get_summary. rewrite Ht, Hr.
  destruct (Hpoll s t r m rest v blocks fuel Ht Hr Hidle Hdone Hd Hc Hfuel)
    as (H1 & H2 & H3).
  rewrite H1, H2, H3. repeat split.
  - cbn [polls]. rewrite ticks_S, <- app_assoc.
    change (polls (ticks n (thread_obj_id t) (run_obj_id r)
                     ++ [EvRunsRetrieve (thread_obj_id t) (run_obj_id r); EvSleep 5]
                     ++ Main.trace s))
      with (polls (ticks n (thread_obj_id t) (run_obj_id r)
                     ++ (EvRunsRetrieve (thread_obj_id t) (run_obj_id r)
                           :: EvSleep 5 :: Main.trace s))).
    clear. induction n as [| n IH]; [reflexivity |].
    unfold ticks in *. cbn [repeat List.concat app polls]. now rewrite IH.
  - cbn [slept]. rewrite slept_ticks. lia.
Qed.

Lemma loop_returns_at_first_completed_poll_witness :
  let out := Main.wait_for_run_completion (Cases.completes_after 3) 10 Scenario.running in
  fst out = Some (Ok tt)
  /\ Main.get_summary (snd out) = Some "Bitcoin news is mixed."
  /\ polls (Main.trace (snd out)) = 4%nat
  /\ slept (Main.trace (snd out)) = 20.
Proof.
  destruct (loop_returns_at_first_completed_poll (Cases.completes_after 3) 3
              Scenario.running {| thread_obj_id := "thread_1" |} {| run_obj_id := "run_1" |}
              Scenario.assistant_message [Scenario.user_message]
              "Bitcoin news is mixed." [] 10 eq_refl eq_refl)
    as (H1 & H2 & _ & H4 & H5).
  - intros k Hk.
    destruct k as [| [| [| k]]]; [| | | lia]; split; discriminate.
  - reflexivity.
  - reflexivity.
  - reflexivity.
  - lia.
  - cbv zeta. split; [exact H1 |]. split; [exact H2 |]. split; [exact H4 | exact H5].
Defined.

(** X8.  The callback round trip: when the first poll reports
    "requires_action" with requests for the known function whose fetches
    return, and the poll after the submission reports "completed" with a
    thread whose listing starts with a text message, then
    [wait_for_run_completion] returns normally after two status checks, having
    submitted one batch with one output per request, and the summary is the
    text of that message. *)
Theorem callback_round_trip (w : World) (fuel : nat) (s : Main.State)
    (t : Thread) (r : Run) (calls : list ToolCall) (m : Message)
    (rest : list Message) (v : string) (blocks : list ContentBlock) :
  Main.thread s = Some t -> Main.run s = Some r ->
  status (runs_retrieve w (EvSleep 5 :: Main.trace s) (thread_obj_id t) (run_obj_id r))
  = "requires_action" ->
  required_action
    (runs_retrieve w (EvSleep 5 :: Main.trace s) (thread_obj_id t) (run_obj_id r))
  = Some calls ->
  (forall a, In a calls -> function_name a = "get_news" /\ main_fetch_succeeds w a) ->
  let s1 := snd (Main.call_required_functions w calls
                   (Main.log (EvRunsRetrieve (thread_obj_id t) (run_obj_id r))
                      (Main.log (EvSleep 5) s))) in
  status (runs_retrieve w (EvSleep 5 :: Main.trace s1) (thread_obj_id t) (run_obj_id r))
  = "completed" ->
  messages_list w
    (EvRunsRetrieve (thread_obj_id t) (run_obj_id r) :: EvSleep 5 :: Main.trace s1)
    (thread_obj_id t) = m :: rest ->
  content m = TextBlock v :: blocks ->
  let out := Main.wait_for_run_completion w (S (S fuel)) s in
  fst out = Some (Ok tt)
  /\ Main.get_summary (snd out) = Some v
  /\ polls (Main.trace (snd out)) = (2 + polls (Main.trace s))%nat
  /\ exists outs,
      submitted (Main.trace (snd out)) = outs :: submitted (Main.trace s)
      /\ map tool_call_id outs = map call_id calls.
Proof.
  intros Ht Hr Hst Hreq Hcalls s1 Hdone Hd Hc out. subst out.
  unfold Main.wait_for_run_completion, Main.get_summary. rewrite Ht, Hr.
  rewrite (main_poll_requires_action w (S fuel) s t r calls Ht Hr Hst Hreq).
  set (s2 := Main.log _ (Main.log _ s)) in *.
  assert (Ht2 : Main.thread s2 = Some t) by exact Ht.
  assert (Hr2 : Main.run s2 = Some r) by exact Hr.
  pose proof (main_call_total w s2 r t calls Hr2 Ht2 Hcalls) as Hok.
  destruct (main_call_frame w s2 calls) as (Ht3 & Hr3 & _ & Hp3 & _).
  destruct (main_batch w s2 calls) as [Hnone | (outs & _ & Hsub & Hids)].
  - pose proof (main_call_cases w s2 r calls Hr2) as Hcases. cbv zeta in Hcases.
    rewrite Ht2 in Hcases.
    destruct (snd (Main.resolve_actions w (Main.trace s2) calls)) as [outs | e].
    + destruct Hcases as [_ Htrace]. rewrite Htrace in Hnone. cbn [submitted] in Hnone.
      pose proof (for_each_action_searches (Main.resolve_action w)
                    (main_resolve_action_searches w) calls (Main.trace s2)) as Hev.
      fold (Main.resolve_actions w (Main.trace s2) calls) in Hev.
      rewrite (submitted_searches _ _ Hev) in Hnone.
      exfalso. clear - Hnone.
      assert (Hlen : List.length (outs :: submitted (Main.trace s2))
                     = List.length (submitted (Main.trace s2))) by now rewrite Hnone.
      simpl in Hlen. lia.
    + destruct Hcases as [Hraise _]. rewrite Hraise in Hok. discriminate.
  - fold s1 in Ht3, Hr3, Hp3, Hsub.
    destruct (Main.call_required_functions w calls s2) as [res s3] eqn:Ecall.
    cbn [fst snd] in *. subst res. subst s1.
    destruct (main_poll_completed w fuel s3 t r m rest v blocks) as (H1 & H2 & H3);
      try congruence.
    rewrite H1, H2, H3. split; [reflexivity |]. split; [reflexivity |].
    split.
    + cbn [polls]. now rewrite Hp3.
    + exists outs. cbn [submitted]. now split.
Qed.

Lemma callback_round_trip_witness :
  let out := Main.wait_for_run_completion Scenario.round_trip 5 Scenario.running in
  fst out = Some (Ok tt)
  /\ Main.get_summary (snd out) = Some "Bitcoin news is mixed."
  /\ polls (Main.trace (snd out)) = 2%nat
  /\ exists outs,
      submitted (Main.trace (snd out)) = [outs]
      /\ map tool_call_id outs = ["call_1"].
Proof.
  apply (callback_round_trip Scenario.round_trip 3 Scenario.running
           {| thread_obj_id := "thread_1" |} {| run_obj_id := "run_1" |}
           [Scenario.news_call "call_1"] Scenario.assistant_message
           [Scenario.user_message] "Bitcoin news is mixed." []);
    try reflexivity.
  intros a [<- | []]. split; [reflexivity |].
  intros h. exists (JDict [("topic", JStr "bitcoin")]), (JStr "bitcoin").
  repeat split.
Defined.

(** ** More on sessions *)

(** X9.  A new manager starts without run and without summary, and leaves
    the cached identifiers as they are.  In a process that has cached
    nothing it holds no assistant and no thread and calls no collaborator.
    In a process that has cached a thread identifier it retrieves that
    thread, and its [create_thread] then changes nothing: no second thread
    is created. *)
Theorem new_manager_starts_from_the_cache (w : World) (s : Main.State) :
  let s' := Main.__init__ w s in
  Main.run s' = None /\ Main.summary s' = None
  /\ Main.thread_id s' = Main.thread_id s /\ Main.assistant_id s' = Main.assistant_id s
  /\ threads_created (Main.trace s') = threads_created (Main.trace s)
  /\ (truthy (Main.thread_id s) = false -> truthy (Main.assistant_id s) = false ->
      Main.thread s' = None /\ Main.assistant s' = None /\ Main.trace s' = Main.trace s)
  /\ (forall id, Main.thread_id s = Some id -> id <> "" ->
      (exists h, Main.thread s' = Some (threads_retrieve w h id)
                 /\ Main.trace s' = EvThreadsRetrieve id :: h)
      /\ Main.create_thread w s' = s').
Proof.
  intros s'. subst s'. unfold Main.__init__.
  cbn [Main.thread_id Main.assistant_id Main.trace].
  destruct (truthy (Main.assistant_id s)) eqn:Ea;
    cbn [Main.thread_id Main.assistant_id Main.trace Main.thread Main.run Main.summary];
    destruct (truthy (Main.thread_id s)) eqn:Et;
    cbn [Main.thread_id Main.assistant_id Main.trace Main.thread Main.run Main.summary
           Main.assistant threads_created];
    repeat (split; [reflexivity |]);
    (split; [intros; try discriminate; now repeat split |]);
    intros id Hid Hne; rewrite Hid in *; cbn [str_opt];
    try (destruct id; [now contradiction Hne | discriminate]);
    (split; [eexists; split; reflexivity | reflexivity]).
Qed.

(** ** More on the sentiment data *)

Lemma lower_app (a b : string) : lower (a ++ b) = lower a ++ lower b.
Proof. induction a as [| c a IH]; simpl; [reflexivity | now rewrite IH]. Qed.

Lemma prefix_app (n rest : string) : prefix n (n ++ rest) = true.
Proof.
  induction n as [| c n IH]; simpl; [now destruct rest |].
  destruct (ascii_dec c c) as [_ | Hne]; [exact IH | now contradiction Hne].
Qed.

(** A string contains each of its substrings. *)
Lemma contains_app (n pre post : string) : contains n (pre ++ n ++ post) = true.
Proof.
  induction pre as [| c pre IH].
  - cbn [append]. destruct (n ++ post) eqn:E; cbn [contains];
      rewrite <- E, prefix_app; reflexivity.
  - cbn [append contains]. rewrite IH. now destruct (prefix n (String c (pre ++ n ++ post))).
Qed.

Lemma parse_positive (s : Sentiment.State) (c : ascii) (text : string) :
  Sentiment.sentiment_analysis s = Some (String c text) ->
  contains "positive" (lower (String c text)) = true ->
  exists d, Sentiment.parse_sentiment_data s = Some d
            /\ Sentiment.category d = "Positive"
            /\ In (Sentiment.score d) [0.8; 0.5; 0.3]%float.
Proof.
  intros Hs Hc. unfold Sentiment.parse_sentiment_data. rewrite Hs.
  cbn [truthy str_opt]. rewrite Hc.
  destruct (contains "very positive" _ || contains "highly positive" _);
    [| destruct (contains "moderately positive" _)];
    eexists; (split; [reflexivity |]); cbn; intuition.
Qed.

Lemma parse_negative (s : Sentiment.State) (c : ascii) (text : string) :
  Sentiment.sentiment_analysis s = Some (String c text) ->
  contains "positive" (lower (String c text)) = false ->
  contains "negative" (lower (String c text)) = true ->
  exists d, Sentiment.parse_sentiment_data s = Some d
            /\ Sentiment.category d = "Negative"
            /\ In (Sentiment.score d) [-0.8; -0.5; -0.3]%float.
Proof.
  intros Hs Hp Hn. unfold Sentiment.parse_sentiment_data. rewrite Hs.
  cbn [truthy str_opt]. rewrite Hp, Hn.
  destruct (contains "very negative" _ || contains "highly negative" _);
    [| destruct (contains "moderately negative" _)];
    eexists; (split; [reflexivity |]); cbn; intuition.
Qed.

(** X10.  The classification ignores the case of the letters and looks for
    the words anywhere in the text: a stored analysis in which "positive"
    occurs, in any mix of upper and lower case, is classified "Positive"
    with a score among 0.8, 0.5 and 0.3; one in which "negative" occurs in
    any case, and "positive" in none, is classified "Negative" with a score
    among -0.8, -0.5 and -0.3. *)
Theorem classification_ignores_case (s : Sentiment.State) (pre word post : string) :
  Sentiment.sentiment_analysis s = Some (pre ++ word ++ post) ->
  (lower word = "positive" ->
   exists d, Sentiment.parse_sentiment_data s = Some d
             /\ Sentiment.category d = "Positive"
             /\ In (Sentiment.score d) [0.8; 0.5; 0.3]%float)
  /\ (lower word = "negative" ->
      contains "positive" (lower (pre ++ word ++ post)) = false ->
      exists d, Sentiment.parse_sentiment_data s = Some d
                /\ Sentiment.category d = "Negative"
                /\ In (Sentiment.score d) [-0.8; -0.5; -0.3]%float).
Proof.
  intros Hs.
  assert (Hword : forall n, lower word = n ->
                            contains n (lower (pre ++ word ++ post)) = true).
  { intros n <-. rewrite !lower_app. apply contains_app. }
  split.
  - intros Hw. specialize (Hword _ Hw).
    destruct (pre ++ word ++ post) as [| c text] eqn:E; [discriminate |].
    exact (parse_positive s c text Hs Hword).
  - intros Hw Hp. specialize (Hword _ Hw).
    destruct (pre ++ word ++ post) as [| c text] eqn:E; [discriminate |].
    exact (parse_negative s c text Hs Hp Hword).
Qed.

Lemma classification_ignores_case_witness :
  exists d,
    Sentiment.parse_sentiment_data
      {| Sentiment.thread_id := None; Sentiment.assistant_id := None;
         Sentiment.assistant := None; Sentiment.thread := None; Sentiment.run := None;
         Sentiment.sentiment_analysis := Some "Outlook: POSITIVE overall";
         Sentiment.trace := [] |} = Some d
    /\ Sentiment.category d = "Positive"
    /\ In (Sentiment.score d) [0.8; 0.5; 0.3]%float.
Proof.
  apply (proj1 (classification_ignores_case
                  {| Sentiment.thread_id := None; Sentiment.assistant_id := None;
                     Sentiment.assistant := None; Sentiment.thread := None;
                     Sentiment.run := None;
                     Sentiment.sentiment_analysis := Some "Outlook: POSITIVE overall";
                     Sentiment.trace := [] |}
                  "Outlook: " "POSITIVE" " overall" eq_refl)).
  reflexivity.
Defined.

(** ** The charts *)

(** X11.  The pie of [create_sentiment_visualization] names the categories
    Positive, Neutral and Negative, and its three shares add up to 100.  The
    share of the category of the data is the confidence; the remainder goes
    to Neutral when the category is Positive or Negative, and to Negative
    otherwise (a neutral result is drawn with a negative share), the third
    share being 0.  The gauge shows the score. *)
Theorem pie_shares (d : Sentiment.SentimentData) :
  exists g p,
    Charts.create_sentiment_visualization (Some d) = (Some g, Some p)
    /\ Charts.value g = Sentiment.score d
    /\ Charts.names p = ["Positive"; "Neutral"; "Negative"]
    /\ fold_right Z.add 0 (Charts.values p) = 100
    /\ (if String.eqb (Sentiment.category d) "Positive" then
          Charts.share "Positive" p = Some (Sentiment.confidence d)
          /\ Charts.share "Neutral" p = Some (100 - Sentiment.confidence d)
          /\ Charts.share "Negative" p = Some 0
        else if String.eqb (Sentiment.category d) "Negative" then
          Charts.share "Negative" p = Some (Sentiment.confidence d)
          /\ Charts.share "Neutral" p = Some (100 - Sentiment.confidence d)
          /\ Charts.share "Positive" p = Some 0
        else
          Charts.share "Neutral" p = Some (Sentiment.confidence d)
          /\ Charts.share "Negative" p = Some (100 - Sentiment.confidence d)
          /\ Charts.share "Positive" p = Some 0).
Proof.
  unfold Charts.create_sentiment_visualization.
  do 2 eexists. split; [reflexivity |].
  cbn [Charts.value Charts.names Charts.values].
  split; [reflexivity |]. split; [reflexivity |].
  destruct (Sentiment.category d =? "Positive")%string.
  - split; [cbn [fold_right]; lia | now repeat split].
  - destruct (Sentiment.category d =? "Negative")%string.
    + split; [cbn [fold_right]; lia | now repeat split].
    + split; [cbn [fold_right]; lia | now repeat split].
Qed.

(** X12.  Charts of a parsed analysis.  Without a stored analysis there is no
    chart.  With one, the gauge shows a score within the range of its steps,
    from -1 to 1, and below its threshold of 0.9, and the pie gives 85 to the
    category found by [parse_sentiment_data] and 15 to Neutral, or to
    Negative when that category is Neutral. *)
Theorem charts_of_parsed_analysis (s : Sentiment.State) :
  match Sentiment.parse_sentiment_data s with
  | None =>
      truthy (Sentiment.sentiment_analysis s) = false
      /\ Charts.create_sentiment_visualization (Sentiment.parse_sentiment_data s)
         = (None, None)
  | Some d =>
      exists g p,
        Charts.create_sentiment_visualization (Sentiment.parse_sentiment_data s)
        = (Some g, Some p)
        /\ (PrimFloat.leb (-1) (Charts.value g) && PrimFloat.leb (Charts.value g) 1
            && PrimFloat.ltb (Charts.value g) (Charts.threshold_value g) = true)%float
        /\ Charts.share (Sentiment.category d) p = Some 85
        /\ Charts.share (if String.eqb (Sentiment.category d) "Neutral"
                         then "Negative" else "Neutral") p = Some 15
        /\ fold_right Z.add 0 (Charts.values p) = 100
  end.
Proof.
  unfold Sentiment.parse_sentiment_data.
  destruct (truthy (Sentiment.sentiment_analysis s)); [| now split].
  remember (lower (str_opt (Sentiment.sentiment_analysis s))) as a eqn:Ea. clear Ea.
  destruct (contains "positive" a).
  - destruct (contains "very positive" a || contains "highly positive" a);
      [| destruct (contains "moderately positive" a)];
      do 2 eexists; (split; [reflexivity |]); now repeat split.
  - destruct (contains "negative" a).
    + destruct (contains "very negative" a || contains "highly negative" a);
        [| destruct (contains "moderately negative" a)];
        do 2 eexists; (split; [reflexivity |]); now repeat split.
    + do 2 eexists; (split; [reflexivity |]); now repeat split.
Qed.

(** ** Setting a run up *)

Lemma sync_app (before after : Main.State) (new : list event) (j : list Session.entry) :
  Main.trace after = (new ++ Main.trace before)%list ->
  Session.sync before after j = (map Session.Core new ++ j)%list.
Proof.
  intros H. unfold Session.sync. rewrite H, length_app.
  replace (List.length new + List.length (Main.trace before)
           - List.length (Main.trace before))%nat
    with (List.length new + 0)%nat by lia.
  rewrite firstn_app_2. simpl. now rewrite app_nil_r.
Qed.

Lemma sync_same (m : Main.State) (j : list Session.entry) : Session.sync m m j = j.
Proof. apply (sync_app m m [] j). reflexivity. Qed.

Lemma requests_of_sync (before after : Main.State) (j : list Session.entry) :
  Session.requests_of (Session.sync before after j) = Session.requests_of j.
Proof.
  unfold Session.sync.
  induction (firstn _ _) as [| e l IH]; simpl; [reflexivity | exact IH].
Qed.

Lemma process_eta (p : Session.Process) :
  {| Session.manager := Session.manager p; Session.model := Session.model p;
     Session.journal := Session.journal p |} = p.
Proof. now destruct p. Qed.

(** X13.  [create_assistant] creates at most one assistant per manager: with
    no assistant it makes one request, with the model of the manager, and
    caches the identifier of the assistant it gets; a later call changes
    nothing, whatever name, instructions and tools it is given. *)
Theorem create_assistant_once (sv : Session.Service) (p : Session.Process)
    (name instructions name' instructions' : string) (tools tools' : json) :
  let p1 := Session.create_assistant sv name instructions tools p in
  let p2 := Session.create_assistant sv name' instructions' tools' p1 in
  p2 = p1
  /\ Main.assistant (Session.manager p1) <> None
  /\ Main.thread (Session.manager p1) = Main.thread (Session.manager p)
  /\ Main.run (Session.manager p1) = Main.run (Session.manager p)
  /\ (Main.assistant (Session.manager p) = None ->
      Session.journal p1
      = Session.Request
          (Session.AssistantsCreate name instructions tools (Session.model p))
          :: Session.journal p
      /\ Main.assistant_id (Session.manager p1)
         = option_map assistant_obj_id (Main.assistant (Session.manager p1)))
  /\ (Main.assistant (Session.manager p) <> None -> p1 = p).
Proof.
  intros p1 p2. subst p2 p1. unfold Session.create_assistant.
  destruct (Main.assistant (Session.manager p)) as [a |] eqn:Ea.
  - rewrite Ea. repeat split; try reflexivity; congruence.
  - cbn [Session.manager Main.assistant Main.thread Main.run Session.journal
           Main.assistant_id option_map].
    repeat split; try reflexivity; try discriminate;
      try (intros H; now contradiction H).
Qed.

(** X14.  The steps of the set-up are skipped in silence when their objects
    are missing: without a thread [add_message_to_thread] sends nothing;
    without a thread or without an assistant [run_assitant] creates no run;
    and with no run [wait_for_run_completion] returns at once, without a
    sleep, a status check or a summary. *)
Theorem missing_objects_skip_the_run (sv : Session.Service) (fuel : nat)
    (p : Session.Process) (role content instructions : string) :
  (Main.thread (Session.manager p) = None ->
   Session.add_message_to_thread role content p = p)
  /\ (Main.thread (Session.manager p) = None \/ Main.assistant (Session.manager p) = None ->
      Session.run_assitant sv instructions p = p)
  /\ (Main.run (Session.manager p) = None ->
      Session.wait_for_run_completion sv fuel p = (Some (Ok tt), p)).
Proof.
  split; [| split].
  - intros H. unfold Session.add_message_to_thread. now rewrite H.
  - intros [H | H]; unfold Session.run_assitant; rewrite H;
      [reflexivity | now destruct (Main.thread (Session.manager p))].
  - intros H. unfold Session.wait_for_run_completion, Session.lift,
      Main.wait_for_run_completion.
    rewrite H. destruct (Main.thread (Session.manager p));
      now rewrite sync_same, process_eta.
Qed.

Lemma missing_objects_skip_the_run_witness :
  let sv := {| Session.world := Scenario.round_trip;
               Session.assistants_create := fun _ _ _ _ _ => {| assistant_obj_id := "asst_1" |};
               Session.runs_create := fun _ _ _ _ => {| run_obj_id := "run_1" |};
               Session.steps_list := fun _ _ _ => [] |} in
  Session.wait_for_run_completion sv 9
    (Session.run_assitant sv "Summarize the news"
       (Session.add_message_to_thread "user" "summarize the news on this topic x?"
          Session.fresh))
  = (Some (Ok tt), Session.fresh).
Proof.
  intros sv.
  destruct (missing_objects_skip_the_run sv 9 Session.fresh "user"
              "summarize the news on this topic x?" "Summarize the news")
    as (Hadd & Hrun & Hwait).
  rewrite (Hadd eq_refl), (Hrun (or_introl eq_refl)). exact (Hwait eq_refl).
Defined.

Lemma lstrip_blank (l : list N) : forallb isspace l = true -> lstrip l = [].
Proof.
  induction l as [| c l IH]; simpl; [reflexivity |].
  intros H. apply andb_prop in H as [Hc Hl]. rewrite Hc. now apply IH.
Qed.

Lemma strip_blank (s : string) :
  forallb isspace (code_points s) = true -> strip s = [].
Proof. intros H. unfold strip. now rewrite (lstrip_blank _ H). Qed.

(** A text with a character that is no white space is not blank. *)
Lemma lstrip_app (a b : list N) :
  forallb isspace a = true -> lstrip (a ++ b) = lstrip b.
Proof.
  induction a as [| c a IH]; simpl; [reflexivity |].
  intros H. apply andb_prop in H as [Hc Ha]. rewrite Hc. now apply IH.
Qed.

Lemma lstrip_spec (l : list N) :
  exists a, l = (a ++ lstrip l)%list /\ forallb isspace a = true
            /\ (forall c rest, lstrip l = c :: rest -> isspace c = false).
Proof.
  induction l as [| c l IH].
  - exists []. repeat split. discriminate.
  - cbn [lstrip]. destruct (isspace c) eqn:Ec.
    + destruct IH as (a & Hl & Ha & Hhead). exists (c :: a). cbn [app forallb].
      rewrite Ec, Ha. repeat split; [now rewrite <- Hl | exact Hhead].
    + exists []. repeat split. now intros c' rest [= <- _].
Qed.

Lemma strip_nil (s : string) :
  strip s = [] <-> forallb isspace (code_points s) = true.
Proof.
  split; [| apply strip_blank].
  unfold strip. intros H.
  destruct (lstrip_spec (code_points s)) as (a & Hl & Ha & Hhead).
  destruct (lstrip (code_points s)) as [| c rest] eqn:El.
  - rewrite Hl, app_nil_r. exact Ha.
  - exfalso. apply (f_equal (@rev N)) in H. rewrite rev_involutive in H.
    change (rev (@nil N)) with (@nil N) in H.
    destruct (lstrip_spec (rev (c :: rest))) as (b & Hb & Hbs & _).
    rewrite H, app_nil_r in Hb.
    assert (Hall : forallb isspace (c :: rest) = true).
    { rewrite <- (rev_involutive (c :: rest)), Hb.
      rewrite forallb_forall in Hbs |- *. intros x Hx. apply Hbs.
      now apply in_rev. }
    cbn [forallb] in Hall. rewrite (Hhead c rest eq_refl) in Hall. discriminate.
Qed.

(** X15.  Nothing is set up without a topic: when the form has not been
    submitted, or when every character of the topic is white space (as
    [str.isspace] has it, the no-break space and the ideographic space
    included), [main] returns after building a manager; it creates no
    assistant, no thread, no message and no run, and it polls nothing.  In
    the second case the page asks for a topic, and this is the only case in
    which a submission is turned down. *)
Theorem main_without_topic (sv : Session.Service) (fuel : nat) (instructions : string)
    (p : Session.Process) :
  Session.main sv fuel instructions false p
  = (Session.Returned, Session.form, Session.new_manager sv Session.default_model p)
  /\ (forallb isspace (code_points instructions) = true ->
      Session.main sv fuel instructions true p
      = (Session.Returned,
         (Session.form ++ [Session.StError "Please enter a topic to search for news."])%list,
         Session.new_manager sv Session.default_model p))
  /\ (forallb isspace (code_points instructions) = false ->
      exists page,
        snd (fst (Session.main sv fuel instructions true p))
        = (Session.form
             ++ Session.StSpinner "Creating assistant and fetching news..." :: page)%list)
  /\ Session.requests_of
       (Session.journal (Session.new_manager sv Session.default_model p))
     = Session.requests_of (Session.journal p).
Proof.
  split; [reflexivity |]. split; [| split].
  - intros H. unfold Session.main. now rewrite (strip_blank _ H).
  - intros H. unfold Session.main.
    destruct (strip instructions) as [| c rest] eqn:Es.
    + apply strip_nil in Es. congruence.
    + destruct (Session.wait_for_run_completion _ _ _) as [[[u | e] |] p5];
        cbn [fst snd]; try (now exists []).
      destruct (Session.get_summary p5) as [[| c' s'] |]; cbn [fst snd];
        try (eexists; cbn [app]; reflexivity).
      destruct (Session.run_steps sv p5) as [[data | e] p6]; cbn [fst snd];
        eexists; cbn [app]; reflexivity.
  - unfold Session.new_manager. cbn [Session.journal]. apply requests_of_sync.
Qed.

Lemma main_without_topic_witness :
  let sv := {| Session.world := Scenario.round_trip;
               Session.assistants_create := fun _ _ _ _ _ => {| assistant_obj_id := "asst_1" |};
               Session.runs_create := fun _ _ _ _ => {| run_obj_id := "run_1" |};
               Session.steps_list := fun _ _ _ => [] |} in
  let blank := " " ++ Cases.no_break_space ++ Cases.ideographic_space in
  code_points blank = [32; 160; 12288]%N
  /\ Session.main sv 9 blank true Session.fresh
     = (Session.Returned,
        (Session.form ++ [Session.StError "Please enter a topic to search for news."])%list,
        Session.new_manager sv Session.default_model Session.fresh).
Proof.
  intros sv blank. split; [reflexivity |].
  apply (proj1 (proj2 (main_without_topic sv 9 blank Session.fresh))).
  reflexivity.
Defined.

(** ** What the poll loop leaves alone *)

Lemma same_objects_refl (s : Main.State) : same_objects s s.
Proof. now repeat split. Qed.

Lemma same_objects_trans (s s' s'' : Main.State) :
  same_objects s s' -> same_objects s' s'' -> same_objects s s''.
Proof. unfold same_objects. intuition congruence. Qed.

Lemma main_process_message_objects (w : World) (s : Main.State) :
  same_objects s (snd (Main.process_message w s))
  /\ exists new,
      Main.trace (snd (Main.process_message w s)) = (new ++ Main.trace s)%list
      /\ forallb is_loop_event new = true.
Proof.
  unfold Main.process_message.
  destruct (Main.thread s) as [t |] eqn:Ht.
  - destruct (messages_list w (Main.trace s) (thread_obj_id t)) as [| m rest];
      [| destruct (content m) as [| [v |] blocks]];
      (split; [now repeat split | exists [EvMessagesList (thread_obj_id t)]; now split]).
  - split; [apply same_objects_refl | exists []; now split].
Qed.

Lemma searches_are_loop_events (evs : list event) :
  forallb is_search evs = true -> forallb is_loop_event evs = true.
Proof.
  induction evs as [| e evs IH]; simpl; [reflexivity |].
  intros H. apply andb_prop in H as [He Hevs]. rewrite (IH Hevs).
  now destruct e.
Qed.

Lemma main_call_objects (w : World) (calls : list ToolCall) (s : Main.State) :
  same_objects s (snd (Main.call_required_functions w calls s))
  /\ exists new,
      Main.trace (snd (Main.call_required_functions w calls s))
      = (new ++ Main.trace s)%list
      /\ forallb is_loop_event new = true.
Proof.
  unfold Main.call_required_functions.
  destruct (Main.run s) as [r |] eqn:Hr;
    [| split; [apply same_objects_refl | exists []; now split]].
  pose proof (for_each_action_searches (Main.resolve_action w)
                (main_resolve_action_searches w) calls (Main.trace s)) as Hev.
  fold (Main.resolve_actions w (Main.trace s) calls) in Hev.
  apply searches_are_loop_events in Hev.
  destruct (Main.resolve_actions w (Main.trace s) calls) as [evs [outs | e]];
    cbn [fst snd Main.add_events Main.thread] in *.
  - destruct (Main.thread s) as [t |] eqn:Ht; cbn [snd].
    + split; [now repeat split |].
      exists (EvSubmitToolOutputs (thread_obj_id t) (run_obj_id r) outs :: evs).
      split; [reflexivity |]. cbn [forallb is_loop_event]. exact Hev.
    + split; [now repeat split | exists evs; now split].
  - split; [now repeat split | exists evs; now split].
Qed.

(** The loop changes the summary and the trace only, and adds loop events
    only. *)
Lemma main_wait_objects (w : World) (fuel : nat) (s : Main.State) :
  same_objects s (snd (Main.wait_for_run_completion w fuel s))
  /\ exists new,
      Main.trace (snd (Main.wait_for_run_completion w fuel s))
      = (new ++ Main.trace s)%list
      /\ forallb is_loop_event new = true
      /\ threads_created new = O.
Proof.
  assert (Hpoll : forall fuel s,
             same_objects s (snd (Main.poll w fuel s))
             /\ exists new,
                 Main.trace (snd (Main.poll w fuel s)) = (new ++ Main.trace s)%list
                 /\ forallb is_loop_event new = true).
  { clear. intros fuel. induction fuel as [| fuel IH]; intros s.
    - split; [apply same_objects_refl | exists []; now split].
    - cbn [Main.poll Main.log Main.thread Main.run Main.trace].
      destruct (Main.thread s) as [t |] eqn:Ht;
        [| split; [now repeat split | exists [EvSleep 5]; now split]].
      destruct (Main.run s) as [r |] eqn:Hr;
        [| split; [now repeat split | exists [EvSleep 5]; now split]].
      set (tick := [EvRunsRetrieve (thread_obj_id t) (run_obj_id r); EvSleep 5]).
      set (s2 := Main.log _ (Main.log _ s)).
      assert (H2 : same_objects s s2) by now repeat split.
      assert (Htr2 : Main.trace s2 = (tick ++ Main.trace s)%list) by reflexivity.
      assert (Hstep : forall s3 : Main.State,
                 (same_objects s2 s3
                  /\ exists new,
                      Main.trace s3 = (new ++ Main.trace s2)%list
                      /\ forallb is_loop_event new = true) ->
                 same_objects s s3
                 /\ exists new,
                     Main.trace s3 = (new ++ Main.trace s)%list
                     /\ forallb is_loop_event new = true).
      { intros s3 (Hobj & new & Htr & Hloop).
        split; [exact (same_objects_trans _ _ _ H2 Hobj) |].
        exists (new ++ tick)%list. rewrite Htr, Htr2, app_assoc.
        split; [reflexivity |]. rewrite forallb_app, Hloop. reflexivity. }
      destruct (status _ =? "completed")%string.
      + pose proof (main_process_message_objects w s2) as Hpm.
        destruct (Main.process_message w s2) as [res s3]. cbn [snd] in *.
        now apply Hstep.
      + destruct (status _ =? "requires_action")%string.
        * destruct (required_action _) as [calls |].
          -- pose proof (main_call_objects w calls s2) as Hcall.
             destruct (Main.call_required_functions w calls s2) as [[u | e] s3];
               cbn [snd] in *; [| now apply Hstep].
             destruct Hcall as (Hobj3 & new3 & Htr3 & Hloop3).
             destruct (IH s3) as (Hobj & new & Htr & Hloop).
             apply Hstep. split; [exact (same_objects_trans _ _ _ Hobj3 Hobj) |].
             exists (new ++ new3)%list. rewrite Htr, Htr3, app_assoc.
             split; [reflexivity |]. rewrite forallb_app, Hloop, Hloop3. reflexivity.
          -- cbn [snd]. apply Hstep. split; [apply same_objects_refl |].
             exists []. now split.
        * apply Hstep. apply IH. }
  assert (Hwait : same_objects s (snd (Main.wait_for_run_completion w fuel s))
                  /\ exists new,
                      Main.trace (snd (Main.wait_for_run_completion w fuel s))
                      = (new ++ Main.trace s)%list
                      /\ forallb is_loop_event new = true).
  { unfold Main.wait_for_run_completion.
    destruct (Main.thread s); [destruct (Main.run s) |]; try apply Hpoll;
      (split; [apply same_objects_refl | exists []; now split]). }
  destruct Hwait as (Hobj & new & Htr & Hloop).
  split; [exact Hobj |]. exists new. split; [exact Htr |]. split; [exact Hloop |].
  clear - Hloop. induction new as [| e new IH]; [reflexivity |].
  cbn [forallb] in Hloop. apply andb_prop in Hloop as [He Hnew].
  destruct e; try discriminate; cbn [threads_created]; now apply IH.
Qed.

(** X16.  The poll loop works on the run it is given and on nothing else:
    whatever the remote service reports, [wait_for_run_completion] leaves the
    assistant, the thread, the run and the cached identifiers as they are,
    and the only calls it makes are sleeps, status checks, searches,
    submissions of tool outputs and listings of messages; it never creates or
    retrieves an assistant or a thread. *)
Theorem poll_loop_leaves_objects_alone (w : World) (fuel : nat) (s : Main.State) :
  same_objects s (snd (Main.wait_for_run_completion w fuel s))
  /\ exists new,
      Main.trace (snd (Main.wait_for_run_completion w fuel s))
      = (new ++ Main.trace s)%list
      /\ forallb is_loop_event new = true
      /\ threads_created new = O.
Proof. exact (main_wait_objects w fuel s). Qed.

(** ** [main] *)

Lemma requests_of_app (a b : list Session.entry) :
  Session.requests_of (a ++ b) = (Session.requests_of a ++ Session.requests_of b)%list.
Proof.
  induction a as [| e a IH]; simpl; [reflexivity |].
  destruct e; simpl; now rewrite ?IH.
Qed.

Lemma requests_of_events (l : list event) :
  Session.requests_of (map Session.Core l) = [].
Proof. induction l as [| e l IH]; simpl; [reflexivity | exact IH]. Qed.

(** The set-up of [main] after the manager is built: the assistant and the
    thread are created where the manager has none, then the message is sent
    to the thread and the run is created for the thread and the assistant. *)
Lemma session_setup (sv : Session.Service) (name instructions content run_instructions : string)
    (tools : json) (p0 : Session.Process) :
  let p4 :=
    Session.run_assitant sv run_instructions
      (Session.add_message_to_thread "user" content
         (Session.create_thread sv
            (Session.create_assistant sv name instructions tools p0))) in
  exists a t creation,
    Main.assistant (Session.manager p4) = Some a
    /\ Main.thread (Session.manager p4) = Some t
    /\ Main.run (Session.manager p4)
       = Some (Session.runs_create sv
                 (Session.Request (Session.MessagesCreate (thread_obj_id t) "user" content)
                    :: creation ++ Session.journal p0)
                 (thread_obj_id t) (assistant_obj_id a) run_instructions)
    /\ Session.journal p4
       = Session.Request
           (Session.RunsCreate (thread_obj_id t) (assistant_obj_id a) run_instructions)
           :: Session.Request (Session.MessagesCreate (thread_obj_id t) "user" content)
           :: (creation ++ Session.journal p0)%list
    /\ creation
       = ((match Main.thread (Session.manager p0) with
           | Some _ => []
           | None => [Session.Core EvThreadsCreate]
           end)
          ++ (match Main.assistant (Session.manager p0) with
              | Some _ => []
              | None =>
                  [Session.Request
                     (Session.AssistantsCreate name instructions tools (Session.model p0))]
              end))%list
    /\ (forall a0, Main.assistant (Session.manager p0) = Some a0 -> a = a0)
    /\ (forall t0, Main.thread (Session.manager p0) = Some t0 -> t = t0)
    /\ (Main.assistant (Session.manager p0) = None ->
        a = Session.assistants_create sv (Session.journal p0) name instructions tools
              (Session.model p0))
    /\ (Main.thread (Session.manager p0) = None ->
        t = threads_create (Session.world sv) (Main.trace (Session.manager p0))).
Proof.
  intros p4. subst p4.
  destruct p0 as [[tid0 aid0 oa ot r0 sm0 tr0] md j0].
  unfold Session.create_assistant, Session.create_thread, Session.lift,
    Main.create_thread, Session.add_message_to_thread, Session.run_assitant.
  destruct oa as [a0 |], ot as [t0 |];
    cbn -[Session.sync];
    rewrite ?sync_same;
    try (rewrite (sync_app _ _ [EvThreadsCreate]) by reflexivity);
    cbn -[Session.sync];
    [ exists a0, t0, []
    | exists a0, (threads_create (Session.world sv) tr0), [Session.Core EvThreadsCreate]
    | exists (Session.assistants_create sv j0 name instructions tools md), t0,
        [Session.Request (Session.AssistantsCreate name instructions tools md)]
    | exists (Session.assistants_create sv j0 name instructions tools md),
        (threads_create (Session.world sv) tr0),
        [Session.Core EvThreadsCreate;
         Session.Request (Session.AssistantsCreate name instructions tools md)] ];
    repeat split; intros; congruence.
Qed.

(** The journal of a submission with a topic: the set-up, then the events of
    the poll loop, then the listing of the run steps when a summary is
    shown. *)
Lemma main_journal (sv : Session.Service) (fuel : nat) (instructions : string)
    (p : Session.Process) :
  strip instructions <> [] ->
  let p4 :=
    Session.run_assitant sv "Summarize the news"
      (Session.add_message_to_thread "user"
         ("summarize the news on this topic " ++ instructions ++ "?")
         (Session.create_thread sv
            (Session.create_assistant sv "News Summarizer"
               "Get the list of articles/news for the given topic" Session.tools
               (Session.new_manager sv Session.default_model p)))) in
  exists new tail,
    Session.journal (snd (Session.main sv fuel instructions true p))
    = (tail ++ map Session.Core new ++ Session.journal p4)%list
    /\ forallb is_loop_event new = true
    /\ threads_created new = O
    /\ (tail = []
        \/ exists t r,
            Main.thread (Session.manager p4) = Some t
            /\ Main.run (Session.manager p4) = Some r
            /\ tail = [Session.Request
                         (Session.StepsList (thread_obj_id t) (run_obj_id r))]).
Proof.
  intros Hstrip p4. unfold Session.main.
  destruct (strip instructions) as [| c rest]; [now contradiction Hstrip |].
  fold p4. unfold Session.wait_for_run_completion, Session.lift.
  destruct (main_wait_objects (Session.world sv) fuel (Session.manager p4))
    as (Hobj & new & Htr & Hloop & Hthr).
  destruct (Main.wait_for_run_completion (Session.world sv) fuel (Session.manager p4))
    as [[[u | e] |] m5]; cbn [snd] in Hobj, Htr;
    rewrite (sync_app _ _ new _ Htr);
    try (exists new, []; cbn [snd Session.journal app];
         (split; [reflexivity |]); (split; [assumption |]);
         (split; [assumption |]); now left).
  unfold Session.get_summary, Main.get_summary. cbn [Session.manager].
  destruct (Main.summary m5) as [[| c' s'] |];
    try (exists new, []; cbn [snd Session.journal app];
         (split; [reflexivity |]); (split; [assumption |]);
         (split; [assumption |]); now left).
  unfold Session.run_steps. cbn [Session.manager Session.journal Session.model].
  destruct Hobj as (_ & _ & _ & Ht & Hr). rewrite Ht, Hr.
  destruct (Main.thread (Session.manager p4)) as [t |];
    [destruct (Main.run (Session.manager p4)) as [r |] |];
    try (exists new, []; cbn [snd Session.journal app];
         (split; [reflexivity |]); (split; [assumption |]);
         (split; [assumption |]); now left).
  exists new, [Session.Request (Session.StepsList (thread_obj_id t) (run_obj_id r))].
  cbn [snd Session.journal app]. repeat split; try assumption.
  right. now exists t, r.
Qed.

(** X17.  The first submission of a process: with a topic that is not
    blank, [main] creates one assistant (named "News Summarizer", with the
    model gpt-3.5-turbo and the one tool [get_news]), then one thread, sends
    the message "summarize the news on this topic <topic>?" to that thread
    and creates one run for that thread and that assistant, in this order;
    after that it makes the calls of the poll loop only, and lists the run
    steps at most once, at the very end. *)
Theorem main_first_submission (sv : Session.Service) (fuel : nat) (instructions : string) :
  strip instructions <> [] ->
  let creation :=
    Session.AssistantsCreate "News Summarizer"
      "Get the list of articles/news for the given topic" Session.tools "gpt-3.5-turbo" in
  let a :=
    Session.assistants_create sv [] "News Summarizer"
      "Get the list of articles/news for the given topic" Session.tools "gpt-3.5-turbo" in
  let t := threads_create (Session.world sv) [] in
  let message :=
    Session.MessagesCreate (thread_obj_id t) "user"
      ("summarize the news on this topic " ++ instructions ++ "?") in
  let r :=
    Session.runs_create sv
      [Session.Request message; Session.Core EvThreadsCreate; Session.Request creation]
      (thread_obj_id t) (assistant_obj_id a) "Summarize the news" in
  exists new tail,
    Session.journal (snd (Session.main sv fuel instructions true Session.fresh))
    = (tail ++ map Session.Core new
         ++ [Session.Request
               (Session.RunsCreate (thread_obj_id t) (assistant_obj_id a)
                  "Summarize the news");
             Session.Request message; Session.Core EvThreadsCreate;
             Session.Request creation])%list
    /\ forallb is_loop_event new = true
    /\ threads_created new = O
    /\ (tail = []
        \/ tail = [Session.Request (Session.StepsList (thread_obj_id t) (run_obj_id r))]).
Proof.
  intros Hstrip creation a t message r.
  destruct (main_journal sv fuel instructions Session.fresh Hstrip)
    as (new & tail & Hj & Hloop & Hthr & Htail).
  exists new, tail. split; [exact Hj |]. split; [exact Hloop |]. split; [exact Hthr |].
  destruct Htail as [-> | (t' & r' & Ht' & Hr' & ->)]; [now left | right].
  injection Ht' as <-. injection Hr' as <-. reflexivity.
Qed.

Lemma main_first_submission_witness :
  let sv := {| Session.world := Scenario.round_trip;
               Session.assistants_create := fun _ _ _ _ _ => {| assistant_obj_id := "asst_1" |};
               Session.runs_create := fun _ _ _ _ => {| run_obj_id := "run_1" |};
               Session.steps_list := fun _ _ _ => [] |} in
  exists new tail,
    Session.journal (snd (Session.main sv 5 "bitcoin" true Session.fresh))
    = (tail ++ map Session.Core new
         ++ [Session.Request
               (Session.RunsCreate "thread_1" "asst_1" "Summarize the news");
             Session.Request
               (Session.MessagesCreate "thread_1" "user"
                  "summarize the news on this topic bitcoin?");
             Session.Core EvThreadsCreate;
             Session.Request
               (Session.AssistantsCreate "News Summarizer"
                  "Get the list of articles/news for the given topic" Session.tools
                  "gpt-3.5-turbo")])%list
    /\ forallb is_loop_event new = true
    /\ threads_created new = O
    /\ (tail = []
        \/ tail = [Session.Request (Session.StepsList "thread_1" "run_1")]).
Proof.
  intros sv. apply (main_first_submission sv 5 "bitcoin"). discriminate.
Defined.

Lemma new_manager_cached (sv : Session.Service) (model : string) (p : Session.Process)
    (aid tid : string) :
  Main.assistant_id (Session.manager p) = Some aid -> aid <> "" ->
  Main.thread_id (Session.manager p) = Some tid -> tid <> "" ->
  let p0 := Session.new_manager sv model p in
  Main.assistant (Session.manager p0)
  = Some (assistants_retrieve (Session.world sv) (Main.trace (Session.manager p)) aid)
  /\ Main.thread (Session.manager p0)
     = Some (threads_retrieve (Session.world sv)
               (EvAssistantsRetrieve aid :: Main.trace (Session.manager p)) tid)
  /\ Session.model p0 = model
  /\ Session.journal p0
     = Session.Core (EvThreadsRetrieve tid) :: Session.Core (EvAssistantsRetrieve aid)
         :: Session.journal p.
Proof.
  intros Ha Hane Ht Htne p0. subst p0. unfold Session.new_manager.
  assert (E : Main.__init__ (Session.world sv) (Session.manager p)
              = {| Main.thread_id := Some tid; Main.assistant_id := Some aid;
                   Main.assistant :=
                     Some (assistants_retrieve (Session.world sv)
                             (Main.trace (Session.manager p)) aid);
                   Main.thread :=
                     Some (threads_retrieve (Session.world sv)
                             (EvAssistantsRetrieve aid :: Main.trace (Session.manager p))
                             tid);
                   Main.run := None; Main.summary := None;
                   Main.trace :=
                     EvThreadsRetrieve tid :: EvAssistantsRetrieve aid
                       :: Main.trace (Session.manager p) |}).
  { unfold Main.__init__. cbn [Main.thread_id Main.assistant_id Main.trace].
    rewrite Ha, Ht.
    destruct aid as [| ca aid']; [now contradiction Hane |].
    destruct tid as [| ct tid']; [now contradiction Htne |].
    reflexivity. }
  rewrite E. cbn [Session.manager Session.model Session.journal Main.assistant Main.thread].
  repeat split.
  apply (sync_app _ _ [EvThreadsRetrieve tid; EvAssistantsRetrieve aid]). reflexivity.
Qed.

(** X18.  A later submission in a process that has cached an assistant and a
    thread: [main] creates neither an assistant nor a thread; the new manager
    retrieves the cached ones, the new message is sent to that same thread,
    and a new run is created for it. *)
Theorem main_resubmission (sv : Session.Service) (fuel : nat) (instructions : string)
    (p : Session.Process) (aid tid : string) :
  strip instructions <> [] ->
  Main.assistant_id (Session.manager p) = Some aid -> aid <> "" ->
  Main.thread_id (Session.manager p) = Some tid -> tid <> "" ->
  let a := assistants_retrieve (Session.world sv) (Main.trace (Session.manager p)) aid in
  let t :=
    threads_retrieve (Session.world sv)
      (EvAssistantsRetrieve aid :: Main.trace (Session.manager p)) tid in
  exists new tail,
    Session.journal (snd (Session.main sv fuel instructions true p))
    = (tail ++ map Session.Core new
         ++ [Session.Request
               (Session.RunsCreate (thread_obj_id t) (assistant_obj_id a)
                  "Summarize the news");
             Session.Request
               (Session.MessagesCreate (thread_obj_id t) "user"
                  ("summarize the news on this topic " ++ instructions ++ "?"));
             Session.Core (EvThreadsRetrieve tid);
             Session.Core (EvAssistantsRetrieve aid)]
         ++ Session.journal p)%list
    /\ forallb is_loop_event new = true
    /\ threads_created new = O
    /\ (tail = []
        \/ exists r,
            tail = [Session.Request (Session.StepsList (thread_obj_id t) (run_obj_id r))]).
Proof.
  intros Hstrip Ha Hane Ht Htne a t.
  destruct (main_journal sv fuel instructions p Hstrip)
    as (new & tail & Hj & Hloop & Hthr & Htail).
  destruct (new_manager_cached sv Session.default_model p aid tid Ha Hane Ht Htne)
    as (Ha0 & Ht0 & _ & Hj0).
  destruct (session_setup sv "News Summarizer"
              "Get the list of articles/news for the given topic"
              ("summarize the news on this topic " ++ instructions ++ "?")
              "Summarize the news" Session.tools
              (Session.new_manager sv Session.default_model p))
    as (a' & t' & creation & Ha4 & Ht4 & Hr4 & Hj4 & Hcreation & Hsame_a & Hsame_t & _).
  rewrite Ha0, Ht0 in Hcreation. cbn [app] in Hcreation. subst creation.
  rewrite (Hsame_a _ Ha0) in *. rewrite (Hsame_t _ Ht0) in *.
  exists new, tail. split.
  - rewrite Hj, Hj4, Hj0. reflexivity.
  - split; [exact Hloop |]. split; [exact Hthr |].
    destruct Htail as [-> | (t'' & r'' & Ht'' & Hr'' & ->)]; [now left | right].
    rewrite Ht4 in Ht''. injection Ht'' as <-. now exists r''.
Qed.

Lemma main_resubmission_witness :
  let sv := {| Session.world := Scenario.round_trip;
               Session.assistants_create := fun _ _ _ _ _ => {| assistant_obj_id := "asst_1" |};
               Session.runs_create := fun _ _ _ _ => {| run_obj_id := "run_2" |};
               Session.steps_list := fun _ _ _ => [] |} in
  let p := {| Session.manager := Scenario.running; Session.model := Session.default_model;
              Session.journal := [] |} in
  exists new tail,
    Session.journal (snd (Session.main sv 5 "ethereum" true p))
    = (tail ++ map Session.Core new
         ++ [Session.Request
               (Session.RunsCreate "thread_1" "asst_1" "Summarize the news");
             Session.Request
               (Session.MessagesCreate "thread_1" "user"
                  "summarize the news on this topic ethereum?");
             Session.Core (EvThreadsRetrieve "thread_1");
             Session.Core (EvAssistantsRetrieve "asst_1")])%list
    /\ forallb is_loop_event new = true
    /\ threads_created new = O
    /\ (tail = []
        \/ exists r, tail = [Session.Request (Session.StepsList "thread_1" (run_obj_id r))]).
Proof.
  intros sv p.
  apply (main_resubmission sv 5 "ethereum" p "asst_1" "thread_1");
    try reflexivity; discriminate.
Defined.

(** X19.  What [main] shows.  With a topic that is not blank, in any
    process, when the run is reported "completed" and the thread lists a
    message with the text [v] first, [main] returns; it shows [v] followed by
    the run steps when [v] is not empty, and the error "Could not generate
    summary. Please try again." when [v] is empty, although the run has
    completed. *)
Theorem main_shows_the_summary (sv : Session.Service) (fuel : nat) (instructions : string)
    (p : Session.Process) (m : Message) (rest : list Message) (v : string)
    (blocks : list ContentBlock) :
  strip instructions <> [] ->
  always_reports (Session.world sv) "completed" ->
  (forall h tid, messages_list (Session.world sv) h tid = m :: rest) ->
  content m = TextBlock v :: blocks ->
  let out := Session.main sv (S fuel) instructions true p in
  fst (fst out) = Session.Returned
  /\ Session.get_summary (snd out) = Some v
  /\ (v = "" ->
      snd (fst out)
      = ((Session.form ++ [Session.StSpinner "Creating assistant and fetching news..."])
           ++ [Session.StError "Could not generate summary. Please try again."])%list)
  /\ (v <> "" ->
      exists data,
        snd (fst out)
        = ((Session.form ++ [Session.StSpinner "Creating assistant and fetching news..."])
             ++ Session.report v ++ [Session.StCode data])%list).
Proof.
  intros Hstrip Hdone Hlist Hc out. subst out. unfold Session.main.
  destruct (strip instructions) as [| c0 rest0]; [now contradiction Hstrip |].
  destruct (session_setup sv "News Summarizer"
              "Get the list of articles/news for the given topic"
              ("summarize the news on this topic " ++ instructions ++ "?")
              "Summarize the news" Session.tools
              (Session.new_manager sv Session.default_model p))
    as (a & t & creation & Ha4 & Ht4 & Hr4 & _).
  set (p4 := Session.run_assitant _ _ _) in *.
  unfold Session.wait_for_run_completion, Session.lift.
  destruct (main_wait_objects (Session.world sv) (S fuel) (Session.manager p4))
    as ((_ & _ & _ & Ht5 & Hr5) & _).
  match type of Hr4 with _ = Some ?run => set (r := run) in * end.
  destruct (main_poll_completed (Session.world sv) fuel (Session.manager p4) t r
              m rest v blocks Ht4 Hr4 (Hdone _ _ _) (Hlist _ _) Hc)
    as (Hfst & Hsum & _).
  assert (Hwait : Main.wait_for_run_completion (Session.world sv) (S fuel)
                    (Session.manager p4)
                  = Main.poll (Session.world sv) (S fuel) (Session.manager p4)).
  { unfold Main.wait_for_run_completion. now rewrite Ht4, Hr4. }
  rewrite Hwait in *.
  destruct (Main.poll (Session.world sv) (S fuel) (Session.manager p4)) as [res m5].
  cbn [fst snd] in Hfst, Hsum, Ht5, Hr5. subst res.
  unfold Session.get_summary, Main.get_summary. cbn [Session.manager]. rewrite Hsum.
  destruct v as [| cv v'].
  - cbn [fst snd Session.manager]. repeat split; try assumption.
    intros H. now contradiction H.
  - unfold Session.run_steps. cbn [Session.manager Session.journal Session.model].
    rewrite Ht5, Hr5, Ht4, Hr4. cbn [fst snd Session.manager].
    repeat split; try assumption; try discriminate.
    intros _. eexists. reflexivity.
Qed.

Lemma main_shows_the_summary_witness :
  let sv := {| Session.world :=
                 Scenario.world (Scenario.answers 200 []) (Scenario.reports "completed")
                   [Scenario.assistant_message; Scenario.user_message];
               Session.assistants_create := fun _ _ _ _ _ => {| assistant_obj_id := "asst_1" |};
               Session.runs_create := fun _ _ _ _ => {| run_obj_id := "run_1" |};
               Session.steps_list := fun _ _ _ => [] |} in
  fst (fst (Session.main sv 1 "bitcoin" true Session.fresh)) = Session.Returned
  /\ Session.get_summary (snd (Session.main sv 1 "bitcoin" true Session.fresh))
     = Some "Bitcoin news is mixed.".
Proof.
  intros sv.
  destruct (main_shows_the_summary sv 0 "bitcoin" Session.fresh
              Scenario.assistant_message [Scenario.user_message]
              "Bitcoin news is mixed." [] ltac:(discriminate)
              (fun _ _ _ => eq_refl) (fun _ _ => eq_refl) eq_refl)
    as (Hout & Hsum & _).
  split; [exact Hout | exact Hsum].
Defined.

(** ** One search per request *)

Lemma for_each_action_events
    (resolve : list event -> ToolCall -> list event * result ToolOutput)
    (g : ToolCall -> event) (calls : list ToolCall) :
  (forall h a, In a calls ->
     fst (resolve h a) = [g a] /\ is_ok (snd (resolve h a)) = true) ->
  forall h,
    fst (for_each_action resolve h calls) = rev (map g calls)
    /\ is_ok (snd (for_each_action resolve h calls)) = true.
Proof.
  induction calls as [| a rest IH]; intros Hall h; simpl; [now split |].
  destruct (Hall h a (or_introl eq_refl)) as [Hev Hok].
  destruct (resolve h a) as [evs [out | e]]; cbn [fst snd is_ok] in *; [| discriminate].
  subst evs.
  assert (Hrest : forall h' a', In a' rest ->
                    fst (resolve h' a') = [g a'] /\ is_ok (snd (resolve h' a')) = true)
    by (intros h' a' Hin; apply Hall; now right).
  destruct (IH Hrest ([g a] ++ h)%list) as [Hevs Hoks].
  destruct (for_each_action resolve ([g a] ++ h) rest) as [evs' [outs | e]];
    cbn [fst snd is_ok] in *; [| discriminate].
  now subst evs'.
Qed.

Lemma main_resolve_action_search (w : World) (h : list event) (a : ToolCall)
    (arguments topic : json) :
  function_name a = "get_news" ->
  json_loads w (function_arguments a) = Ok arguments ->
  getitem arguments "topic" = Ok topic ->
  is_ok (snd (Main.get_news w h topic)) = true ->
  fst (Main.resolve_action w h a) = [EvHttpGet (Main.news_url w topic)]
  /\ is_ok (snd (Main.resolve_action w h a)) = true.
Proof.
  intros Hname Hl Ht Hok. unfold Main.resolve_action.
  rewrite Hl, Hname, String.eqb_refl, Ht.
  unfold Main.get_news in *. cbn [snd] in Hok.
  destruct (except_RequestException _); [now split | discriminate].
Qed.

Lemma sentiment_resolve_action_search (w : World) (h : list event) (a : ToolCall)
    (arguments topic page_size : json) :
  function_name a = "get_news_for_sentiment" ->
  json_loads w (function_arguments a) = Ok arguments ->
  getitem arguments "topic" = Ok topic ->
  get arguments "page_size" (JInt 10) = Ok page_size ->
  is_ok (snd (Sentiment.get_news_for_sentiment w h topic page_size)) = true ->
  fst (Sentiment.resolve_action w h a)
  = [EvHttpGet (Sentiment.news_url w topic page_size)]
  /\ is_ok (snd (Sentiment.resolve_action w h a)) = true.
Proof.
  intros Hname Hl Ht Hp Hok. unfold Sentiment.resolve_action.
  rewrite Hl, Hname, String.eqb_refl, Ht, Hp.
  unfold Sentiment.get_news_for_sentiment in *. cbn [snd] in Hok.
  destruct (except_RequestException _); [now split | discriminate].
Qed.

(** X20.  One search per request: in a cycle of a run with a thread whose
    requests name the known function and whose fetches return, the calls made
    are exactly one search per request, for the topic of the request and in
    the order of the requests, followed by the one submission.  The search of
    [get_news_for_sentiment] asks for the page size the arguments give, and
    for 10 when they give none. *)
Theorem one_search_per_request (w : World) (calls : list ToolCall)
    (topic_of page_size_of : ToolCall -> json) :
  (forall (s : Main.State) (r : Run) (t : Thread),
      Main.run s = Some r -> Main.thread s = Some t ->
      (forall a, In a calls ->
         function_name a = "get_news"
         /\ (exists arguments,
               json_loads w (function_arguments a) = Ok arguments
               /\ getitem arguments "topic" = Ok (topic_of a))
         /\ forall h, is_ok (snd (Main.get_news w h (topic_of a))) = true) ->
      exists outs,
        Main.trace (snd (Main.call_required_functions w calls s))
        = EvSubmitToolOutputs (thread_obj_id t) (run_obj_id r) outs
            :: (rev (map (fun a => EvHttpGet (Main.news_url w (topic_of a))) calls)
                  ++ Main.trace s)%list)
  /\ (forall (s : Sentiment.State) (r : Run) (t : Thread),
      Sentiment.run s = Some r -> Sentiment.thread s = Some t ->
      (forall a, In a calls ->
         function_name a = "get_news_for_sentiment"
         /\ (exists d,
               json_loads w (function_arguments a) = Ok (JDict d)
               /\ dict_lookup "topic" d = Some (topic_of a)
               /\ page_size_of a = lookup_or "page_size" d (JInt 10))
         /\ forall h,
             is_ok (snd (Sentiment.get_news_for_sentiment w h (topic_of a)
                           (page_size_of a))) = true) ->
      exists outs,
        Sentiment.trace (snd (Sentiment.call_sentiment_functions w calls s))
        = EvSubmitToolOutputs (thread_obj_id t) (run_obj_id r) outs
            :: (rev (map (fun a =>
                            EvHttpGet (Sentiment.news_url w (topic_of a) (page_size_of a)))
                       calls)
                  ++ Sentiment.trace s)%list).
Proof.
  split.
  - intros s r t Hr Ht Hcalls.
    pose proof (main_call_cases w s r calls Hr) as Hcases. cbv zeta in Hcases.
    rewrite Ht in Hcases.
    destruct (for_each_action_events (Main.resolve_action w)
                (fun a => EvHttpGet (Main.news_url w (topic_of a))) calls) with
      (h := Main.trace s) as [Hev Hok].
    { intros h a Hin. destruct (Hcalls a Hin) as (Hname & (args & Hl & Htopic) & Hfetch).
      exact (main_resolve_action_search w h a args (topic_of a) Hname Hl Htopic (Hfetch h)). }
    fold (Main.resolve_actions w (Main.trace s) calls) in Hev, Hok.
    destruct (snd (Main.resolve_actions w (Main.trace s) calls)) as [outs | e];
      [| discriminate].
    exists outs. rewrite (proj2 Hcases), Hev. reflexivity.
  - intros s r t Hr Ht Hcalls.
    pose proof (sentiment_call_cases w s r calls Hr) as Hcases. cbv zeta in Hcases.
    rewrite Ht in Hcases.
    destruct (for_each_action_events (Sentiment.resolve_action w)
                (fun a => EvHttpGet (Sentiment.news_url w (topic_of a) (page_size_of a)))
                calls) with (h := Sentiment.trace s) as [Hev Hok].
    { intros h a Hin.
      destruct (Hcalls a Hin) as (Hname & (d & Hl & Htopic & Hps) & Hfetch).
      apply (sentiment_resolve_action_search w h a (JDict d) (topic_of a) (page_size_of a)
               Hname Hl).
      - unfold getitem. now rewrite Htopic.
      - rewrite Hps. apply get_lookup_or.
      - apply Hfetch. }
    fold (Sentiment.resolve_actions w (Sentiment.trace s) calls) in Hev, Hok.
    destruct (snd (Sentiment.resolve_actions w (Sentiment.trace s) calls)) as [outs | e];
      [| discriminate].
    exists outs. rewrite (proj2 Hcases), Hev. reflexivity.
Qed.

Lemma one_search_per_request_witness :
  let w := Scenario.world (Scenario.answers 200 [Scenario.full_article])
             (Scenario.reports "requires_action") [] in
  let calls := [Scenario.sentiment_call "call_1"; Scenario.sentiment_call "call_2"] in
  exists outs,
    Sentiment.trace (snd (Sentiment.call_sentiment_functions w calls Scenario.analysing))
    = [EvSubmitToolOutputs "thread_1" "run_1" outs;
       EvHttpGet
         ("https://newsapi.org/v2/everything?q=bitcoin&apiKey=key&pageSize=10"
          ++ "&sortBy=publishedAt&language=en");
       EvHttpGet
         ("https://newsapi.org/v2/everything?q=bitcoin&apiKey=key&pageSize=10"
          ++ "&sortBy=publishedAt&language=en")].
Proof.
  intros w calls.
  apply (proj2 (one_search_per_request w calls (fun _ => JStr "bitcoin") (fun _ => JInt 10))
           Scenario.analysing {| run_obj_id := "run_1" |} {| thread_obj_id := "thread_1" |}
           eq_refl eq_refl).
  intros a [<- | [<- | []]]; (split; [reflexivity |]);
    (split; [exists [("topic", JStr "bitcoin")]; now repeat split | reflexivity]).
Defined.

(** ** Exceptions in [main] *)

Lemma init_summary (w : World) (s : Main.State) :
  Main.summary (Main.__init__ w s) = None.
Proof.
  unfold Main.__init__. cbn [Main.thread_id Main.assistant_id Main.trace].
  destruct (truthy (Main.assistant_id s));
    cbn [Main.thread_id Main.assistant_id Main.trace Main.summary];
    destruct (truthy (Main.thread_id s)); reflexivity.
Qed.

Lemma session_setup_summary (sv : Session.Service)
    (name instructions content run_instructions : string) (tools : json)
    (p0 : Session.Process) :
  Main.summary
    (Session.manager
       (Session.run_assitant sv run_instructions
          (Session.add_message_to_thread "user" content
             (Session.create_thread sv
                (Session.create_assistant sv name instructions tools p0)))))
  = Main.summary (Session.manager p0).
Proof.
  destruct p0 as [[tid0 aid0 oa ot r0 sm0 tr0] md j0].
  unfold Session.create_assistant, Session.create_thread, Session.lift,
    Main.create_thread, Session.add_message_to_thread, Session.run_assitant.
  destruct oa as [a0 |], ot as [t0 |]; reflexivity.
Qed.

(** X21.  [main] of [main.py] catches nothing: with a topic that is not
    blank, in any process, when the run requires a function other than
    [get_news] (its arguments decoding), the [ValueError] of the unknown
    function leaves [main] at the first poll; the page then holds the form
    and the spinner only, neither a summary nor an error message, and no
    summary is stored. *)
Theorem main_does_not_catch (sv : Session.Service) (fuel : nat) (instructions : string)
    (p : Session.Process) (a : ToolCall) (post : list ToolCall) :
  strip instructions <> [] ->
  (forall h tid rid,
      status (runs_retrieve (Session.world sv) h tid rid) = "requires_action"
      /\ required_action (runs_retrieve (Session.world sv) h tid rid) = Some (a :: post)) ->
  function_name a <> "get_news" ->
  is_ok (json_loads (Session.world sv) (function_arguments a)) = true ->
  let out := Session.main sv (S fuel) instructions true p in
  fst (fst out)
  = Session.Raised (ValueError ("Unknown function: " ++ function_name a))
  /\ snd (fst out)
     = (Session.form ++ [Session.StSpinner "Creating assistant and fetching news..."])%list
  /\ Session.get_summary (snd out) = None.
Proof.
  intros Hstrip Hasks Hname Hargs out. subst out. unfold Session.main.
  destruct (strip instructions) as [| c0 rest0]; [now contradiction Hstrip |].
  destruct (session_setup sv "News Summarizer"
              "Get the list of articles/news for the given topic"
              ("summarize the news on this topic " ++ instructions ++ "?")
              "Summarize the news" Session.tools
              (Session.new_manager sv Session.default_model p))
    as (a4 & t & creation & Ha4 & Ht4 & Hr4 & _).
  pose proof (session_setup_summary sv "News Summarizer"
                "Get the list of articles/news for the given topic"
                ("summarize the news on this topic " ++ instructions ++ "?")
                "Summarize the news" Session.tools
                (Session.new_manager sv Session.default_model p)) as Hsum4.
  unfold Session.new_manager in Hsum4 at 2. cbn [Session.manager] in Hsum4.
  rewrite init_summary in Hsum4.
  set (p4 := Session.run_assitant _ _ _) in *.
  match type of Hr4 with _ = Some ?run => set (r := run) in * end.
  unfold Session.wait_for_run_completion, Session.lift, Main.wait_for_run_completion.
  rewrite Ht4, Hr4.
  destruct (Hasks (EvSleep 5 :: Main.trace (Session.manager p4))
              (thread_obj_id t) (run_obj_id r)) as [Hst Hreq].
  rewrite (main_poll_requires_action (Session.world sv) fuel (Session.manager p4) t r
             (a :: post) Ht4 Hr4 Hst Hreq).
  set (s2 := Main.log _ (Main.log _ (Session.manager p4))).
  destruct (main_unknown_function (Session.world sv) [] post a s2 r Hr4 Hname)
    as (_ & _ & Hvalue).
  destruct (main_call_frame (Session.world sv) s2 (a :: post)) as (_ & _ & Hsum & _).
  specialize (Hvalue eq_refl Hargs). cbn [app] in Hvalue.
  destruct (Main.call_required_functions (Session.world sv) (a :: post) s2)
    as [res s3]. cbn [fst snd] in Hvalue, Hsum. subst res.
  cbn [fst snd]. unfold Session.get_summary, Main.get_summary. cbn [Session.manager].
  repeat split. rewrite Hsum. exact Hsum4.
Qed.

Lemma main_does_not_catch_witness :
  let sv := {| Session.world :=
                 Scenario.world (Scenario.answers 200 [])
                   (Scenario.asks [Scenario.unknown_call "call_1"]) [];
               Session.assistants_create := fun _ _ _ _ _ => {| assistant_obj_id := "asst_1" |};
               Session.runs_create := fun _ _ _ _ => {| run_obj_id := "run_1" |};
               Session.steps_list := fun _ _ _ => [] |} in
  fst (fst (Session.main sv 3 "bitcoin" true Session.fresh))
  = Session.Raised (ValueError "Unknown function: get_weather").
Proof.
  intros sv.
  apply (main_does_not_catch sv 2 "bitcoin" Session.fresh
           (Scenario.unknown_call "call_1") []);
    try discriminate; try reflexivity.
  intros h tid rid. now split.
Defined.
